(** * weekly_news: LinkAce to Hugo weekly digest generator

    A shallow embedding of [src/main.py] and the properties of its four
    components: [LinkAceClient] (bookmark source), [OpenRouterClient]
    (completion client), [ContentProcessor] (digest composer) and
    [HugoContentGenerator] (site writer), composed by [main].

    Conventions of the model.
    - A Python [str] is a [string] holding its UTF-8 bytes.
    - Python exceptions are values of [exn]; a computation that may raise
      returns a [result].
    - The outside world (environment variables, the clock, the two remote
      services, the terminal, the file system, the log) is an explicit
      [World] threaded through a state-and-exception monad [M].
    - The library functions the program calls are modelled alongside it:
      [datetime] (fields, comparison, subtraction of days through the
      proleptic Gregorian ordinal, [strftime] in the C locale,
      [fromisoformat] with the grammar it had before Python 3.11),
      [requests] (version 2.27 or later, where a body that is not JSON
      raises a [RequestException]), [json], [pathlib] on POSIX paths, and
      the file system as a set of directories and a map of files.
    - A [Link] holds the values it was built from, as the dataclass does:
      no field is checked against its annotation. *)

From Stdlib Require Import ZArith Ascii String List Lia DecimalString QArith.
From stdpp Require Import base option list strings gmap.

Local Open Scope string_scope.
Local Open Scope Z_scope.
Local Open Scope list_scope.
Local Set Warnings "-register-all".

(** ** Python strings *)

Module PyStr.

Definition code (c : ascii) : Z := Z.of_N (N_of_ascii c).

Definition is_digit (c : ascii) : bool := (48 <=? code c) && (code c <=? 57).

Definition digit_val (c : ascii) : Z := code c - 48.

(** [str(n)] for an integer. *)
Definition of_Z (n : Z) : string := NilZero.string_of_int (Z.to_int n).

Fixpoint zfill_go (k : nat) (s : string) : string :=
  match k with
  | O => s
  | S k' => zfill_go k' (String "0" s)
  end.

(** [s.zfill(w)] for an unsigned numeral: the ["%02d"]-style padding that
    [strftime] applies to its numeric fields. *)
Definition zfill (w : nat) (s : string) : string :=
  zfill_go (w - String.length s) s.

Definition pad (w : nat) (n : Z) : string := zfill w (of_Z n).

(** The value of [n] decimal digits starting at [pos]; [None] when the
    string is too short or holds something else there. *)
Fixpoint digits_go (s : string) (n : nat) (acc : Z) : option Z :=
  match n with
  | O => Some acc
  | S n' =>
      match s with
      | String c s' =>
          if is_digit c then digits_go s' n' (10 * acc + digit_val c) else None
      | EmptyString => None
      end
  end.

Fixpoint drop (pos : nat) (s : string) : string :=
  match pos, s with
  | O, _ => s
  | S p, String _ s' => drop p s'
  | S _, EmptyString => EmptyString
  end.

Definition digits_at (s : string) (pos n : nat) : option Z :=
  digits_go (drop pos s) n 0.

(** [s[:n]] *)
Fixpoint take (n : nat) (s : string) : string :=
  match n, s with
  | O, _ => EmptyString
  | S n', String c s' => String c (take n' s')
  | S _, EmptyString => EmptyString
  end.

(** [s.replace(c, by_)] for a one-character pattern: every occurrence is
    replaced. *)
Fixpoint replace_char (c : ascii) (by_ : string) (s : string) : string :=
  match s with
  | EmptyString => EmptyString
  | String a s' =>
      if Ascii.eqb a c then by_ +:+ replace_char c by_ s'
      else String a (replace_char c by_ s')
  end.

(** [s.find(c)] for a one-character pattern: the index of the first
    occurrence. *)
Fixpoint find_char (c : ascii) (s : string) : option nat :=
  match s with
  | EmptyString => None
  | String a s' =>
      if Ascii.eqb a c then Some O else S <$> find_char c s'
  end.

(** [sep.join(l)] *)
Fixpoint join (sep : string) (l : list string) : string :=
  match l with
  | [] => ""
  | [x] => x
  | x :: l' => x +:+ sep +:+ join sep l'
  end.

(** [s.split(c)] for a one-character separator. *)
Fixpoint split_go (c : ascii) (cur : string) (s : string) : list string :=
  match s with
  | EmptyString => [String.rev cur]
  | String a s' =>
      if Ascii.eqb a c then String.rev cur :: split_go c "" s'
      else split_go c (String a cur) s'
  end.

Definition split (c : ascii) (s : string) : list string := split_go c "" s.

(** *** Whitespace

    [str.strip()] removes the characters for which [str.isspace] holds:
    U+0009..U+000D, U+001C..U+0020, U+0085, U+00A0, U+1680,
    U+2000..U+200A, U+2028, U+2029, U+202F, U+205F and U+3000.  On the
    UTF-8 bytes these are one-, two- and three-byte sequences. *)

Definition ws1 (a : ascii) : bool :=
  let n := code a in
  ((9 <=? n) && (n <=? 13)) || ((28 <=? n) && (n <=? 32)).

Definition ws2 (a b : ascii) : bool :=
  (code a =? 194) && ((code b =? 133) || (code b =? 160)).

Definition ws3 (a b c : ascii) : bool :=
  let x := code a in
  let y := code b in
  let z := code c in
  ((x =? 225) && (y =? 154) && (z =? 128))
  || ((x =? 226) && (y =? 128)
      && (((128 <=? z) && (z <=? 138)) || (z =? 168) || (z =? 169) || (z =? 175)))
  || ((x =? 226) && (y =? 129) && (z =? 159))
  || ((x =? 227) && (y =? 128) && (z =? 128)).

(** Removes leading whitespace.  With [backwards] the string is read from
    its end (it is given reversed), so the bytes of a character arrive
    last byte first. *)
Fixpoint lstrip_go (backwards : bool) (s : string) : string :=
  match s with
  | EmptyString => EmptyString
  | String a s1 =>
      if ws1 a then lstrip_go backwards s1
      else
        match s1 with
        | EmptyString => s
        | String b s2 =>
            if (if backwards then ws2 b a else ws2 a b)
            then lstrip_go backwards s2
            else
              match s2 with
              | EmptyString => s
              | String c s3 =>
                  if (if backwards then ws3 c b a else ws3 a b c)
                  then lstrip_go backwards s3
                  else s
              end
        end
  end.

Definition lstrip (s : string) : string := lstrip_go false s.

Definition rstrip (s : string) : string :=
  String.rev (lstrip_go true (String.rev s)).

(** [s.strip()] *)
Definition strip (s : string) : string := rstrip (lstrip s).

Fixpoint lstrip_char (c : ascii) (s : string) : string :=
  match s with
  | EmptyString => EmptyString
  | String a s' => if Ascii.eqb a c then lstrip_char c s' else s
  end.

(** [s.rstrip(c)] for a one-character set. *)
Definition rstrip_char (c : ascii) (s : string) : string :=
  String.rev (lstrip_char c (String.rev s)).

(** Truthiness of a string: [bool(s)]. *)
Definition truthy (s : string) : bool :=
  match s with
  | EmptyString => false
  | String _ _ => true
  end.

(** [s * n] *)
Fixpoint repeat (s : string) (n : nat) : string :=
  match n with
  | O => ""
  | S n' => s +:+ repeat s n'
  end.

(** [p in s] for strings. *)
Fixpoint contains (p s : string) : bool :=
  String.prefix p s
  || match s with
     | EmptyString => false
     | String _ s' => contains p s'
     end.

(** A continuation byte of a multi-byte UTF-8 sequence. *)
Definition is_cont (a : ascii) : bool := (128 <=? code a) && (code a <? 192).

Definition starts_with_cont (s : string) : bool :=
  match s with
  | String a _ => is_cont a
  | EmptyString => false
  end.

(** The characters (code points) of a string, each as a string of its own:
    what iterating over a [str] yields. *)
Fixpoint chars (s : string) : list string :=
  match s with
  | EmptyString => []
  | String a s' =>
      match chars s' with
      | c :: r =>
          if starts_with_cont c then String a c :: r
          else String a "" :: c :: r
      | [] => [String a ""]
      end
  end.

(** [len(s)]: the number of characters. *)
Definition len (s : string) : Z := Z.of_nat (List.length (chars s)).

(** [s[:n]], counted in characters. *)
Definition take_chars (n : nat) (s : string) : string :=
  join "" (List.firstn n (chars s)).

(** [str(v)] for a value that may be [None]. *)
Definition of_option (o : option string) : string := default "None" o.

(** The digits of an [int] literal: single underscores may separate
    digits. *)
Fixpoint int_digits (s : string) (acc : Z) (after_digit : bool) : option Z :=
  match s with
  | EmptyString => if after_digit then Some acc else None
  | String c s' =>
      if is_digit c then int_digits s' (10 * acc + digit_val c) true
      else if Ascii.eqb c "_" && after_digit then
        match s' with
        | String d _ => if is_digit d then int_digits s' acc false else None
        | EmptyString => None
        end
      else None
  end.

(** [int(s)]: surrounding whitespace and a sign are accepted; [None]
    stands for [ValueError]. *)
Definition to_int (s : string) : option Z :=
  match strip s with
  | String "-" r => Z.opp <$> int_digits r 0 false
  | String "+" r => int_digits r 0 false
  | r => int_digits r 0 false
  end.

(** The double quote, and the line feed. *)
Definition DQ : string := String "034" "".
Definition NL : string := String "010" "".

End PyStr.


(** ** Exceptions and results *)

(** The exception classes the program can meet.  [RequestException] stands
    for the subclasses of [requests.RequestException] raised by the
    transport ([ConnectionError], [Timeout], [HTTPError],
    [TooManyRedirects], ...): [cls] is the class name, [response] the
    status and text of the attached response when there is one.
    [RequestsJSONDecodeError] is what [Response.json()] raises on a body
    that is not JSON: it inherits from both [RequestException] and
    [ValueError].  [OSError] covers its subclasses ([FileNotFoundError],
    [FileExistsError], [IsADirectoryError], ...).  [OtherException] is any
    further subclass of [Exception].  [IllTyped] is no Python exception: it
    stands in the one place where a value is read as the string that an
    earlier step has found it to be, for the case that cannot arise. *)
Inductive exn : Type :=
  | RequestException (cls : string) (msg : string) (response : option (Z * string))
  | RequestsJSONDecodeError (msg : string)
  | KeyError (key_repr : string)
  | ValueError (msg : string)
  | TypeError (msg : string)
  | AttributeError (msg : string)
  | IndexError (msg : string)
  | OverflowError (msg : string)
  | EOFError (msg : string)
  | OSError (cls : string) (msg : string)
  | OtherException (cls : string) (msg : string)
  | IllTyped (field : string).

(** [isinstance(e, requests.RequestException)] *)
Definition is_RequestException (e : exn) : bool :=
  match e with
  | RequestException _ _ _ | RequestsJSONDecodeError _ => true
  | _ => false
  end.

(** [isinstance(e, KeyError)] *)
Definition is_KeyError (e : exn) : bool :=
  match e with
  | KeyError _ => true
  | _ => false
  end.

(** [isinstance(e, ValueError)] *)
Definition is_ValueError (e : exn) : bool :=
  match e with
  | ValueError _ | RequestsJSONDecodeError _ => true
  | _ => false
  end.

(** [type(e).__name__] *)
Definition exn_name (e : exn) : string :=
  match e with
  | RequestException cls _ _ => cls
  | RequestsJSONDecodeError _ => "JSONDecodeError"
  | KeyError _ => "KeyError"
  | ValueError _ => "ValueError"
  | TypeError _ => "TypeError"
  | AttributeError _ => "AttributeError"
  | IndexError _ => "IndexError"
  | OverflowError _ => "OverflowError"
  | EOFError _ => "EOFError"
  | OSError cls _ => cls
  | OtherException cls _ => cls
  | IllTyped _ => "IllTyped"
  end.

(** [str(e)] *)
Definition exn_str (e : exn) : string :=
  match e with
  | RequestException _ msg _ => msg
  | RequestsJSONDecodeError msg => msg
  | KeyError key_repr => key_repr
  | ValueError msg => msg
  | TypeError msg => msg
  | AttributeError msg => msg
  | IndexError msg => msg
  | OverflowError msg => msg
  | EOFError msg => msg
  | OSError _ msg => msg
  | OtherException _ msg => msg
  | IllTyped field => field
  end.

(** The outcome of evaluating a Python expression: a value, or an
    exception raised. *)
Inductive result (A : Type) : Type :=
  | Ok (a : A)
  | Raise (e : exn).

Arguments Ok {A} a.
Arguments Raise {A} e.

Definition rbind {A B : Type} (r : result A) (k : A -> result B) : result B :=
  match r with
  | Ok a => k a
  | Raise e => Raise e
  end.

Definition of_option {A : Type} (o : option A) (e : exn) : result A :=
  match o with
  | Some a => Ok a
  | None => Raise e
  end.

(** ** [datetime] *)

Module Datetime.

(** A [datetime.datetime]: the wall-clock fields and [tzinfo].  A naive
    value has [tzinfo = None]; an aware one carries its UTC offset, in
    microseconds. *)
Record datetime : Type := mk_datetime {
  year : Z;
  month : Z;
  day : Z;
  hour : Z;
  minute : Z;
  second : Z;
  microsecond : Z;
  tzinfo : option Z
}.

(** [timezone.utc] *)
Definition utc : option Z := Some 0.

Definition MAXORDINAL : Z := 3652059.

Definition is_leap (y : Z) : bool :=
  (y mod 4 =? 0) && (negb (y mod 100 =? 0) || (y mod 400 =? 0)).

Definition DAYS_IN_MONTH (m : Z) : Z :=
  match m with
  | 1 => 31 | 2 => 28 | 3 => 31 | 4 => 30 | 5 => 31 | 6 => 30
  | 7 => 31 | 8 => 31 | 9 => 30 | 10 => 31 | 11 => 30 | 12 => 31
  | _ => 0
  end.

Definition DAYS_BEFORE_MONTH (m : Z) : Z :=
  match m with
  | 1 => 0 | 2 => 31 | 3 => 59 | 4 => 90 | 5 => 120 | 6 => 151
  | 7 => 181 | 8 => 212 | 9 => 243 | 10 => 273 | 11 => 304 | 12 => 334
  | _ => 0
  end.

Definition days_in_month (y m : Z) : Z :=
  if (m =? 2) && is_leap y then 29 else DAYS_IN_MONTH m.

Definition days_before_year (y : Z) : Z :=
  let y' := y - 1 in
  y' * 365 + y' / 4 - y' / 100 + y' / 400.

Definition days_before_month (y m : Z) : Z :=
  DAYS_BEFORE_MONTH m + (if (2 <? m) && is_leap y then 1 else 0).

(** [_ymd2ord]: the proleptic Gregorian ordinal, 0001-01-01 being day 1. *)
Definition ymd2ord (y m d : Z) : Z :=
  days_before_year y + days_before_month y m + d.

Definition DI400Y : Z := 146097.
Definition DI100Y : Z := 36524.
Definition DI4Y : Z := 1461.

(** [_ord2ymd] *)
Definition ord2ymd (n : Z) : Z * Z * Z :=
  let n := n - 1 in
  let n400 := n / DI400Y in
  let n := n mod DI400Y in
  let y := n400 * 400 + 1 in
  let n100 := n / DI100Y in
  let n := n mod DI100Y in
  let n4 := n / DI4Y in
  let n := n mod DI4Y in
  let n1 := n / 365 in
  let n := n mod 365 in
  let y := y + n100 * 100 + n4 * 4 + n1 in
  if (n1 =? 4) || (n100 =? 4) then (y - 1, 12, 31)
  else
    let leapyear := (n1 =? 3) && (negb (n4 =? 24) || (n100 =? 3)) in
    let m := Z.shiftr (n + 50) 5 in
    let preceding :=
      DAYS_BEFORE_MONTH m + (if (2 <? m) && leapyear then 1 else 0) in
    if n <? preceding then
      let m' := m - 1 in
      let preceding' :=
        preceding
        - (DAYS_IN_MONTH m' + (if (m' =? 2) && leapyear then 1 else 0)) in
      (y, m', n - preceding' + 1)
    else (y, m, n - preceding + 1).

(** The range checks of the [datetime] constructor. *)
Definition fields_ok (y mo d h mi s us : Z) : bool :=
  (1 <=? y) && (y <=? 9999) && (1 <=? mo) && (mo <=? 12)
  && (1 <=? d) && (d <=? days_in_month y mo)
  && (0 <=? h) && (h <=? 23) && (0 <=? mi) && (mi <=? 59)
  && (0 <=? s) && (s <=? 59) && (0 <=? us) && (us <=? 999999).

Definition valid (d : datetime) : Prop :=
  fields_ok (year d) (month d) (day d) (hour d) (minute d) (second d)
    (microsecond d) = true.

(** [d.replace(tzinfo=tz)]: the fields stay, only the label changes. *)
Definition replace_tzinfo (d : datetime) (tz : option Z) : datetime :=
  mk_datetime (year d) (month d) (day d) (hour d) (minute d) (second d)
    (microsecond d) tz.

Definition US_PER_DAY : Z := 86400 * 1000000.

(** Microseconds of wall-clock time since 0001-01-01T00:00:00. *)
Definition wall (d : datetime) : Z :=
  (ymd2ord (year d) (month d) (day d) - 1) * US_PER_DAY
  + ((hour d * 60 + minute d) * 60 + second d) * 1000000
  + microsecond d.

(** The instant an aware value denotes, as microseconds of UTC since
    0001-01-01T00:00:00Z; a naive value is read as UTC. *)
Definition instant (d : datetime) : Z :=
  wall d - default 0 (tzinfo d).

Definition fields_cmp (a b : datetime) : comparison :=
  match year a ?= year b with
  | Eq =>
      match month a ?= month b with
      | Eq =>
          match day a ?= day b with
          | Eq =>
              match hour a ?= hour b with
              | Eq =>
                  match minute a ?= minute b with
                  | Eq =>
                      match second a ?= second b with
                      | Eq => microsecond a ?= microsecond b
                      | c => c
                      end
                  | c => c
                  end
              | c => c
              end
          | c => c
          end
      | c => c
      end
  | c => c
  end.

(** [datetime._cmp]: values with the same offset (or both naive) are
    compared field by field; with different offsets the instants are
    compared; a naive and an aware value do not compare. *)
Definition cmp (a b : datetime) : result comparison :=
  match tzinfo a, tzinfo b with
  | None, None => Ok (fields_cmp a b)
  | Some oa, Some ob =>
      if oa =? ob then Ok (fields_cmp a b)
      else Ok (instant a ?= instant b)
  | _, _ =>
      Raise (TypeError "can't compare offset-naive and offset-aware datetimes")
  end.

(** [a >= b] *)
Definition ge (a b : datetime) : result bool :=
  rbind (cmp a b) (fun c =>
  Ok match c with Lt => false | _ => true end).

(** [d - timedelta(days=n)]: the date goes through its ordinal, the time of
    day and [tzinfo] stay. *)
Definition sub_days (d : datetime) (n : Z) : result datetime :=
  let o := ymd2ord (year d) (month d) (day d) - n in
  if (0 <? o) && (o <=? MAXORDINAL) then
    let '(y, m, dd) := ord2ymd o in
    Ok (mk_datetime y m dd (hour d) (minute d) (second d) (microsecond d)
          (tzinfo d))
  else Raise (OverflowError "date value out of range").

(** *** [strftime] *)

Definition month_name (m : Z) : string :=
  match m with
  | 1 => "January" | 2 => "February" | 3 => "March" | 4 => "April"
  | 5 => "May" | 6 => "June" | 7 => "July" | 8 => "August"
  | 9 => "September" | 10 => "October" | 11 => "November"
  | 12 => "December"
  | _ => ""
  end.

(** [%z]: empty for a naive value, otherwise [+HHMM], with seconds and
    microseconds when the offset has them. *)
Definition format_z (tz : option Z) : string :=
  match tz with
  | None => ""
  | Some off =>
      let sign := if off <? 0 then "-" else "+" in
      let a := Z.abs off in
      let h := a / 3600000000 in
      let r := a mod 3600000000 in
      let m := r / 60000000 in
      let r := r mod 60000000 in
      let s := r / 1000000 in
      let u := r mod 1000000 in
      sign +:+ PyStr.pad 2 h +:+ PyStr.pad 2 m
      +:+ (if negb (u =? 0) then PyStr.pad 2 s +:+ "." +:+ PyStr.pad 6 u
           else if negb (s =? 0) then PyStr.pad 2 s
           else "")
  end.

(** One [strftime] directive, in the C locale. *)
Definition directive (c : ascii) (d : datetime) : string :=
  match c with
  | "Y"%char => PyStr.pad 4 (year d)
  | "m"%char => PyStr.pad 2 (month d)
  | "d"%char => PyStr.pad 2 (day d)
  | "H"%char => PyStr.pad 2 (hour d)
  | "M"%char => PyStr.pad 2 (minute d)
  | "S"%char => PyStr.pad 2 (second d)
  | "B"%char => month_name (month d)
  | "z"%char => format_z (tzinfo d)
  | "%"%char => "%"
  | _ => String "%" (String c "")
  end.

(** [d.strftime(fmt)] *)
Fixpoint strftime (fmt : string) (d : datetime) : string :=
  match fmt with
  | EmptyString => ""
  | String a rest =>
      match rest with
      | String c rest' =>
          if Ascii.eqb a "%" then directive c d +:+ strftime rest' d
          else String a (strftime rest d)
      | EmptyString => String a ""
      end
  end.

(** *** [fromisoformat]

    The grammar of [datetime.fromisoformat] before Python 3.11, the one for
    which callers rewrite a trailing [Z]:
    [YYYY-MM-DD[*HH[:MM[:SS[.fff[fff]]]][+HH:MM[:SS[.ffffff]]]]]. *)

Definition char_is (s : string) (pos : nat) (c : ascii) : bool :=
  match String.get pos s with
  | Some a => Ascii.eqb a c
  | None => false
  end.

(** [_parse_isoformat_date], on the first ten characters. *)
Definition parse_isoformat_date (s : string) : option (Z * Z * Z) :=
  y ← PyStr.digits_at s 0 4;
  mo ← PyStr.digits_at s 5 2;
  d ← PyStr.digits_at s 8 2;
  if char_is s 4 "-" && char_is s 7 "-" then Some (y, mo, d) else None.

(** [_parse_hh_mm_ss_ff]: [HH[:MM[:SS[.fff[fff]]]]]. *)
Definition parse_hh_mm_ss_ff (t : string) : option (Z * Z * Z * Z) :=
  h ← PyStr.digits_at t 0 2;
  match String.get 2 t with
  | None => Some (h, 0, 0, 0)
  | Some c2 =>
      if negb (Ascii.eqb c2 ":") then None
      else
        mi ← PyStr.digits_at t 3 2;
        match String.get 5 t with
        | None => Some (h, mi, 0, 0)
        | Some c5 =>
            if negb (Ascii.eqb c5 ":") then None
            else
              sec ← PyStr.digits_at t 6 2;
              match String.get 8 t with
              | None => Some (h, mi, sec, 0)
              | Some c8 =>
                  if negb (Ascii.eqb c8 ".") then None
                  else
                    match (String.length t - 9)%nat with
                    | 3%nat =>
                        f ← PyStr.digits_at t 9 3; Some (h, mi, sec, f * 1000)
                    | 6%nat =>
                        f ← PyStr.digits_at t 9 6; Some (h, mi, sec, f)
                    | _ => None
                    end
              end
        end
  end.

(** [_parse_isoformat_time]: the time of day and the offset, if any.  The
    offset starts at the first [-], or else at the first [+]; it must lie
    strictly within a day. *)
Definition parse_isoformat_time (t : string)
  : option (Z * Z * Z * Z * option Z) :=
  if (String.length t <? 2)%nat then None
  else
    let tz_pos :=
      match PyStr.find_char "-" t with
      | Some i => Some i
      | None => PyStr.find_char "+" t
      end in
    match tz_pos with
    | None =>
        '(h, mi, sec, us) ← parse_hh_mm_ss_ff t;
        Some (h, mi, sec, us, None)
    | Some i =>
        '(h, mi, sec, us) ← parse_hh_mm_ss_ff (PyStr.take i t);
        let tzstr := PyStr.drop (S i) t in
        let n := String.length tzstr in
        if negb ((n =? 5)%nat || (n =? 8)%nat || (n =? 15)%nat) then None
        else
          '(zh, zm, zs, zu) ← parse_hh_mm_ss_ff tzstr;
          let mag := ((zh * 60 + zm) * 60 + zs) * 1000000 + zu in
          let sign := if char_is t i "-" then -1 else 1 in
          if mag <? US_PER_DAY then Some (h, mi, sec, us, Some (sign * mag))
          else None
    end.

(** [datetime.fromisoformat(s)] *)
Definition fromisoformat (s : string) : result datetime :=
  let bad := ValueError ("Invalid isoformat string: '" +:+ s +:+ "'") in
  match parse_isoformat_date (PyStr.take 10 s) with
  | None => Raise bad
  | Some (y, mo, d) =>
      let tstr := PyStr.drop 11 s in
      let time :=
        if PyStr.truthy tstr then parse_isoformat_time tstr
        else Some (0, 0, 0, 0, None) in
      match time with
      | None => Raise bad
      | Some (h, mi, sec, us, tz) =>
          if fields_ok y mo d h mi sec us
          then Ok (mk_datetime y mo d h mi sec us tz)
          else Raise (ValueError "field out of range")
      end
  end.

End Datetime.

(** ** JSON values, as [json.loads] and [Response.json()] deliver them *)

Module Json.

(** A decoded JSON document.  A [float] is kept as its [repr]; a [dict] as
    its items in insertion order, looked up by first match. *)
Inductive json : Type :=
  | JNull
  | JBool (b : bool)
  | JInt (n : Z)
  | JFloat (repr : string)
  | JStr (s : string)
  | JArr (l : list json)
  | JObj (items : list (string * json)).

(** [type(v).__name__] *)
Definition type_name (v : json) : string :=
  match v with
  | JNull => "NoneType"
  | JBool _ => "bool"
  | JInt _ => "int"
  | JFloat _ => "float"
  | JStr _ => "str"
  | JArr _ => "list"
  | JObj _ => "dict"
  end.

Fixpoint lookup (k : string) (items : list (string * json)) : option json :=
  match items with
  | [] => None
  | (k', v) :: rest => if String.eqb k' k then Some v else lookup k rest
  end.

Definition key_repr (k : string) : string := "'" +:+ k +:+ "'".

Definition is_str (k : string) (v : json) : bool :=
  match v with
  | JStr s => String.eqb s k
  | _ => false
  end.

(** [k in v] for a string [k] *)
Definition contains (k : string) (v : json) : result bool :=
  match v with
  | JObj items => Ok (bool_decide (is_Some (lookup k items)))
  | JArr l => Ok (existsb (is_str k) l)
  | JStr s => Ok (PyStr.contains k s)
  | _ =>
      Raise (TypeError ("argument of type '" +:+ type_name v
                        +:+ "' is not iterable"))
  end.

(** [v[k]] for a string [k] *)
Definition getitem (v : json) (k : string) : result json :=
  match v with
  | JObj items => of_option (lookup k items) (KeyError (key_repr k))
  | JArr _ => Raise (TypeError "list indices must be integers or slices, not str")
  | JStr _ => Raise (TypeError "string indices must be integers")
  | _ =>
      Raise (TypeError ("'" +:+ type_name v +:+ "' object is not subscriptable"))
  end.

(** [v[0]] *)
Definition getitem0 (v : json) : result json :=
  match v with
  | JArr l => of_option (head l) (IndexError "list index out of range")
  | JStr s =>
      of_option (JStr <$> head (PyStr.chars s))
        (IndexError "string index out of range")
  | JObj _ => Raise (KeyError "0")
  | _ =>
      Raise (TypeError ("'" +:+ type_name v +:+ "' object is not subscriptable"))
  end.

(** [len(v)] *)
Definition len (v : json) : result Z :=
  match v with
  | JArr l => Ok (Z.of_nat (List.length l))
  | JObj items => Ok (Z.of_nat (List.length items))
  | JStr s => Ok (PyStr.len s)
  | _ =>
      Raise (TypeError ("object of type '" +:+ type_name v +:+ "' has no len()"))
  end.

Definition no_attribute (v : json) (name : string) : exn :=
  AttributeError ("'" +:+ type_name v +:+ "' object has no attribute '"
                  +:+ name +:+ "'").

(** [v.get(k, dflt)] *)
Definition get (v : json) (k : string) (dflt : json) : result json :=
  match v with
  | JObj items => Ok (default dflt (lookup k items))
  | _ => Raise (no_attribute v "get")
  end.

(** The elements a [for] loop over [v] visits: the items of a list, the
    keys of a dict, the characters of a string. *)
Definition iter (v : json) : result (list json) :=
  match v with
  | JArr l => Ok l
  | JObj items => Ok (JStr <$> items.*1)
  | JStr s => Ok (JStr <$> PyStr.chars s)
  | _ => Raise (TypeError ("'" +:+ type_name v +:+ "' object is not iterable"))
  end.

(** [v.strip()] *)
Definition strip (v : json) : result string :=
  match v with
  | JStr s => Ok (PyStr.strip s)
  | _ => Raise (no_attribute v "strip")
  end.

(** [v.replace('Z', '+00:00')] *)
Definition replace_Z (v : json) : result string :=
  match v with
  | JStr s => Ok (PyStr.replace_char "Z" "+00:00" s)
  | _ => Raise (no_attribute v "replace")
  end.

(** The string that [v] is: for a value on which a method of [str] has
    succeeded. *)
Definition as_str (field : string) (v : json) : result string :=
  match v with
  | JStr s => Ok s
  | _ => Raise (IllTyped field)
  end.

(** *** [json.dumps] of strings *)

Definition hex_digit (n : Z) : ascii :=
  ascii_of_N (Z.to_N (if n <? 10 then 48 + n else 87 + n)).

(** [\uXXXX] *)
Definition u_escape (n : Z) : string :=
  "\u"
  +:+ String (hex_digit (n / 4096 mod 16))
        (String (hex_digit (n / 256 mod 16))
           (String (hex_digit (n / 16 mod 16))
              (String (hex_digit (n mod 16)) ""))).

(** The code point of one UTF-8 encoded character. *)
Definition code_point (c : string) : Z :=
  match c with
  | String a EmptyString => PyStr.code a
  | String a (String b EmptyString) =>
      (PyStr.code a - 192) * 64 + (PyStr.code b - 128)
  | String a (String b (String c EmptyString)) =>
      ((PyStr.code a - 224) * 64 + (PyStr.code b - 128)) * 64
      + (PyStr.code c - 128)
  | String a (String b (String c (String d _))) =>
      (((PyStr.code a - 240) * 64 + (PyStr.code b - 128)) * 64
       + (PyStr.code c - 128)) * 64 + (PyStr.code d - 128)
  | EmptyString => 0
  end.

(** The escape of one character under [ensure_ascii=True]. *)
Definition escape_char (c : string) : string :=
  let n := code_point c in
  if n =? 34 then "\" +:+ PyStr.DQ
  else if n =? 92 then "\\"
  else if n =? 10 then "\n"
  else if n =? 13 then "\r"
  else if n =? 9 then "\t"
  else if n =? 8 then "\b"
  else if n =? 12 then "\f"
  else if (32 <=? n) && (n <=? 126) then c
  else if n <? 65536 then u_escape n
  else
    let v := n - 65536 in
    u_escape (55296 + v / 1024) +:+ u_escape (56320 + v mod 1024).

(** [json.dumps(s)] for a string *)
Definition dumps_str (s : string) : string :=
  PyStr.DQ +:+ PyStr.join "" (escape_char <$> PyStr.chars s) +:+ PyStr.DQ.

(** [json.dumps(l)] for a list of strings *)
Definition dumps_strs (l : list string) : string :=
  "[" +:+ PyStr.join ", " (dumps_str <$> l) +:+ "]".

(** *** [str] and [repr] of a decoded value *)

(** Whether [repr] leaves the character with code point [n] as it is.
    Below U+0100 this is [str.isprintable]; a character from U+0100 on is
    taken as printable (which of them are depends on the Unicode version
    of the interpreter). *)
Definition printable (n : Z) : bool :=
  (32 <=? n) && negb ((127 <=? n) && (n <=? 160)) && negb (n =? 173).

(** [\xXX] and [\UXXXXXXXX] *)
Definition x_escape (n : Z) : string :=
  "\x" +:+ String (hex_digit (n / 16 mod 16)) (String (hex_digit (n mod 16)) "").

Definition U_escape (n : Z) : string :=
  "\U"
  +:+ String (hex_digit (n / 268435456 mod 16))
        (String (hex_digit (n / 16777216 mod 16))
           (String (hex_digit (n / 1048576 mod 16))
              (String (hex_digit (n / 65536 mod 16))
                 (String (hex_digit (n / 4096 mod 16))
                    (String (hex_digit (n / 256 mod 16))
                       (String (hex_digit (n / 16 mod 16))
                          (String (hex_digit (n mod 16)) ""))))))).

(** One character in the [repr] of a string quoted with [quote]. *)
Definition repr_char (quote : string) (c : string) : string :=
  let n := code_point c in
  if String.eqb c quote || (n =? 92) then "\" +:+ c
  else if n =? 9 then "\t"
  else if n =? 10 then "\n"
  else if n =? 13 then "\r"
  else if printable n then c
  else if n <? 256 then x_escape n
  else if n <? 65536 then u_escape n
  else U_escape n.

(** [repr(s)] for a string: single quotes, unless the string holds one and
    no double quote. *)
Definition repr_str (s : string) : string :=
  let quote :=
    if PyStr.contains "'" s && negb (PyStr.contains PyStr.DQ s)
    then PyStr.DQ else "'" in
  quote +:+ PyStr.join "" (repr_char quote <$> PyStr.chars s) +:+ quote.

(** [repr(v)] *)
Fixpoint repr (v : json) : string :=
  match v with
  | JNull => "None"
  | JBool true => "True"
  | JBool false => "False"
  | JInt n => PyStr.of_Z n
  | JFloat r => r
  | JStr s => repr_str s
  | JArr l => "[" +:+ PyStr.join ", " (List.map repr l) +:+ "]"
  | JObj items =>
      "{"
      +:+ PyStr.join ", "
            (List.map (fun kv => let '(k, x) := kv in
                                 repr_str k +:+ ": " +:+ repr x) items)
      +:+ "}"
  end.

(** [str(v)], which is also what a replacement field of an f-string makes
    of [v]. *)
Definition str (v : json) : string :=
  match v with
  | JStr s => s
  | _ => repr v
  end.

(** The items of [sep.join(l)], from item [i] on: each has to be a
    string. *)
Fixpoint join_items (i : Z) (l : list json) : result (list string) :=
  match l with
  | [] => Ok []
  | JStr s :: rest =>
      match join_items (i + 1) rest with
      | Ok items => Ok (s :: items)
      | Raise e => Raise e
      end
  | v :: _ =>
      Raise (TypeError ("sequence item " +:+ PyStr.of_Z i
                        +:+ ": expected str instance, " +:+ type_name v
                        +:+ " found"))
  end.

(** [sep.join(l)] for a list of decoded values *)
Definition join (sep : string) (l : list json) : result string :=
  match join_items 0 l with
  | Ok items => Ok (PyStr.join sep items)
  | Raise e => Raise e
  end.

End Json.

(** ** The outside world *)

(** A [requests.Response]: [body] is the JSON document that [text] encodes,
    [None] when [text] is not JSON. *)
Record response : Type := mk_response {
  status_code : Z;
  reason : string;
  text : string;
  body : option Json.json
}.

(** What one HTTP exchange comes to: the transport raises a
    [RequestException] (connection refused, timeout, too many redirects,
    ...), or a response arrives. *)
Inductive http_outcome : Type :=
  | TransportError (cls : string) (msg : string) (resp : option (Z * string))
  | Responded (r : response).

(** The JSON payload of a chat completion request. *)
Record payload : Type := mk_payload {
  p_model : option string;
  p_system : string;
  p_user : string;
  p_temperature : Q;
  p_max_tokens : Z;
  p_top_p : Q
}.

Inductive request : Type :=
  | GET (url : string) (headers : list (string * string))
      (params : list (string * string))
  | POST (url : string) (headers : list (string * string)) (json : payload)
      (timeout : Z).

(** One reading of the system clock: the local wall-clock time and the UTC
    time of the same moment. *)
Record clock_reading : Type := mk_reading {
  local_time : Datetime.datetime;
  utc_time : Datetime.datetime
}.

Inductive level : Type := DEBUG | INFO | ERROR.

(** The world the program runs in.
    - [environ]: the environment variables.
    - [clock], [ticks]: the readings of the clock, and how many were taken.
    - [remote]: how the remote services answer a request, given the
      requests sent before; [sent]: the requests sent so far.
    - [stdin]: the lines still to be read; [stdout]: what was written.
    - [log]: the records the logger emitted.
    - [dirs], [files]: the directories and the files with their text. *)
Record World : Type := mk_World {
  environ : gmap string string;
  clock : nat -> clock_reading;
  ticks : nat;
  remote : list request -> request -> http_outcome;
  sent : list request;
  stdin : list string;
  stdout : list string;
  log : list (level * string);
  dirs : gset string;
  files : gmap string string
}.

Definition set_ticks (n : nat) (w : World) : World :=
  mk_World (environ w) (clock w) n (remote w) (sent w) (stdin w) (stdout w)
    (log w) (dirs w) (files w).

Definition set_sent (l : list request) (w : World) : World :=
  mk_World (environ w) (clock w) (ticks w) (remote w) l (stdin w) (stdout w)
    (log w) (dirs w) (files w).

Definition set_stdin (l : list string) (w : World) : World :=
  mk_World (environ w) (clock w) (ticks w) (remote w) (sent w) l (stdout w)
    (log w) (dirs w) (files w).

Definition set_stdout (l : list string) (w : World) : World :=
  mk_World (environ w) (clock w) (ticks w) (remote w) (sent w) (stdin w) l
    (log w) (dirs w) (files w).

Definition set_log (l : list (level * string)) (w : World) : World :=
  mk_World (environ w) (clock w) (ticks w) (remote w) (sent w) (stdin w)
    (stdout w) l (dirs w) (files w).

Definition set_dirs (d : gset string) (w : World) : World :=
  mk_World (environ w) (clock w) (ticks w) (remote w) (sent w) (stdin w)
    (stdout w) (log w) d (files w).

Definition set_files (f : gmap string string) (w : World) : World :=
  mk_World (environ w) (clock w) (ticks w) (remote w) (sent w) (stdin w)
    (stdout w) (log w) (dirs w) f.

(** ** The monad of effects *)

Definition M (A : Type) : Type := World -> result A * World.

Definition ret {A : Type} (a : A) : M A := fun w => (Ok a, w).

Definition raise {A : Type} (e : exn) : M A := fun w => (Raise e, w).

Definition bind {A B : Type} (c : M A) (k : A -> M B) : M B :=
  fun w =>
    match c w with
    | (Ok a, w') => k a w'
    | (Raise e, w') => (Raise e, w')
    end.

(** A pure evaluation that may raise. *)
Definition lift {A : Type} (r : result A) : M A := fun w => (r, w).

(** [try: body / except: handler]: the handler sees the world as the body
    left it. *)
Definition try_except {A : Type} (body : M A) (handler : exn -> M A) : M A :=
  fun w =>
    match body w with
    | (Ok a, w') => (Ok a, w')
    | (Raise e, w') => handler e w'
    end.

Notation "'let*' x ':=' c 'in' k" := (bind c (fun x => k))
  (at level 10, x name, c at level 100, k at level 200, only parsing).

Notation "'let?' x ':=' c 'in' k" := (rbind c (fun x => k))
  (at level 10, x name, c at level 100, k at level 200, only parsing).

(** [for x in l: acc = body(acc, x)], stopping at the first exception. *)
Fixpoint for_each {A B : Type} (body : B -> A -> result B) (l : list A)
    (acc : B) : result B :=
  match l with
  | [] => Ok acc
  | x :: l' =>
      let? acc' := body acc x in
      for_each body l' acc'
  end.

(** [[f(x) for x in l]] *)
Fixpoint comprehension {A B : Type} (f : A -> result B) (l : list A)
  : result (list B) :=
  match l with
  | [] => Ok []
  | x :: l' =>
      let? y := f x in
      let? ys := comprehension f l' in
      Ok (y :: ys)
  end.

(** *** Primitive effects *)

(** [os.getenv(k)] *)
Definition getenv (k : string) : M (option string) :=
  fun w => (Ok (environ w !! k), w).

(** [os.getenv(k, dflt)] *)
Definition getenv_or (k dflt : string) : M string :=
  fun w => (Ok (default dflt (environ w !! k)), w).

(** [datetime.now()]: the local wall-clock time, naive. *)
Definition datetime_now : M Datetime.datetime :=
  fun w =>
    (Ok (Datetime.replace_tzinfo (local_time (clock w (ticks w))) None),
     set_ticks (S (ticks w)) w).

(** [datetime.now(timezone.utc)]: the UTC time, aware. *)
Definition datetime_now_utc : M Datetime.datetime :=
  fun w =>
    (Ok (Datetime.replace_tzinfo (utc_time (clock w (ticks w))) Datetime.utc),
     set_ticks (S (ticks w)) w).

(** [print(s)] *)
Definition print (s : string) : M unit :=
  fun w => (Ok tt, set_stdout (stdout w ++ [s +:+ PyStr.NL]) w).

(** [input(prompt)]: writes the prompt, reads one line without its line
    end; [EOFError] at the end of the input. *)
Definition input (prompt : string) : M string :=
  fun w =>
    let w' := set_stdout (stdout w ++ [prompt]) w in
    match stdin w with
    | line :: rest => (Ok line, set_stdin rest w')
    | [] => (Raise (EOFError "EOF when reading a line"), w')
    end.

(** The logger is configured at level [INFO]: [debug] records are dropped. *)
Definition logger_info (msg : string) : M unit :=
  fun w => (Ok tt, set_log (log w ++ [(INFO, msg)]) w).

Definition logger_error (msg : string) : M unit :=
  fun w => (Ok tt, set_log (log w ++ [(ERROR, msg)]) w).

Definition logger_debug (msg : string) : M unit := ret tt.

(** Sending a request: it is recorded, and the service's answer decides
    between a response and a [RequestException]. *)
Definition send (rq : request) : M response :=
  fun w =>
    let w' := set_sent (sent w ++ [rq]) w in
    match remote w (sent w) rq with
    | TransportError cls msg resp => (Raise (RequestException cls msg resp), w')
    | Responded r => (Ok r, w')
    end.

(** [Response.ok]: the status is not an error status. *)
Definition status_ok (status : Z) : bool :=
  negb ((400 <=? status) && (status <? 600)).

(** [response.raise_for_status()] *)
Definition raise_for_status (url : string) (r : response) : result unit :=
  if (400 <=? status_code r) && (status_code r <? 500) then
    Raise (RequestException "HTTPError"
             (PyStr.of_Z (status_code r) +:+ " Client Error: " +:+ reason r
              +:+ " for url: " +:+ url)
             (Some (status_code r, text r)))
  else if (500 <=? status_code r) && (status_code r <? 600) then
    Raise (RequestException "HTTPError"
             (PyStr.of_Z (status_code r) +:+ " Server Error: " +:+ reason r
              +:+ " for url: " +:+ url)
             (Some (status_code r, text r)))
  else Ok tt.

(** [response.json()] *)
Definition response_json (r : response) : result Json.json :=
  of_option (body r)
    (RequestsJSONDecodeError "Expecting value: line 1 column 1 (char 0)").

(** ** Paths and files *)

Module PyPath.

(** A [pathlib.Path] on a POSIX system: the root ([""], ["/"] or ["//"])
    and the components, without empty and ["."] components. *)
Record path : Type := mk_path {
  root : string;
  parts : list string
}.

Definition component (c : string) : bool :=
  negb (String.eqb c "") && negb (String.eqb c ".").

(** [Path(s)] *)
Definition of_string (s : string) : path :=
  let r :=
    if String.prefix "//" s && negb (String.prefix "///" s) then "//"
    else if String.prefix "/" s then "/"
    else "" in
  mk_path r (List.filter component (PyStr.split "/" s)).

(** [str(p)] *)
Definition to_string (p : path) : string :=
  match parts p with
  | [] => if String.eqb (root p) "" then "." else root p
  | _ => root p +:+ PyStr.join "/" (parts p)
  end.

(** [p / s] *)
Definition joinpath (p : path) (s : string) : path :=
  if String.prefix "/" s then of_string s
  else mk_path (root p) (parts p ++ parts (of_string s)).

(** [p.parent] *)
Definition parent (p : path) : path :=
  mk_path (root p) (List.removelast (parts p)).

(** The path and its proper ancestors that have a component, outermost
    first. *)
Definition chain (p : path) : list path :=
  (fun n => mk_path (root p) (List.firstn (S n) (parts p)))
    <$> seq 0 (List.length (parts p)).

(** Creating the directories of [ps] in turn; a regular file in the way
    stops it. *)
Fixpoint mkdir_chain (target : string) (ps : list path) : M unit :=
  match ps with
  | [] => ret tt
  | q :: rest =>
      fun w =>
        let name := to_string q in
        if bool_decide (is_Some (files w !! name)) then
          (Raise (OSError (if String.eqb name target then "FileExistsError"
                           else "NotADirectoryError") name), w)
        else mkdir_chain target rest (set_dirs ({[name]} ∪ dirs w) w)
  end.

(** [p.mkdir(parents=True, exist_ok=True)] *)
Definition mkdir (p : path) : M unit :=
  mkdir_chain (to_string p) (chain p).

(** Whether the directory [p] exists; the root and the working directory
    always do. *)
Definition is_dir (p : path) (w : World) : bool :=
  match parts p with
  | [] => true
  | _ => bool_decide (to_string p ∈ dirs w)
  end.

(** [with open(p, 'w', encoding='utf-8') as f: f.write(content)]: the
    directory of [p] must exist and [p] must not be a directory; the file
    is created or truncated, and holds [content] afterwards. *)
Definition write_text (p : path) (content : string) : M unit :=
  fun w =>
    let name := to_string p in
    if negb (is_dir (parent p) w) then
      (Raise (OSError (if bool_decide (is_Some (files w !! to_string (parent p)))
                       then "NotADirectoryError" else "FileNotFoundError")
                name), w)
    else if is_dir p w then
      (Raise (OSError "IsADirectoryError" name), w)
    else (Ok tt, set_files (<[name := content]> (files w)) w).

End PyPath.

(** ** The program *)

(** [@dataclass class Link]: a LinkAce link.  The fields hold the values
    given to the constructor, whatever their types: the annotations
    ([int], [str], [List[str]]) are not checked. *)
Module Link.

Record t : Type := mk {
  id : Json.json;
  url : Json.json;
  title : Json.json;
  description : Json.json;
  created_at : Json.json;
  tags : list Json.json
}.

End Link.

(** *** [class LinkAceClient] *)

Module LinkAceClient.

Import Json.

Record t : Type := mk {
  base_url : string;
  api_key : option string;
  headers : list (string * string)
}.

Definition __init__ : M t :=
  let* base := getenv "LINKACE_BASE_URL" in
  let* base_url :=
    match base with
    | Some b => ret (PyStr.rstrip_char "/" b)
    | None =>
        raise (AttributeError "'NoneType' object has no attribute 'rstrip'")
    end in
  let* api_key := getenv "LINKACE_API_KEY" in
  ret (mk base_url api_key
         [("Authorization", "Bearer " +:+ PyStr.of_option api_key);
          ("Content-Type", "application/json");
          ("Accept", "application/json")]).

(** The creation time the filter compares: the timestamp parsed, with its
    [tzinfo] replaced by UTC. *)
Definition parse_created_at (raw : json) : result Datetime.datetime :=
  let? s := replace_Z raw in
  let? parsed := Datetime.fromisoformat s in
  Ok (Datetime.replace_tzinfo parsed Datetime.utc).

(** The [Link(...)] that the loop builds from a kept record: the tag names
    first, then the fields in the order of the call, each value as the
    record has it. *)
Definition make_link (link_data : json) : result Link.t :=
  let? tag_list := get link_data "tags" (JArr []) in
  let? tag_items := iter tag_list in
  let? tags := comprehension (fun tag => getitem tag "name") tag_items in
  let? id := getitem link_data "id" in
  let? url := getitem link_data "url" in
  let? title := getitem link_data "title" in
  let? description := get link_data "description" (JStr "") in
  let? created := getitem link_data "created_at" in
  Ok (Link.mk id url title description created tags).

(** The test of the filter on one record: [created_at >= one_week_ago]. *)
Definition is_recent (one_week_ago : Datetime.datetime) (link_data : json)
  : result bool :=
  let? raw := getitem link_data "created_at" in
  let? created_at := parse_created_at raw in
  Datetime.ge created_at one_week_ago.

(** One round of the loop over the records of the response: [links] is
    the list so far. *)
Definition visit (one_week_ago : Datetime.datetime) (links : list Link.t)
    (link_data : json) : result (list Link.t) :=
  let? recent := is_recent one_week_ago link_data in
  if recent then
    let? link := make_link link_data in
    Ok (links ++ [link])
  else Ok links.

Definition params : list (string * string) :=
  [("per_page", "100"); ("order_by", "created_at"); ("order_dir", "desc")].

Definition links_url (self : t) (list_id : Z) : string :=
  base_url self +:+ "/api/v2/lists/" +:+ PyStr.of_Z list_id +:+ "/links".

(** The body of the [try] block. *)
Definition fetch (self : t) (list_id : Z) (one_week_ago : Datetime.datetime)
  : M (list Link.t) :=
  let url := links_url self list_id in
  let* response := send (GET url (headers self) params) in
  let* _ := lift (raise_for_status url response) in
  let* data := lift (response_json response) in
  let* records := lift (let? d := get data "data" (JArr []) in iter d) in
  let* links := lift (for_each (visit one_week_ago) records []) in
  let* _ :=
    logger_info ("Found " +:+ PyStr.of_Z (Z.of_nat (List.length links))
                 +:+ " links from the past week in list "
                 +:+ PyStr.of_Z list_id) in
  ret links.

(** [get_weekly_links(self, list_id)] *)
Definition get_weekly_links (self : t) (list_id : Z) : M (list Link.t) :=
  let* now := datetime_now_utc in
  let* one_week_ago := lift (Datetime.sub_days now 7) in
  try_except (fetch self list_id one_week_ago)
    (fun e =>
       if is_RequestException e then
         let* _ :=
           logger_error ("Error fetching links from LinkAce: " +:+ exn_str e) in
         ret []
       else raise e).

End LinkAceClient.

(** *** [class OpenRouterClient] *)

Module OpenRouterClient.

Import Json.

Record t : Type := mk {
  api_key : option string;
  base_url : string;
  headers : list (string * string);
  model : option string
}.

Definition __init__ : M t :=
  let* api_key := getenv "OPENROUTER_API_KEY" in
  let* model := getenv "OPENROUTER_MODEL" in
  ret (mk api_key "https://openrouter.ai/api/v1"
         [("Authorization", "Bearer " +:+ PyStr.of_option api_key);
          ("Content-Type", "application/json")]
         model).

Definition completions_url (self : t) : string :=
  base_url self +:+ "/chat/completions".

Definition make_payload (self : t) (prompt : string) (temperature : Q)
  : payload :=
  mk_payload (model self)
    "You are an expert content curator and technical writer."
    prompt temperature 2048 (95 # 100).

(** The first part of the [try] block, up to the assignment of [result]. *)
Definition request_result (self : t) (prompt : string) (temperature : Q)
  : M json :=
  let url := completions_url self in
  let* response :=
    send (POST url (headers self) (make_payload self prompt temperature) 30) in
  let* _ := lift (raise_for_status url response) in
  lift (response_json response).

(** The rest of the [try] block: the checks on [result] (here [res]) and
    the content returned. *)
Definition validate (res : json) : result string :=
  let? has_choices := contains "choices" res in
  let? no_choices :=
    if negb has_choices then Ok true
    else
      let? choices := getitem res "choices" in
      let? n := len choices in
      Ok (n =? 0) in
  if no_choices then Raise (ValueError "Empty choices in API response")
  else
    let? choices := getitem res "choices" in
    let? first := getitem0 choices in
    let? message := getitem first "message" in
    let? content := getitem message "content" in
    let? stripped := strip content in
    if negb (PyStr.truthy stripped)
    then Raise (ValueError "Empty content in LLM response")
    else as_str "content" content.

(** The [except] clauses, in their order.  [res] is the local variable
    [result]: [None] while it is unbound. *)
Definition handle (res : option json) (e : exn) : M string :=
  if is_RequestException e then
    let* _ := logger_error ("API Request failed: " +:+ exn_str e) in
    let* _ :=
      match e with
      | RequestException _ _ (Some (status, text)) =>
          if status_ok status then
            logger_error ("HTTP " +:+ PyStr.of_Z status +:+ " Response: "
                          +:+ PyStr.take_chars 200 text)
          else ret tt
      | _ => ret tt
      end in
    ret ""
  else if is_KeyError e then
    let* _ :=
      logger_error ("Malformed API response - missing key: " +:+ exn_str e) in
    match res with
    | Some _ =>
        let* _ := logger_debug "Full response: ..." in
        ret ""
    | None =>
        raise (OtherException "UnboundLocalError"
                 "cannot access local variable 'result'")
    end
  else if is_ValueError e then
    let* _ := logger_error ("Content validation error: " +:+ exn_str e) in
    ret ""
  else
    let* _ :=
      logger_error ("Unexpected error: " +:+ exn_name e +:+ " - "
                    +:+ exn_str e) in
    let* _ := logger_debug "Traceback:" in
    ret "".

(** [call_llm(self, prompt, temperature)] *)
Definition call_llm (self : t) (prompt : string) (temperature : Q) : M string :=
  fun w =>
    match request_result self prompt temperature w with
    | (Raise e, w') => handle None e w'
    | (Ok res, w') =>
        match validate res with
        | Ok content => (Ok content, w')
        | Raise e => handle (Some res) e w'
        end
    end.

End OpenRouterClient.

(** *** [class ContentProcessor] *)

Module ContentProcessor.

Record t : Type := mk {
  openrouter : OpenRouterClient.t
}.

Definition __init__ : M t :=
  let* client := OpenRouterClient.__init__ in
  ret (mk client).

(** The sentinel feedback that stands for approval. *)
Definition APPROVED : string := "Content approved as-is".

(** The text block of one link: the f-string of the comprehension.  A
    replacement field renders its value as [str] does; [', '.join] raises
    [TypeError] on a tag that is not a string. *)
Definition link_block (link : Link.t) : result string :=
  let? tags := Json.join ", " (Link.tags link) in
  Ok ("**" +:+ Json.str (Link.title link) +:+ "**" +:+ PyStr.NL
      +:+ "URL: " +:+ Json.str (Link.url link) +:+ PyStr.NL
      +:+ "Description: " +:+ Json.str (Link.description link) +:+ PyStr.NL
      +:+ "Tags: " +:+ tags +:+ PyStr.NL
      +:+ "Date: " +:+ Json.str (Link.created_at link) +:+ PyStr.NL
      +:+ "---" +:+ PyStr.NL).

Definition links_text (links : list Link.t) : result string :=
  let? blocks := comprehension link_block links in
  Ok (PyStr.join PyStr.NL blocks).

(** The f-string of the synthesis prompt, for [count] links whose text
    is [text]. *)
Definition prompt_text (count : Z) (text : string) : string :=
  PyStr.join PyStr.NL
    [ "";
      "        Create a well-structured weekly digest from these "
        +:+ PyStr.of_Z count
        +:+ " links I've saved this week.";
      "";
      "        LINKS DATA:";
      "        " +:+ text;
      "";
      "        REQUIREMENTS:";
      "        1. Restructure the links as a easy to read list";
      "        2. write a general 300 words description of the week activity";
      "        3. Provide brief, insightful summaries inside the general description";
      "        4. each link must come from from LINKS_DATA";
      "        5. Use proper markdown formatting with headers, lists, and emphasis";
      "        6. Make it SEO-friendly with good structure";
      "        7. Keep tone professional but engaging, you have 20+ years experience of url link curation";
      "        8. Suggest relevant tags for the post";
      "        9. DO NOT create links not available in LINKS_DATA";
      "";
      "        FORMAT:";
      "        - Use bullet points or numbered lists for links";
      "        - Footer includes following links:";
      "          - shared.girard-davila.net linkace instance with stored links";
      "          - github.com/alx/weekly_news github repository of the code used to generate this newsletter";
      "";
      "        Make this content publication-ready for a technical blog.";
      "        " ].

(** The synthesis prompt for [links]. *)
Definition structure_prompt (links : list Link.t) : result string :=
  let? text := links_text links in
  Ok (prompt_text (Z.of_nat (List.length links)) text).

(** [structure_links(self, links)] *)
Definition structure_links (self : t) (links : list Link.t) : M string :=
  let* prompt := lift (structure_prompt links) in
  let* llm_response :=
    OpenRouterClient.call_llm (openrouter self) prompt (7 # 10) in
  ret llm_response.

(** [get_editor_feedback(self, content)] *)
Definition get_editor_feedback (self : t) (content : string) : M string :=
  let* _ := print (PyStr.NL +:+ PyStr.repeat "=" 80) in
  let* _ := print "EDITOR REVIEW PHASE" in
  let* _ := print (PyStr.repeat "=" 80) in
  let* _ := print (PyStr.NL +:+ "Generated content:") in
  let* _ := print (PyStr.repeat "-" 40) in
  let* _ := print content in
  let* _ := print (PyStr.repeat "-" 40) in
  let* line :=
    input (PyStr.NL +:+ "Editor feedback (press Enter for no changes, or provide feedback): ") in
  let feedback := PyStr.strip line in
  ret (if PyStr.truthy feedback then feedback else APPROVED).

(** The revision prompt. *)
Definition polish_prompt (content feedback : string) : string :=
  PyStr.join PyStr.NL
    [ "";
      "        Original content:";
      "        " +:+ content;
      "";
      "        Editor feedback:";
      "        " +:+ feedback;
      "";
      "        Please revise the content based on the editor's feedback while maintaining:";
      "        - Proper markdown formatting";
      "        - SEO-friendly structure  ";
      "        - Engaging tone";
      "        - Technical accuracy";
      "        - 20+ years of link curation experience";
      "        - Best source of insightful links in multiple social circles";
      "        - People look for value, give them best value";
      "";
      "        Return the polished version.";
      "        " ].

(** [polish_content(self, content, feedback)] *)
Definition polish_content (self : t) (content feedback : string) : M string :=
  if String.eqb feedback APPROVED then ret content
  else
    OpenRouterClient.call_llm (openrouter self)
      (polish_prompt content feedback) (5 # 10).

End ContentProcessor.

(** *** [class HugoContentGenerator] *)

Module HugoContentGenerator.

Record t : Type := mk {
  content_path : PyPath.path
}.

Definition __init__ : M t :=
  let* dir := getenv_or "HUGO_CONTENT_PATH" "./content/posts" in
  let content_path := PyPath.of_string dir in
  let* _ := PyPath.mkdir content_path in
  ret (mk content_path).

(** [generate_frontmatter(self, title, tags)] *)
Definition generate_frontmatter (self : t) (title : string)
    (tags : list string) : M string :=
  let* now := datetime_now in
  let* author := getenv_or "EDITOR_NAME" "Editor" in
  ret (PyStr.join PyStr.NL
         [ "---";
           "title: " +:+ PyStr.DQ +:+ title +:+ PyStr.DQ;
           "date: " +:+ Datetime.strftime "%Y-%m-%dT%H:%M:%S%z" now;
           "draft: false";
           "description: " +:+ PyStr.DQ
             +:+ "Weekly curated links and insights from my reading list"
             +:+ PyStr.DQ;
           "categories: [" +:+ PyStr.DQ +:+ "Weekly Digest" +:+ PyStr.DQ
             +:+ ", " +:+ PyStr.DQ +:+ "Curated Links" +:+ PyStr.DQ +:+ "]";
           "tags: " +:+ Json.dumps_strs tags;
           "author: " +:+ PyStr.DQ +:+ author +:+ PyStr.DQ;
           "---";
           "";
           "" ]).

(** The body of the file: the framing sentence, the digest, the footer. *)
Definition meta_content (content : string) (links_count : Z) : string :=
  PyStr.join PyStr.NL
    [ "";
      "*This week I discovered " +:+ PyStr.of_Z links_count
        +:+ " interesting links. Here's what caught my attention:*";
      "";
      content;
      "";
      "---";
      "*This digest was automatically generated from my [LinkAce](https://linkace.org) bookmark collection and curated with AI assistance.*";
      "" ].

Definition FIXED_TAGS : list string :=
  ["weekly-digest"; "curated-links"; "reading-list"].

(** [save_content(self, content, links_count)]: returns the path written. *)
Definition save_content (self : t) (content : string) (links_count : Z)
  : M string :=
  let lines := PyStr.split "010" content in
  let* now1 := datetime_now in
  let title :=
    "Weekly Links Digest - Week of " +:+ Datetime.strftime "%B %d, %Y" now1 in
  let tags := FIXED_TAGS in
  let* now2 := datetime_now in
  let date_str := Datetime.strftime "%Y-%m-%d" now2 in
  let* filename_prefix := getenv_or "OUTPUT_FILENAME_PREFIX" "weekly-links" in
  let filename := date_str +:+ "-" +:+ filename_prefix +:+ ".md" in
  let filepath := PyPath.joinpath (content_path self) filename in
  let* frontmatter := generate_frontmatter self title tags in
  let full_content := frontmatter +:+ meta_content content links_count in
  let* _ := PyPath.write_text filepath full_content in
  let* _ :=
    logger_info ("Hugo content saved to: " +:+ PyPath.to_string filepath) in
  ret (PyPath.to_string filepath).

End HugoContentGenerator.

(** *** [main] *)

(** The statements of [main] that follow the fetch of the links. *)
Definition process (processor : ContentProcessor.t)
    (hugo_generator : HugoContentGenerator.t) (links : list Link.t) : M unit :=
  match links with
  | [] => print "❌ No links found for this week"
  | _ :: _ =>
      let count := Z.of_nat (List.length links) in
      let* _ :=
        print ("✅ Found " +:+ PyStr.of_Z count +:+ " links from this week") in
      let* _ := print "🤖 Structuring content with AI..." in
      let* structured_content :=
        ContentProcessor.structure_links processor links in
      if negb (PyStr.truthy structured_content) then
        print "❌ Failed to generate structured content"
      else
        let* _ := print "✏️ Starting editor review..." in
        let* feedback :=
          ContentProcessor.get_editor_feedback processor structured_content in
        let* _ := print "✨ Polishing content..." in
        let* final_content :=
          ContentProcessor.polish_content processor structured_content
            feedback in
        let* _ := print "📝 Generating Hugo markdown file..." in
        let* output_file :=
          HugoContentGenerator.save_content hugo_generator final_content
            count in
        let* _ :=
          print ("🎉 Complete! Hugo content ready at: " +:+ output_file) in
        print "💡 Run 'hugo server' in your Hugo directory to preview"
  end.


(** The statements of the [try] block of [main]. *)
Definition workflow : M unit :=
  let* linkace := LinkAceClient.__init__ in
  let* processor := ContentProcessor.__init__ in
  let* hugo_generator := HugoContentGenerator.__init__ in
  let* target := getenv_or "TARGET_LIST_ID" "1" in
  let* list_id :=
    lift (of_option (PyStr.to_int target)
            (ValueError ("invalid literal for int() with base 10: '"
                         +:+ target +:+ "'"))) in
  let* _ :=
    print ("🔗 Fetching weekly links from LinkAce list "
           +:+ PyStr.of_Z list_id +:+ "...") in
  let* links := LinkAceClient.get_weekly_links linkace list_id in
  process processor hugo_generator links.

(** [main()]: an exception is logged and raised again. *)
Definition main : M unit :=
  try_except workflow
    (fun e =>
       let* _ := logger_error ("Error in main workflow: " +:+ exn_str e) in
       raise e).

(** ** Scenarios

    Concrete worlds on which the program is run below.  The clock reads
    2024-01-15T10:30:00 local time, 09:30:00 UTC. *)

Module Scenario.

Import Json.

Definition reading : clock_reading :=
  mk_reading (Datetime.mk_datetime 2024 1 15 10 30 0 0 None)
    (Datetime.mk_datetime 2024 1 15 9 30 0 0 None).

Definition record (id : Z) (created_at : string) : json :=
  JObj [("id", JInt id); ("url", JStr "https://example.org/a");
        ("title", JStr "A"); ("description", JStr "d");
        ("created_at", JStr created_at);
        ("tags", JArr [JObj [("name", JStr "t1")]; JObj [("name", JStr "t2")]])].

Definition link (id : Z) (created_at : string) : Link.t :=
  Link.mk (JInt id) (JStr "https://example.org/a") (JStr "A") (JStr "d")
    (JStr created_at) [JStr "t1"; JStr "t2"].

Definition ok_response (data : json) : http_outcome :=
  Responded (mk_response 200 "OK" "" (Some data)).

Definition completion (content : string) : json :=
  JObj [("choices", JArr [JObj [("message", JObj [("content", JStr content)])]])].

(** A world whose bookmark service answers [records], whose completion
    service answers the first request with a draft and lets the second
    time out, and whose editor types [lines]. *)
Definition service (records : list json) (history : list request)
    (rq : request) : http_outcome :=
  match rq with
  | GET _ _ _ => ok_response (JObj [("data", JArr records)])
  | POST _ _ _ _ =>
      match history with
      | [_] => ok_response (completion "draft")
      | _ => TransportError "Timeout" "Read timed out. (read timeout=30)" None
      end
  end.

Definition world (records : list json) (lines : list string) : World :=
  mk_World {[ "LINKACE_BASE_URL" := "https://links.example.org/" ]}
    (fun _ => reading) 0 (service records) [] lines [] [] ∅ ∅.

(** The client that [LinkAceClient.__init__] builds in these worlds. *)
Definition client : LinkAceClient.t :=
  LinkAceClient.mk "https://links.example.org" None
    [("Authorization", "Bearer None"); ("Content-Type", "application/json");
     ("Accept", "application/json")].

Definition generator : HugoContentGenerator.t :=
  HugoContentGenerator.mk (PyPath.of_string "./content/posts").

(** A record of yesterday and one of two weeks ago. *)
Definition recent_and_old : list json :=
  [record 1 "2024-01-14T08:00:00.000000Z"; record 2 "2024-01-01T08:00:00.000000Z"].

(** A record without [created_at]. *)
Definition incomplete : list json := [JObj [("id", JInt 1)]].

(** A record stamped at noon with the offset [+05:00], that is 07:00 UTC,
    on the day of the bound, which is 09:30 UTC. *)
Definition offset_stamp : string := "2024-01-08T12:00:00+05:00".

Definition with_offset : list json := [record 1 offset_stamp].

(** Two records of the day of the bound: one stamped 10:00 with the offset
    [+02:00], that is 08:00 UTC, before the bound; one stamped 09:00 with
    the offset [-03:00], that is 12:00 UTC, after it. *)
Definition stamp_before : string := "2024-01-08T10:00:00+02:00".
Definition stamp_after : string := "2024-01-08T09:00:00-03:00".

Definition around_the_bound : list json :=
  [record 1 stamp_before; record 2 stamp_after].

End Scenario.

(** * Properties *)

(** ** Vocabulary of the statements *)

(** The completion request that [call_llm] sends. *)
Definition completion_request (self : OpenRouterClient.t) (prompt : string)
    (temperature : Q) : request :=
  POST (OpenRouterClient.completions_url self) (OpenRouterClient.headers self)
    (OpenRouterClient.make_payload self prompt temperature) 30.

(** The decoded response has no choice: the key is absent, or its value is
    empty. *)
Definition zero_choices (res : Json.json) : Prop :=
  Json.contains "choices" res = Ok false
  \/ exists choices,
       Json.getitem res "choices" = Ok choices /\ Json.len choices = Ok 0.

(** The content of the first choice is a string that is empty once
    trimmed. *)
Definition blank_first_choice (res : Json.json) : Prop :=
  exists choices first message c,
    Json.getitem res "choices" = Ok choices
    /\ Json.getitem0 choices = Ok first
    /\ Json.getitem first "message" = Ok message
    /\ Json.getitem message "content" = Ok (Json.JStr c)
    /\ PyStr.strip c = "".

(** The exchange succeeded with [content]: a response with a success
    status arrived, its body decoded, and the checks let [content]
    through. *)
Definition completion_succeeds (o : http_outcome) (content : string) : Prop :=
  exists r res,
    o = Responded r
    /\ status_ok (status_code r) = true
    /\ body r = Some res
    /\ OpenRouterClient.validate res = Ok content.

(** The request that [get_weekly_links] sends. *)
Definition links_request (self : LinkAceClient.t) (list_id : Z) : request :=
  GET (LinkAceClient.links_url self list_id) (LinkAceClient.headers self)
    LinkAceClient.params.

(** The fetch time: the clock reading that [get_weekly_links] takes, in
    UTC. *)
Definition fetch_time (w : World) : Datetime.datetime :=
  Datetime.replace_tzinfo (utc_time (clock w (ticks w))) Datetime.utc.

(** The records of a decoded response: what the loop iterates over. *)
Definition response_records (data : Json.json) : result (list Json.json) :=
  let? d := Json.get data "data" (Json.JArr []) in
  Json.iter d.

(** The parsed creation time of a link: its [created_at], read as the
    filter reads it. *)
Definition created_time (l : Link.t) : result Datetime.datetime :=
  LinkAceClient.parse_created_at (Link.created_at l).

(** The tags of the link are strings, as its annotation says. *)
Definition str_tags (l : Link.t) : Prop :=
  Forall (fun tag => exists s, tag = Json.JStr s) (Link.tags l).

(** The record passes the test of the filter, without raising. *)
Definition passes (one_week_ago : Datetime.datetime) (r : Json.json) : bool :=
  match LinkAceClient.is_recent one_week_ago r with
  | Ok true => true
  | _ => false
  end.

(** The records that pass the test of the filter. *)
Definition recent_records (one_week_ago : Datetime.datetime)
    (records : list Json.json) : list Json.json :=
  List.filter (passes one_week_ago) records.

(** The clock reading from which [save_content] takes the date of the
    file name: its second reading. *)
Definition publish_day (w : World) : Datetime.datetime :=
  local_time (clock w (S (ticks w))).

(** Two readings fall on the same day. *)
Definition same_date (a b : Datetime.datetime) : Prop :=
  Datetime.year a = Datetime.year b
  /\ Datetime.month a = Datetime.month b
  /\ Datetime.day a = Datetime.day b.

(** The configured prefix of the file name. *)
Definition configured_prefix (w : World) : string :=
  default "weekly-links" (environ w !! "OUTPUT_FILENAME_PREFIX").

(** [<YYYY-MM-DD>] *)
Definition iso_date (d : Datetime.datetime) : string :=
  PyStr.pad 4 (Datetime.year d) +:+ "-" +:+ PyStr.pad 2 (Datetime.month d)
  +:+ "-" +:+ PyStr.pad 2 (Datetime.day d).

(** [<output directory>/<YYYY-MM-DD>-<prefix>.md] *)
Definition output_path (self : HugoContentGenerator.t) (prefix : string)
    (d : Datetime.datetime) : PyPath.path :=
  PyPath.joinpath (HugoContentGenerator.content_path self)
    (iso_date d +:+ "-" +:+ prefix +:+ ".md").

(** The month and the day of the month of day [n] of a year, counted
    from 0: the last step of [_ord2ymd]. *)
Definition month_day (leapyear : bool) (n : Z) : Z * Z :=
  let m := Z.shiftr (n + 50) 5 in
  let preceding :=
    Datetime.DAYS_BEFORE_MONTH m + (if (2 <? m) && leapyear then 1 else 0) in
  if n <? preceding then
    let m' := m - 1 in
    let preceding' :=
      preceding
      - (Datetime.DAYS_IN_MONTH m'
         + (if (m' =? 2) && leapyear then 1 else 0)) in
    (m', n - preceding' + 1)
  else (m, n - preceding + 1).

(** A month and a day that exist in year [y]. *)
Definition date_ok (y m d : Z) : Prop :=
  1 <= m <= 12 /\ 1 <= d <= Datetime.days_in_month y m.

(** The microseconds since midnight. *)
Definition time_of_day (d : Datetime.datetime) : Z :=
  ((Datetime.hour d * 60 + Datetime.minute d) * 60 + Datetime.second d)
  * 1000000
  + Datetime.microsecond d.

(** ** Further vocabulary *)

(** *** More worlds *)

Module Cases.

Import Json.

(** A world like [Scenario.world], with [service] for the remote
    services. *)
Definition world (service : list request -> request -> http_outcome)
    (lines : list string) : World :=
  mk_World {[ "LINKACE_BASE_URL" := "https://links.example.org/" ]}
    (fun _ => Scenario.reading) 0 service [] lines [] [] ∅ ∅.

(** Every request is answered with status 503 and a text that is not
    JSON. *)
Definition unavailable (history : list request) (rq : request)
  : http_outcome :=
  Responded (mk_response 503 "Service Unavailable" "try later" None).

(** A record with the required fields only. *)
Definition bare_items : list (string * json) :=
  [("id", JInt 7); ("url", JStr "https://example.org/b"); ("title", JStr "B");
   ("created_at", JStr "2024-01-14T08:00:00Z")].

(** A record with two tags that carry further keys, one name twice. *)
Definition tagged_items : list (string * json) :=
  bare_items
  ++ [("description", JStr "about b");
      ("tags", JArr [JObj [("id", JInt 1); ("name", JStr "rocq")];
                     JObj [("name", JStr "rocq"); ("is_private", JBool false)]])].

(** A record whose description is [null], whose id is a string and whose
    title is a number. *)
Definition untyped_items : list (string * json) :=
  [("id", JStr "7"); ("url", JStr "https://example.org/c"); ("title", JInt 3);
   ("description", JNull); ("created_at", JStr "2024-01-14T08:00:00Z")].

(** The world that [HugoContentGenerator.__init__] leaves when the prefix
    of the file name holds a slash. *)
Definition slash_prefix_world : World :=
  snd (HugoContentGenerator.__init__
         (mk_World {[ "OUTPUT_FILENAME_PREFIX" := "2024/links" ]}
            (fun _ => Scenario.reading) 0 unavailable [] [] [] [] ∅ ∅)).

(** A world in which [content] is a regular file. *)
Definition file_in_the_way : World :=
  mk_World ∅ (fun _ => Scenario.reading) 0 unavailable [] [] [] [] ∅
    {[ "content" := "not a directory" ]}.

End Cases.

(** *** Completions *)

(** What [call_llm] makes of the answer of the completion service. *)
Definition completion_text (o : http_outcome) : string :=
  match o with
  | TransportError _ _ _ => ""
  | Responded r =>
      if status_ok (status_code r) then
        match body r with
        | Some res =>
            match OpenRouterClient.validate res with
            | Ok content => content
            | Raise _ => ""
            end
        | None => ""
        end
      else ""
  end.

(** The first choice of a decoded response has the string [c] for
    content. *)
Definition first_choice_content (res : Json.json) (c : string) : Prop :=
  exists choices first message,
    Json.getitem res "choices" = Ok choices
    /\ Json.getitem0 choices = Ok first
    /\ Json.getitem first "message" = Ok message
    /\ Json.getitem message "content" = Ok (Json.JStr c).

(** Only the requests sent and the log differ between two worlds. *)
Definition same_but_net (w w' : World) : Prop :=
  environ w' = environ w /\ clock w' = clock w /\ ticks w' = ticks w
  /\ stdin w' = stdin w /\ stdout w' = stdout w
  /\ dirs w' = dirs w /\ files w' = files w /\ remote w' = remote w.

(** *** The content file *)

(** The header that [save_content] writes in world [w]: the title from the
    first clock reading, the date from the third, the author from the
    environment, the rest fixed. *)
Definition expected_header (w : World) : string :=
  PyStr.join PyStr.NL
    [ "---";
      "title: " +:+ PyStr.DQ
        +:+ ("Weekly Links Digest - Week of "
             +:+ Datetime.strftime "%B %d, %Y" (local_time (clock w (ticks w))))
        +:+ PyStr.DQ;
      "date: "
        +:+ Datetime.strftime "%Y-%m-%dT%H:%M:%S"
              (local_time (clock w (S (S (ticks w)))));
      "draft: false";
      "description: " +:+ PyStr.DQ
        +:+ "Weekly curated links and insights from my reading list"
        +:+ PyStr.DQ;
      "categories: [" +:+ PyStr.DQ +:+ "Weekly Digest" +:+ PyStr.DQ
        +:+ ", " +:+ PyStr.DQ +:+ "Curated Links" +:+ PyStr.DQ +:+ "]";
      "tags: [" +:+ PyStr.DQ +:+ "weekly-digest" +:+ PyStr.DQ
        +:+ ", " +:+ PyStr.DQ +:+ "curated-links" +:+ PyStr.DQ
        +:+ ", " +:+ PyStr.DQ +:+ "reading-list" +:+ PyStr.DQ +:+ "]";
      "author: " +:+ PyStr.DQ
        +:+ default "Editor" (environ w !! "EDITOR_NAME") +:+ PyStr.DQ;
      "---";
      "";
      "" ].

(** *** What a run can add *)

(** [grows f ext n c]: whatever the world and the outcome, [c] changes the
    component [f] of the world by adding at most [n] items to it, [ext]
    being how items are added. *)
Definition grows {T X A : Type} (f : World -> T) (ext : T -> list X -> T)
    (n : nat) (c : M A) : Prop :=
  forall w, exists l, f (snd (c w)) = ext (f w) l /\ (List.length l <= n)%nat.

(** Adding requests to those sent, and writing files. *)
Definition add_requests (l : list request) (more : list request)
  : list request := l ++ more.

Definition write_files (m : gmap string string) (l : list (string * string))
  : gmap string string :=
  fold_left (fun m kv => <[kv.1 := kv.2]> m) l m.

(** [c] sends at most [n] requests. *)
Definition sends_at_most {A : Type} (n : nat) (c : M A) : Prop :=
  grows sent add_requests n c.

(** [c] writes at most [n] files, and removes none. *)
Definition writes_at_most {A : Type} (n : nat) (c : M A) : Prop :=
  grows files write_files n c.

(** *** The review *)

(** The stores that the console and the completion service leave alone. *)
Definition same_store (w w' : World) : Prop :=
  environ w' = environ w /\ clock w' = clock w /\ ticks w' = ticks w
  /\ dirs w' = dirs w /\ files w' = files w /\ remote w' = remote w.

(** The request of [structure_links] with the synthesis prompt
    [prompt]. *)
Definition digest_request (processor : ContentProcessor.t)
    (prompt : string) : request :=
  completion_request (ContentProcessor.openrouter processor) prompt (7 # 10).

(** The request of [polish_content] for a draft and a feedback. *)
Definition revision_request (processor : ContentProcessor.t)
    (content feedback : string) : request :=
  completion_request (ContentProcessor.openrouter processor)
    (ContentProcessor.polish_prompt content feedback) (5 # 10).

(** The first draft that [main] gets in world [w] for the synthesis
    prompt [prompt]. *)
Definition first_draft (processor : ContentProcessor.t)
    (prompt : string) (w : World) : string :=
  completion_text (remote w (sent w) (digest_request processor prompt)).

(** The last statements of [main], from the announcement of the file on. *)
Definition publish (hugo_generator : HugoContentGenerator.t)
    (final_content : string) (count : Z) : M unit :=
  let* _ := print "📝 Generating Hugo markdown file..." in
  let* output_file :=
    HugoContentGenerator.save_content hugo_generator final_content count in
  let* _ :=
    print ("🎉 Complete! Hugo content ready at: " +:+ output_file) in
  print "💡 Run 'hugo server' in your Hugo directory to preview".

(** The statements of [main] that follow the second guard. *)
Definition review_and_save (processor : ContentProcessor.t)
    (hugo_generator : HugoContentGenerator.t) (structured_content : string)
    (count : Z) : M unit :=
  let* _ := print "✏️ Starting editor review..." in
  let* feedback :=
    ContentProcessor.get_editor_feedback processor structured_content in
  let* _ := print "✨ Polishing content..." in
  let* final_content :=
    ContentProcessor.polish_content processor structured_content feedback in
  publish hugo_generator final_content count.

(** A completion service that answers the first request with a draft and
    every later one with a revision. *)
Definition drafts_then_revises (history : list request) (rq : request)
  : http_outcome :=
  match history with
  | [] => Scenario.ok_response (Scenario.completion "draft")
  | _ => Scenario.ok_response (Scenario.completion "revised")
  end.

(** The world left by [HugoContentGenerator.__init__], with that service
    and an editor who types [lines]. *)
Definition review_world (lines : list string) : World :=
  snd (HugoContentGenerator.__init__ (Cases.world drafts_then_revises lines)).

Definition plain_processor : ContentProcessor.t :=
  ContentProcessor.mk
    (OpenRouterClient.mk None "https://openrouter.ai/api/v1" [] None).

(** One link of yesterday, and the synthesis prompt for it alone. *)
Definition one_link : Link.t := Scenario.link 1 "2024-01-14T08:00:00Z".

Definition one_link_prompt : string :=
  ContentProcessor.prompt_text 1
    (PyStr.join PyStr.NL
       ["**A**" +:+ PyStr.NL +:+ "URL: https://example.org/a" +:+ PyStr.NL
        +:+ "Description: d" +:+ PyStr.NL +:+ "Tags: t1, t2" +:+ PyStr.NL
        +:+ "Date: 2024-01-14T08:00:00Z" +:+ PyStr.NL +:+ "---" +:+ PyStr.NL]).

(** *** Strings *)

(** Whether the last byte of [s] is [c]. *)
Fixpoint ends_with_char (c : ascii) (s : string) : bool :=
  match s with
  | EmptyString => false
  | String a EmptyString => Ascii.eqb a c
  | String _ s' => ends_with_char c s'
  end.

(** [p] occurs in [s] as a contiguous part. *)
Definition occurs_in (p s : string) : Prop :=
  exists pre post, s = pre +:+ p +:+ post.

(** ** Calendar arithmetic *)

Section DatetimeFacts.

Import Datetime.

Lemma is_leap_spec y :
  is_leap y = true <-> (y mod 4 = 0 /\ (y mod 100 <> 0 \/ y mod 400 = 0)).
Proof.
  unfold is_leap.
  rewrite andb_true_iff, orb_true_iff, negb_true_iff, !Z.eqb_eq, Z.eqb_neq.
  reflexivity.
Qed.

Lemma days_before_year_succ y :
  days_before_year (y + 1)
  = days_before_year y + 365 + (if is_leap y then 1 else 0).
Proof.
  unfold days_before_year.
  destruct (is_leap y) eqn:E.
  - apply is_leap_spec in E. replace (y + 1 - 1) with y by lia.
    Z.div_mod_to_equations. lia.
  - assert (~ (y mod 4 = 0 /\ (y mod 100 <> 0 \/ y mod 400 = 0))) as E'.
    { rewrite <- is_leap_spec. congruence. }
    replace (y + 1 - 1) with y by lia.
    Z.div_mod_to_equations. lia.
Qed.

Lemma days_before_year_lt y y' :
  y < y' -> days_before_year (y + 1) <= days_before_year y'.
Proof.
  unfold days_before_year. intros H.
  replace (y + 1 - 1) with y by lia.
  Z.div_mod_to_equations. lia.
Qed.

Lemma month_day_spec (leapyear : bool) (n : Z) :
  0 <= n <= 364 ->
  let '(m, d) := month_day leapyear n in
  1 <= m <= 12
  /\ 1 <= d <= DAYS_IN_MONTH m + (if (m =? 2) && leapyear then 1 else 0)
  /\ DAYS_BEFORE_MONTH m + (if (2 <? m) && leapyear then 1 else 0) + d = n + 1.
Proof.
  intros Hn. unfold month_day.
  rewrite Z.shiftr_div_pow2 by lia. change (2 ^ 5) with 32.
  assert (Hm : 1 <= (n + 50) / 32 <= 12) by (Z.div_mod_to_equations; lia).
  remember ((n + 50) / 32) as m eqn:Em.
  assert (Hr : 32 * m <= n + 50 < 32 * m + 32).
  { subst m. pose proof (Z.div_mod (n + 50) 32 ltac:(lia)).
    pose proof (Z.mod_pos_bound (n + 50) 32 ltac:(lia)). lia. }
  clear Em.
  assert (m = 1 \/ m = 2 \/ m = 3 \/ m = 4 \/ m = 5 \/ m = 6 \/ m = 7 \/ m = 8
          \/ m = 9 \/ m = 10 \/ m = 11 \/ m = 12) as Hc by lia.
  destruct leapyear;
    repeat (destruct Hc as [-> | Hc]); try subst m; cbn;
    match goal with
    | |- context [?a <? ?b] => destruct (Z.ltb_spec a b)
    end; cbn;
    repeat match goal with
           | |- context [Z.pos ?p - 1] =>
               let v := eval vm_compute in (Z.pos p - 1) in
               change (Z.pos p - 1) with v
           end; cbn; lia.
Qed.

Lemma ord2ymd_month_day n :
  ord2ymd n =
  let n0 := n - 1 in
  let n400 := n0 / DI400Y in
  let r1 := n0 mod DI400Y in
  let n100 := r1 / DI100Y in
  let r2 := r1 mod DI100Y in
  let n4 := r2 / DI4Y in
  let r3 := r2 mod DI4Y in
  let n1 := r3 / 365 in
  let r4 := r3 mod 365 in
  let y := n400 * 400 + 1 + n100 * 100 + n4 * 4 + n1 in
  if (n1 =? 4) || (n100 =? 4) then (y - 1, 12, 31)
  else
    let '(m, d) :=
      month_day ((n1 =? 3) && (negb (n4 =? 24) || (n100 =? 3))) r4 in
    (y, m, d).
Proof.
  unfold ord2ymd, month_day. cbv zeta.
  destruct (_ || _); [reflexivity |].
  destruct (_ <? _); reflexivity.
Qed.

Lemma days_in_month_alt y m :
  days_in_month y m
  = DAYS_IN_MONTH m + (if (m =? 2) && is_leap y then 1 else 0).
Proof.
  unfold days_in_month.
  destruct (Z.eqb_spec m 2) as [-> |]; simpl; [| lia].
  destruct (is_leap y); reflexivity.
Qed.

Lemma ord2ymd_spec n :
  1 <= n ->
  let '(y, m, d) := ord2ymd n in
  1 <= y /\ 1 <= m <= 12 /\ 1 <= d <= days_in_month y m
  /\ ymd2ord y m d = n.
Proof.
  intros Hn. rewrite ord2ymd_month_day. cbv zeta.
  unfold DI400Y, DI100Y, DI4Y.
  pose proof (Z.div_mod (n - 1) 146097 ltac:(lia)) as E1.
  pose proof (Z.mod_pos_bound (n - 1) 146097 ltac:(lia)) as B1.
  assert (Q1 : 0 <= (n - 1) / 146097) by (apply Z.div_pos; lia).
  set (n400 := (n - 1) / 146097) in *.
  set (r1 := (n - 1) mod 146097) in *.
  pose proof (Z.div_mod r1 36524 ltac:(lia)) as E2.
  pose proof (Z.mod_pos_bound r1 36524 ltac:(lia)) as B2.
  set (n100 := r1 / 36524) in *. set (r2 := r1 mod 36524) in *.
  pose proof (Z.div_mod r2 1461 ltac:(lia)) as E3.
  pose proof (Z.mod_pos_bound r2 1461 ltac:(lia)) as B3.
  set (n4 := r2 / 1461) in *. set (r3 := r2 mod 1461) in *.
  pose proof (Z.div_mod r3 365 ltac:(lia)) as E4.
  pose proof (Z.mod_pos_bound r3 365 ltac:(lia)) as B4.
  set (n1 := r3 / 365) in *. set (r4 := r3 mod 365) in *.
  clearbody n400 r1 n100 r2 n4 r3 n1 r4.
  assert (0 <= n100 <= 4 /\ 0 <= n4 <= 24 /\ 0 <= n1 <= 4) as (H100 & H4 & H1)
    by lia.
  destruct ((n1 =? 4) || (n100 =? 4)) eqn:Hsp.
  - (* the last day of a leap year *)
    apply orb_true_iff in Hsp. rewrite !Z.eqb_eq in Hsp.
    set (y := n400 * 400 + 1 + n100 * 100 + n4 * 4 + n1 - 1).
    assert (Hleap : is_leap y = true).
    { apply is_leap_spec. subst y. Z.div_mod_to_equations. lia. }
    split; [subst y; lia |]. split; [lia |].
    rewrite days_in_month_alt. unfold ymd2ord, days_before_month.
    rewrite Hleap. cbn.
    split; [lia |].
    unfold days_before_year. subst y. Z.div_mod_to_equations. lia.
  - apply orb_false_iff in Hsp. rewrite !Z.eqb_neq in Hsp.
    set (y := n400 * 400 + 1 + n100 * 100 + n4 * 4 + n1).
    set (leapyear := (n1 =? 3) && (negb (n4 =? 24) || (n100 =? 3))).
    assert (Hleap : is_leap y = leapyear).
    { destruct leapyear eqn:El; subst leapyear.
      - apply andb_true_iff in El. destruct El as [El1 El2].
        apply orb_true_iff in El2. rewrite negb_true_iff in El2.
        rewrite Z.eqb_eq in El1. rewrite Z.eqb_neq, Z.eqb_eq in El2.
        apply is_leap_spec. subst y. Z.div_mod_to_equations. lia.
      - apply andb_false_iff in El.
        rewrite Z.eqb_neq, orb_false_iff, negb_false_iff, Z.eqb_eq, Z.eqb_neq in El.
        destruct (is_leap y) eqn:Ey; [| reflexivity].
        apply is_leap_spec in Ey. exfalso. subst y.
        Z.div_mod_to_equations. lia. }
    pose proof (month_day_spec leapyear r4 ltac:(lia)) as Hmd.
    destruct (month_day leapyear r4) as [m d].
    destruct Hmd as (Hm & Hd & Hsum).
    split; [subst y; lia |]. split; [exact Hm |].
    rewrite days_in_month_alt, Hleap. split; [exact Hd |].
    unfold ymd2ord, days_before_month. rewrite Hleap.
    assert (days_before_year y = n - 1 - r4).
    { unfold days_before_year. subst y. Z.div_mod_to_equations. lia. }
    lia.
Qed.

Lemma year_day_bound y m d :
  1 <= m <= 12 -> 1 <= d <= days_in_month y m ->
  1 <= days_before_month y m + d <= 365 + (if is_leap y then 1 else 0).
Proof.
  intros Hm Hd. rewrite days_in_month_alt in Hd. unfold days_before_month.
  assert (m = 1 \/ m = 2 \/ m = 3 \/ m = 4 \/ m = 5 \/ m = 6 \/ m = 7 \/ m = 8
          \/ m = 9 \/ m = 10 \/ m = 11 \/ m = 12) as Hc by lia.
  destruct (is_leap y);
    repeat (destruct Hc as [-> | Hc]); try subst m; cbn in *; lia.
Qed.

Lemma month_start_mono y m m' :
  1 <= m -> m < m' -> m' <= 12 ->
  days_before_month y m + days_in_month y m <= days_before_month y m'.
Proof.
  intros H1 H2 H3. rewrite days_in_month_alt. unfold days_before_month.
  assert (m = 1 \/ m = 2 \/ m = 3 \/ m = 4 \/ m = 5 \/ m = 6 \/ m = 7 \/ m = 8
          \/ m = 9 \/ m = 10 \/ m = 11) as Hc by lia.
  assert (m' = 2 \/ m' = 3 \/ m' = 4 \/ m' = 5 \/ m' = 6 \/ m' = 7 \/ m' = 8
          \/ m' = 9 \/ m' = 10 \/ m' = 11 \/ m' = 12) as Hc' by lia.
  destruct (is_leap y);
    repeat (destruct Hc as [-> | Hc]); try subst m;
    repeat (destruct Hc' as [-> | Hc']); try subst m'; cbn; lia.
Qed.

Lemma ymd2ord_year_lt y m d y' m' d' :
  date_ok y m d -> date_ok y' m' d' -> y < y' ->
  ymd2ord y m d < ymd2ord y' m' d'.
Proof.
  intros [Hm Hd] [Hm' Hd'] Hy. unfold ymd2ord.
  pose proof (year_day_bound y m d Hm Hd).
  pose proof (year_day_bound y' m' d' Hm' Hd').
  pose proof (days_before_year_succ y).
  pose proof (days_before_year_lt y y' Hy).
  lia.
Qed.

Lemma ymd2ord_month_lt y m d m' d' :
  date_ok y m d -> date_ok y m' d' -> m < m' ->
  ymd2ord y m d < ymd2ord y m' d'.
Proof.
  intros [Hm Hd] [Hm' Hd'] Hlt. unfold ymd2ord.
  pose proof (month_start_mono y m m' ltac:(lia) Hlt ltac:(lia)). lia.
Qed.

(** Comparing valid dates field by field is comparing their ordinals. *)
Lemma ymd2ord_compare y m d y' m' d' :
  date_ok y m d -> date_ok y' m' d' ->
  (ymd2ord y m d ?= ymd2ord y' m' d')
  = match y ?= y' with
    | Eq => match m ?= m' with Eq => d ?= d' | c => c end
    | c => c
    end.
Proof.
  intros H H'.
  destruct (Z.compare_spec y y') as [-> | Hy | Hy].
  - destruct (Z.compare_spec m m') as [-> | Hm | Hm].
    + unfold ymd2ord. destruct (Z.compare_spec d d');
        [apply Z.compare_eq_iff | apply Z.compare_lt_iff | apply Z.compare_gt_iff];
        lia.
    + apply Z.compare_lt_iff. apply ymd2ord_month_lt; assumption.
    + apply Z.compare_gt_iff. apply ymd2ord_month_lt; assumption.
  - apply Z.compare_lt_iff. apply ymd2ord_year_lt; assumption.
  - apply Z.compare_gt_iff. apply ymd2ord_year_lt; assumption.
Qed.

Lemma valid_inv d :
  valid d ->
  1 <= year d <= 9999 /\ date_ok (year d) (month d) (day d)
  /\ 0 <= hour d <= 23 /\ 0 <= minute d <= 59 /\ 0 <= second d <= 59
  /\ 0 <= microsecond d <= 999999.
Proof.
  unfold valid, fields_ok, date_ok. rewrite !andb_true_iff, !Z.leb_le. lia.
Qed.

Lemma time_compare a b :
  valid a -> valid b ->
  (time_of_day a ?= time_of_day b)
  = match hour a ?= hour b with
    | Eq =>
        match minute a ?= minute b with
        | Eq =>
            match second a ?= second b with
            | Eq => microsecond a ?= microsecond b
            | c => c
            end
        | c => c
        end
    | c => c
    end.
Proof.
  intros Ha Hb. apply valid_inv in Ha, Hb. unfold time_of_day.
  destruct (Z.compare_spec (hour a) (hour b)) as [Eh | Hh | Hh];
    [destruct (Z.compare_spec (minute a) (minute b)) as [Em | Hm | Hm];
     [destruct (Z.compare_spec (second a) (second b)) as [Es | Hs | Hs];
      [destruct (Z.compare_spec (microsecond a) (microsecond b)) |..] |..] |..];
    first [apply Z.compare_eq_iff | apply Z.compare_lt_iff | apply Z.compare_gt_iff];
    lia.
Qed.

(** On valid values, the comparison of the fields is the comparison of the
    wall-clock times. *)
Lemma fields_cmp_wall a b :
  valid a -> valid b -> fields_cmp a b = (wall a ?= wall b).
Proof.
  intros Ha Hb.
  pose proof (time_compare a b Ha Hb) as Ht.
  pose proof (valid_inv a Ha) as (_ & Hda & Ha').
  pose proof (valid_inv b Hb) as (_ & Hdb & Hb').
  pose proof (ymd2ord_compare _ _ _ _ _ _ Hda Hdb) as Hd.
  assert (0 <= time_of_day a < US_PER_DAY /\ 0 <= time_of_day b < US_PER_DAY)
    as [Ra Rb] by (unfold time_of_day, US_PER_DAY; lia).
  unfold fields_cmp.
  replace (wall a) with
    ((ymd2ord (year a) (month a) (day a) - 1) * US_PER_DAY + time_of_day a)
    by (unfold wall, time_of_day; lia).
  replace (wall b) with
    ((ymd2ord (year b) (month b) (day b) - 1) * US_PER_DAY + time_of_day b)
    by (unfold wall, time_of_day; lia).
  set (oa := ymd2ord (year a) (month a) (day a)) in *.
  set (ob := ymd2ord (year b) (month b) (day b)) in *.
  unfold US_PER_DAY in *.
  assert (Hgo : forall c, (oa ?= ob) = c ->
            (c = Eq -> (time_of_day a ?= time_of_day b) = fields_cmp a b) ->
            (c <> Eq -> c = fields_cmp a b) ->
            fields_cmp a b
            = ((oa - 1) * (86400 * 1000000) + time_of_day a
               ?= (ob - 1) * (86400 * 1000000) + time_of_day b)).
  { intros c Hc Heq Hne. destruct c.
    - apply Z.compare_eq_iff in Hc. rewrite <- (Heq eq_refl), Hc.
      destruct (Z.compare_spec (time_of_day a) (time_of_day b)); symmetry;
        first [apply Z.compare_eq_iff | apply Z.compare_lt_iff
              | apply Z.compare_gt_iff]; lia.
    - change (oa < ob) in Hc. rewrite <- (Hne ltac:(discriminate)).
      symmetry. apply Z.compare_lt_iff. lia.
    - change (oa > ob) in Hc. rewrite <- (Hne ltac:(discriminate)).
      symmetry. apply Z.compare_gt_iff. lia. }
  apply (Hgo _ Hd); unfold fields_cmp; [rewrite Ht |];
    destruct (year a ?= year b), (month a ?= month b), (day a ?= day b);
    congruence.
Qed.

Lemma valid_replace_tzinfo d tz : valid d -> valid (replace_tzinfo d tz).
Proof. intros H. exact H. Qed.

Lemma wall_replace_tzinfo d tz : wall (replace_tzinfo d tz) = wall d.
Proof. reflexivity. Qed.

(** Subtracting days moves the wall-clock time by that many days and
    keeps the value valid. *)
Lemma sub_days_spec d n d' :
  valid d -> sub_days d n = Ok d' ->
  valid d' /\ wall d' = wall d - n * US_PER_DAY /\ tzinfo d' = tzinfo d.
Proof.
  intros Hv. unfold sub_days.
  set (o := ymd2ord (year d) (month d) (day d) - n).
  destruct ((0 <? o) && (o <=? MAXORDINAL)) eqn:Hr; [| discriminate].
  apply andb_true_iff in Hr. rewrite Z.ltb_lt, Z.leb_le in Hr.
  pose proof (ord2ymd_spec o ltac:(lia)) as Ho.
  destruct (ord2ymd o) as [[y m] dd]. destruct Ho as (Hy & Hm & Hd & Ho).
  intros H; inversion H; subst d'; clear H.
  assert (Hy' : y <= 9999).
  { destruct (Z.le_gt_cases y 9999) as [| Hgt]; [assumption |].
    assert (date_ok 9999 12 31) as H9 by (unfold date_ok; cbn; lia).
    pose proof (ymd2ord_year_lt 9999 12 31 y m dd H9 (conj Hm Hd) ltac:(lia)) as Hlt.
    change (ymd2ord 9999 12 31) with 3652059 in Hlt.
    unfold MAXORDINAL in Hr. lia. }
  apply valid_inv in Hv. destruct Hv as (_ & _ & Hh & Hmi & Hs & Hus).
  split.
  { unfold valid, fields_ok. cbn.
    rewrite !andb_true_iff, !Z.leb_le. lia. }
  split; [| reflexivity].
  unfold wall. cbn. rewrite Ho. subst o. unfold US_PER_DAY. lia.
Qed.

Lemma fromisoformat_valid s t : fromisoformat s = Ok t -> valid t.
Proof.
  unfold fromisoformat.
  destruct (parse_isoformat_date _) as [[[y mo] d] |]; [| discriminate].
  destruct (if PyStr.truthy _ then _ else _) as [[[[[h mi] sec] us] tz] |];
    [| discriminate].
  destruct (fields_ok y mo d h mi sec us) eqn:Hok; [| discriminate].
  intros H; inversion H; subst. exact Hok.
Qed.

(** Between two valid values labelled UTC, [>=] compares the instants. *)
Lemma ge_utc a b :
  valid a -> valid b -> tzinfo a = utc -> tzinfo b = utc ->
  ge a b = Ok (instant b <=? instant a).
Proof.
  intros Ha Hb Ta Tb. unfold ge, cmp, rbind, instant. rewrite Ta, Tb. cbn.
  rewrite (fields_cmp_wall a b Ha Hb). rewrite !Z.sub_0_r.
  destruct (Z.compare_spec (wall a) (wall b)); f_equal; symmetry;
    first [apply Z.leb_le | apply Z.leb_gt]; lia.
Qed.

End DatetimeFacts.

(** ** [OpenRouterClient.call_llm] *)

Section CallLlm.

Import Json OpenRouterClient.

Lemma raise_for_status_exn url r e :
  raise_for_status url r = Raise e -> is_RequestException e = true.
Proof.
  unfold raise_for_status.
  intros Hr. repeat case_match; inversion Hr; reflexivity.
Qed.

Lemma raise_for_status_ok url r :
  raise_for_status url r = Ok tt <-> status_ok (status_code r) = true.
Proof.
  unfold raise_for_status, status_ok.
  destruct (400 <=? status_code r) eqn:E1, (status_code r <? 500) eqn:E2,
    (500 <=? status_code r) eqn:E3, (status_code r <? 600) eqn:E4;
    simpl; split; intros H; try discriminate; try reflexivity; lia.
Qed.

Lemma response_json_exn r e :
  response_json r = Raise e -> is_RequestException e = true.
Proof.
  unfold response_json. destruct (body r); simpl; intros H; inversion H.
  reflexivity.
Qed.

(** The first part of the [try] block sends exactly one request, and what
    it raises is a [RequestException]. *)
Lemma request_result_spec self prompt temperature w :
  let rq := completion_request self prompt temperature in
  let w' := set_sent (sent w ++ [rq]) w in
  match request_result self prompt temperature w with
  | (Ok res, w1) =>
      w1 = w'
      /\ exists r, remote w (sent w) rq = Responded r
           /\ status_ok (status_code r) = true /\ body r = Some res
  | (Raise e, w1) =>
      w1 = w' /\ is_RequestException e = true
      /\ forall r, remote w (sent w) rq = Responded r ->
           status_ok (status_code r) = true -> body r = None
  end.
Proof.
  unfold request_result, completion_request, bind, send, lift. simpl.
  destruct (remote w _ _) as [cls msg resp | r] eqn:Ho; simpl.
  - split; [reflexivity | split; [reflexivity | discriminate]].
  - destruct (raise_for_status _ r) as [[] | e] eqn:Hs.
    + apply raise_for_status_ok in Hs.
      destruct (response_json r) as [res | e] eqn:Hj.
      * split; [reflexivity |]. exists r. repeat split; try assumption.
        unfold response_json in Hj. destruct (body r); inversion Hj. reflexivity.
      * split; [reflexivity |]. split; [eapply response_json_exn; eassumption |].
        intros r' Hr' _. inversion Hr'; subst r'.
        unfold response_json in Hj. destruct (body r); [inversion Hj | reflexivity].
    + split; [reflexivity |]. split; [eapply raise_for_status_exn; eassumption |].
      intros r' Hr' Hok. inversion Hr'; subst r'.
      pose proof (proj2 (raise_for_status_ok (completions_url self) r) Hok).
      congruence.
Qed.

(** The handlers return the empty string, provided [result] is bound when
    a [KeyError] arrives. *)
Lemma handle_returns_empty res e w :
  (res = None -> is_RequestException e = true) ->
  exists w', handle res e w = (Ok "", w') /\ sent w' = sent w.
Proof.
  intros Hbound. unfold handle.
  destruct (is_RequestException e) eqn:Hreq.
  - unfold bind, logger_error, ret.
    destruct e as [cls msg [[status text]|] | | | | | | | | | | |];
      simpl; try (eexists; split; reflexivity).
    destruct (status_ok status); simpl; eexists; split; reflexivity.
  - destruct (is_KeyError e) eqn:Hkey.
    + destruct res as [res |].
      * eexists; split; reflexivity.
      * specialize (Hbound eq_refl). discriminate.
    + destruct (is_ValueError e); eexists; split; reflexivity.
Qed.

Lemma strip_empty : PyStr.strip "" = "".
Proof. reflexivity. Qed.

(** What the checks let through is not empty. *)
Lemma validate_nonempty res content :
  validate res = Ok content -> content <> "".
Proof.
  unfold validate, rbind. intros H Hc. subst content.
  repeat (case_match; try discriminate).
  match goal with
  | Ha : as_str _ ?j = Ok _, Hs : strip ?j = Ok ?s, Ht : negb (PyStr.truthy ?s) = false |- _ =>
      destruct j; simpl in Ha, Hs; try discriminate;
      inversion Ha; subst; inversion Hs; subst; discriminate Ht
  end.
Qed.

Lemma validate_zero_choices res :
  zero_choices res ->
  validate res = Raise (ValueError "Empty choices in API response").
Proof.
  intros [Hc | (choices & Hg & Hl)]; unfold validate, rbind.
  - rewrite Hc. reflexivity.
  - destruct res; simpl in Hg; try discriminate.
    simpl. destruct (lookup "choices" items) eqn:Hl'; simpl in Hg; inversion Hg; subst.
    rewrite bool_decide_eq_true_2 by eauto. simpl.
    rewrite Hl. reflexivity.
Qed.

Lemma validate_blank_first_choice res :
  blank_first_choice res ->
  validate res = Raise (ValueError "Empty content in LLM response").
Proof.
  intros (choices & first & message & c & Hg & H0 & Hm & Hc & Hs).
  unfold validate, rbind.
  destruct res; simpl in Hg; try discriminate.
  simpl. destruct (lookup "choices" items) eqn:Hl'; simpl in Hg; inversion Hg; subst.
  rewrite bool_decide_eq_true_2 by eauto. simpl.
  destruct choices as [| | | | s | l | its]; simpl in H0; try discriminate.
  - destruct (PyStr.chars s); simpl in H0; inversion H0; subst.
    simpl in Hm. discriminate.
  - destruct l as [| x l]; simpl in H0; inversion H0; subst.
    simpl. rewrite Hm. rewrite Hc. simpl. rewrite Hs. reflexivity.
Qed.

End CallLlm.

(** One call of [call_llm] returns, after exactly one request. *)
Lemma call_llm_returns (self : OpenRouterClient.t) (prompt : string)
    (temperature : Q) (w : World) :
  exists content w',
    OpenRouterClient.call_llm self prompt temperature w = (Ok content, w')
    /\ sent w' = sent w ++ [completion_request self prompt temperature].
Proof.
  unfold OpenRouterClient.call_llm.
  pose proof (request_result_spec self prompt temperature w) as Hreq.
  cbv zeta in Hreq.
  destruct (OpenRouterClient.request_result self prompt temperature w)
    as [[res | e] w1].
  - destruct Hreq as (-> & _).
    destruct (OpenRouterClient.validate res) as [content | e].
    + eexists. eexists. split; reflexivity.
    + destruct (handle_returns_empty (Some res) e
                  (set_sent (sent w ++ [completion_request self prompt temperature]) w))
        as (w' & Hh & Hs); [discriminate |].
      exists "", w'. split; [exact Hh | rewrite Hs; reflexivity].
  - destruct Hreq as (-> & He & _).
    destruct (handle_returns_empty None e
                (set_sent (sent w ++ [completion_request self prompt temperature]) w))
      as (w' & Hh & Hs); [intros _; exact He |].
    exists "", w'. split; [exact Hh | rewrite Hs; reflexivity].
Qed.

(** C3. [call_llm] never raises: for every client, prompt, temperature and
    world (so for every answer of the remote service) it returns a string,
    after exactly one request.  The string is empty when the transport
    fails (timeout included), when the decoded response has no choice, when
    the first choice's content is empty once trimmed, and when the checks
    raise any exception; it is non-empty exactly when the exchange
    succeeded with that content. *)
Theorem call_llm_never_raises (self : OpenRouterClient.t) (prompt : string)
    (temperature : Q) (w : World) :
  let rq := completion_request self prompt temperature in
  let o := remote w (sent w) rq in
  exists content w',
    OpenRouterClient.call_llm self prompt temperature w = (Ok content, w')
    /\ sent w' = sent w ++ [rq]
    /\ (content <> "" <-> completion_succeeds o content)
    /\ (forall cls msg resp, o = TransportError cls msg resp -> content = "")
    /\ (forall r res, o = Responded r -> body r = Some res ->
          zero_choices res -> content = "")
    /\ (forall r res, o = Responded r -> body r = Some res ->
          blank_first_choice res -> content = "")
    /\ (forall r res e, o = Responded r -> body r = Some res ->
          OpenRouterClient.validate res = Raise e -> content = "").
Proof.
  intros rq o. unfold OpenRouterClient.call_llm.
  pose proof (request_result_spec self prompt temperature w) as Hreq.
  cbv zeta in Hreq. fold rq in Hreq. fold o in Hreq.
  destruct (OpenRouterClient.request_result self prompt temperature w)
    as [[res | e] w1].
  - destruct Hreq as (-> & r & Ho & Hok & Hb).
    destruct (OpenRouterClient.validate res) as [content | e] eqn:Hv.
    + exists content, (set_sent (sent w ++ [rq]) w).
      split; [reflexivity |]. split; [reflexivity |].
      split.
      { split; [intros _; exists r, res; auto |
                intros _; eapply validate_nonempty; eassumption]. }
      split; [intros ? ? ? Ho'; congruence |].
      split.
      { intros r' res' Ho' Hb' Hz. assert (res' = res) by congruence. subst.
        apply validate_zero_choices in Hz. congruence. }
      split.
      { intros r' res' Ho' Hb' Hz. assert (res' = res) by congruence. subst.
        apply validate_blank_first_choice in Hz. congruence. }
      intros r' res' e Ho' Hb' Hv'. assert (res' = res) by congruence. subst.
      congruence.
    + destruct (handle_returns_empty (Some res) e (set_sent (sent w ++ [rq]) w))
        as (w' & Hh & Hs); [discriminate |].
      exists "", w'. split; [assumption |]. split; [rewrite Hs; reflexivity |].
      split.
      { split; [congruence |].
        intros (r' & res' & Ho' & _ & Hb' & Hv').
        assert (res' = res) by congruence. subst. congruence. }
      repeat split; reflexivity.
  - destruct Hreq as (-> & He & Hnone).
    destruct (handle_returns_empty None e (set_sent (sent w ++ [rq]) w))
      as (w' & Hh & Hs); [intros _; assumption |].
    exists "", w'. split; [assumption |]. split; [rewrite Hs; reflexivity |].
    split.
    { split; [congruence |].
      intros (r' & res' & Ho' & Hok' & Hb' & _).
      rewrite (Hnone r' Ho' Hok') in Hb'. discriminate. }
    repeat split; reflexivity.
Qed.


(** ** [ContentProcessor] *)

(** C4. With the feedback ["Content approved as-is"], [polish_content]
    returns its content argument unchanged and leaves the world as it was:
    no request is sent. *)
Theorem polish_content_approved (self : ContentProcessor.t) (content : string)
    (w : World) :
  ContentProcessor.polish_content self content "Content approved as-is" w
  = (Ok content, w)
  /\ sent (snd (ContentProcessor.polish_content self content
                  "Content approved as-is" w)) = sent w.
Proof. split; reflexivity. Qed.

(** Tags that are strings are joined without an exception. *)
Lemma join_items_str (i : Z) (tags : list Json.json) :
  Forall (fun tag => exists s, tag = Json.JStr s) tags ->
  exists items, Json.join_items i tags = Ok items.
Proof.
  intros H. revert i. induction H as [| tag tags (s & ->) _ IH]; intros i.
  - exists []. reflexivity.
  - destruct (IH (i + 1)) as (items & Hi). exists (s :: items).
    cbn [Json.join_items]. rewrite Hi. reflexivity.
Qed.

Lemma link_block_str_tags (l : Link.t) :
  str_tags l -> exists block, ContentProcessor.link_block l = Ok block.
Proof.
  intros H. destruct (join_items_str 0 _ H) as (items & Hi).
  unfold ContentProcessor.link_block, Json.join, rbind. rewrite Hi.
  eexists. reflexivity.
Qed.

(** The prompt of links whose tags are strings is built without an
    exception. *)
Lemma structure_prompt_str_tags (links : list Link.t) :
  Forall str_tags links ->
  exists prompt, ContentProcessor.structure_prompt links = Ok prompt.
Proof.
  intros H.
  assert (Hb : exists blocks,
             comprehension ContentProcessor.link_block links = Ok blocks).
  { induction H as [| l links Hl _ (blocks & IH)].
    - exists []. reflexivity.
    - destruct (link_block_str_tags l Hl) as (block & Hblock).
      exists (block :: blocks). cbn [comprehension]. unfold rbind.
      rewrite Hblock, IH. reflexivity. }
  destruct Hb as (blocks & Hb).
  unfold ContentProcessor.structure_prompt, ContentProcessor.links_text, rbind.
  rewrite Hb. eexists. reflexivity.
Qed.

(** [structure_links] sends the synthesis prompt in one request and
    returns what [call_llm] returns; when the prompt cannot be built, it
    raises what the building raised and sends nothing. *)
Lemma structure_links_spec (self : ContentProcessor.t) (links : list Link.t)
    (w : World) :
  match ContentProcessor.structure_prompt links with
  | Ok prompt =>
      exists out w',
        ContentProcessor.structure_links self links w = (Ok out, w')
        /\ sent w'
           = (sent w
              ++ [completion_request (ContentProcessor.openrouter self)
                    prompt (7 # 10)])
  | Raise e => ContentProcessor.structure_links self links w = (Raise e, w)
  end.
Proof.
  unfold ContentProcessor.structure_links, bind, lift, ret.
  destruct (ContentProcessor.structure_prompt links) as [prompt | e];
    [| reflexivity].
  destruct (call_llm_returns (ContentProcessor.openrouter self)
              prompt (7 # 10) w)
    as (content & w' & Hc & Hs).
  rewrite Hc. exists content, w'. split; [reflexivity | exact Hs].
Qed.

(** C9. [structure_links] performs exactly one completion request for every
    list of links whose tags are strings, the empty list included: the
    prompt then announces 0 links.  For any list at all, it sends the one
    request with the prompt when the prompt can be built, and otherwise
    (a tag that is not a string makes [join] raise) raises before any
    request.  In [main], the statements after the fetch return at once on
    an empty list, so that no request is sent and no file written. *)
Theorem structure_links_one_call (self : ContentProcessor.t)
    (links : list Link.t) (w : World) :
  match ContentProcessor.structure_prompt links with
  | Ok prompt =>
      exists out w',
        ContentProcessor.structure_links self links w = (Ok out, w')
        /\ sent w'
           = (sent w
              ++ [completion_request (ContentProcessor.openrouter self)
                    prompt (7 # 10)])
  | Raise e => ContentProcessor.structure_links self links w = (Raise e, w)
  end
  /\ (Forall str_tags links ->
      exists prompt out w',
        ContentProcessor.structure_prompt links = Ok prompt
        /\ ContentProcessor.structure_links self links w = (Ok out, w')
        /\ sent w'
           = (sent w
              ++ [completion_request (ContentProcessor.openrouter self)
                    prompt (7 # 10)]))
  /\ (exists out w',
        ContentProcessor.structure_links self [] w = (Ok out, w')
        /\ List.length (sent w') = S (List.length (sent w)))
  /\ (exists prompt,
        ContentProcessor.structure_prompt [] = Ok prompt
        /\ PyStr.contains
             "weekly digest from these 0 links I've saved this week." prompt
           = true)
  /\ (forall hugo_generator : HugoContentGenerator.t,
        exists w',
          process self hugo_generator [] w = (Ok tt, w')
          /\ sent w' = sent w /\ files w' = files w).
Proof.
  split; [apply structure_links_spec |].
  split.
  { intros Htags.
    destruct (structure_prompt_str_tags links Htags) as (prompt & Hp).
    pose proof (structure_links_spec self links w) as H. rewrite Hp in H.
    destruct H as (out & w' & H & Hs). exists prompt, out, w'. auto. }
  split.
  { pose proof (structure_links_spec self [] w) as H.
    change (ContentProcessor.structure_prompt [])
      with (Ok (A := string) (ContentProcessor.prompt_text 0 "")) in H.
    destruct H as (out & w' & H & Hs).
    exists out, w'. split; [exact H |].
    rewrite Hs, length_app. simpl. lia. }
  split; [eexists; split; [reflexivity | vm_compute; reflexivity] |].
  intros hugo_generator. eexists. split; [reflexivity |]. split; reflexivity.
Qed.

(** C10. [get_editor_feedback] trims the line it reads; an empty trimmed
    line gives the sentinel ["Content approved as-is"], so the result is
    never empty; and a line that reads as the sentinel itself gives the
    sentinel too, on which [polish_content] returns the draft without any
    request. *)
Theorem get_editor_feedback_sentinel (self : ContentProcessor.t)
    (content line : string) (rest : list string) (w : World) :
  exists feedback w',
    ContentProcessor.get_editor_feedback self content
      (set_stdin (line :: rest) w) = (Ok feedback, w')
    /\ feedback
       = (if PyStr.truthy (PyStr.strip line) then PyStr.strip line
          else "Content approved as-is")
    /\ (PyStr.strip line = "" -> feedback = "Content approved as-is")
    /\ feedback <> ""
    /\ sent w' = sent w
    /\ (PyStr.strip line = "Content approved as-is" ->
        forall (draft : string) (w2 : World),
          ContentProcessor.polish_content self draft feedback w2
          = (Ok draft, w2)).
Proof.
  eexists. eexists. split; [reflexivity |].
  split; [reflexivity |].
  split; [intros ->; reflexivity |].
  split.
  { destruct (PyStr.strip line) eqn:E; simpl; [discriminate | discriminate]. }
  split; [reflexivity |].
  intros E draft w2. rewrite E. reflexivity.
Qed.

(** ** [LinkAceClient.get_weekly_links] *)

Section GetWeeklyLinks.

Import Json LinkAceClient.

Lemma comprehension_In {A B : Type} (f : A -> result B) (l : list A)
    (r : list B) (y : B) :
  comprehension f l = Ok r -> In y r -> exists x, In x l /\ f x = Ok y.
Proof.
  revert r. induction l as [| x l IH]; simpl; intros r H Hy.
  - inversion H; subst. destruct Hy.
  - unfold rbind in H. destruct (f x) as [y' |] eqn:Hx; [| discriminate].
    destruct (comprehension f l) as [ys |]; [| discriminate].
    inversion H; subst. destruct Hy as [-> | Hy].
    + exists x. auto.
    + destruct (IH ys eq_refl Hy) as (x' & Hin & Hf). exists x'. auto.
Qed.


(** What the evaluation of the records raises is never a
    [RequestException]. *)
Lemma getitem_exn v k e :
  getitem v k = Raise e -> is_RequestException e = false.
Proof.
  destruct v; simpl; intros H; inversion H; try reflexivity.
  destruct (lookup k items); inversion H; reflexivity.
Qed.

Lemma get_exn v k d e : get v k d = Raise e -> is_RequestException e = false.
Proof. destruct v; simpl; intros H; inversion H; reflexivity. Qed.

Lemma iter_exn v e : iter v = Raise e -> is_RequestException e = false.
Proof. destruct v; simpl; intros H; inversion H; reflexivity. Qed.

Lemma replace_Z_exn v e :
  replace_Z v = Raise e -> is_RequestException e = false.
Proof. destruct v; simpl; intros H; inversion H; reflexivity. Qed.

Lemma fromisoformat_exn s e :
  Datetime.fromisoformat s = Raise e -> is_RequestException e = false.
Proof.
  unfold Datetime.fromisoformat. intros H.
  repeat case_match; inversion H; reflexivity.
Qed.

Lemma ge_exn a b e : Datetime.ge a b = Raise e -> is_RequestException e = false.
Proof.
  unfold Datetime.ge, Datetime.cmp, rbind. intros H.
  destruct (Datetime.tzinfo a), (Datetime.tzinfo b);
    repeat case_match; try discriminate; inversion H; subst; reflexivity.
Qed.

Lemma comprehension_exn {A B : Type} (f : A -> result B) (l : list A) e :
  comprehension f l = Raise e -> exists x, f x = Raise e.
Proof.
  induction l as [| x l IH]; simpl; [discriminate |].
  unfold rbind. destruct (f x) eqn:Hx.
  - destruct (comprehension f l); [discriminate |].
    intros H; inversion H; subst. apply IH. reflexivity.
  - intros H; inversion H; subst. eauto.
Qed.

Ltac bind_cases H :=
  repeat (unfold rbind in H at 1;
          match type of H with
          | match ?r with Ok _ => _ | Raise _ => _ end = Raise _ =>
              let E := fresh "E" in
              destruct r eqn:E; [| inversion H; subst; clear H]
          end).

Ltac exn_lemmas :=
  eauto using getitem_exn, get_exn, iter_exn, replace_Z_exn,
    fromisoformat_exn, ge_exn.

Lemma make_link_exn r e :
  make_link r = Raise e -> is_RequestException e = false.
Proof.
  unfold make_link. intros H. bind_cases H; exn_lemmas.
  - discriminate.
  - match goal with E : comprehension _ _ = Raise _ |- _ =>
      apply comprehension_exn in E; destruct E as (x & E) end.
    exn_lemmas.
Qed.

Lemma is_recent_exn one_week_ago r e :
  is_recent one_week_ago r = Raise e -> is_RequestException e = false.
Proof.
  unfold is_recent. intros H. bind_cases H; exn_lemmas.
  unfold parse_created_at in *.
  match goal with E : _ = Raise e |- _ => bind_cases E; exn_lemmas end.
  discriminate.
Qed.

Lemma for_each_visit_exn one_week_ago records acc e :
  for_each (visit one_week_ago) records acc = Raise e ->
  is_RequestException e = false.
Proof.
  revert acc. induction records as [| r records IH]; simpl; intros acc H.
  - discriminate.
  - unfold rbind in H at 1.
    destruct (visit one_week_ago acc r) as [acc' | e'] eqn:Hv.
    + eapply IH; eassumption.
    + inversion H; subst e'. unfold visit in Hv.
      unfold rbind in Hv at 1.
      destruct (is_recent one_week_ago r) as [[|] | e'] eqn:Hr.
      * unfold rbind in Hv. destruct (make_link r) eqn:Hm; [discriminate |].
        inversion Hv; subst. eapply make_link_exn; eassumption.
      * discriminate.
      * inversion Hv; subst. eapply is_recent_exn; eassumption.
Qed.

Lemma response_records_exn data e :
  response_records data = Raise e -> is_RequestException e = false.
Proof. unfold response_records. intros H. bind_cases H; exn_lemmas. Qed.

(** One round of the loop: a record that passes adds its link, another
    one adds nothing. *)
Lemma visit_spec one_week_ago acc r links :
  visit one_week_ago acc r = Ok links ->
  (is_recent one_week_ago r = Ok true
   /\ exists l, make_link r = Ok l /\ links = acc ++ [l])
  \/ (is_recent one_week_ago r = Ok false /\ links = acc).
Proof.
  unfold visit, rbind.
  destruct (is_recent one_week_ago r) as [[|] | e]; [| | discriminate].
  - destruct (make_link r) as [l |]; [| discriminate].
    intros H; inversion H; subst. left. eauto.
  - intros H; inversion H; subst. right. auto.
Qed.

(** The loop keeps, in order, the links of the records that pass the
    test, and the test raised on no record. *)
Lemma for_each_visit one_week_ago records acc links :
  for_each (visit one_week_ago) records acc = Ok links ->
  exists new,
    links = acc ++ new
    /\ comprehension make_link (recent_records one_week_ago records) = Ok new
    /\ Forall (fun r => exists b, is_recent one_week_ago r = Ok b) records.
Proof.
  revert acc. induction records as [| r records IH]; simpl; intros acc H.
  - inversion H; subst. exists []. rewrite app_nil_r. auto.
  - unfold rbind in H at 1.
    destruct (visit one_week_ago acc r) as [acc' |] eqn:Hv; [| discriminate].
    destruct (IH _ H) as (new & -> & Hc & Hall).
    unfold recent_records. simpl. unfold passes at 1.
    fold (recent_records one_week_ago records).
    destruct (visit_spec _ _ _ _ Hv) as [(Hr & l & Hl & ->) | (Hr & ->)];
      rewrite Hr.
    + exists (l :: new). rewrite <- app_assoc. split; [reflexivity |].
      split; [| constructor; eauto].
      simpl. unfold rbind. rewrite Hl, Hc. reflexivity.
    + exists new. split; [reflexivity |]. split; [exact Hc |].
      constructor; eauto.
Qed.

Lemma as_str_inv field v s : as_str field v = Ok s -> v = JStr s.
Proof. destruct v; simpl; intros H; inversion H; reflexivity. Qed.

(** A link carries the [created_at] of its record. *)
Lemma make_link_created_at r l :
  make_link r = Ok l -> getitem r "created_at" = Ok (Link.created_at l).
Proof.
  unfold make_link, rbind. intros H.
  repeat (case_match; try discriminate).
  inversion H; subst; simpl. reflexivity.
Qed.

(** The creation time of a record, as the filter reads it. *)
Lemma is_recent_created one_week_ago r l b :
  make_link r = Ok l -> is_recent one_week_ago r = Ok b ->
  exists t, created_time l = Ok t /\ Datetime.ge t one_week_ago = Ok b.
Proof.
  intros Hl Hr. apply make_link_created_at in Hl.
  unfold is_recent, rbind in Hr. rewrite Hl in Hr. unfold created_time.
  destruct (parse_created_at _) as [t |]; [| discriminate].
  exists t. auto.
Qed.

Lemma recent_records_In one_week_ago records r :
  In r (recent_records one_week_ago records) <->
  In r records /\ is_recent one_week_ago r = Ok true.
Proof.
  unfold recent_records. rewrite filter_In. unfold passes.
  destruct (is_recent one_week_ago r) as [[|] |]; intuition congruence.
Qed.

(** The account of one call that returns: the bound is seven days before
    the clock reading; a failed exchange gives the empty list; a decoded
    success response gives the links of the records that pass the test. *)
Lemma get_weekly_links_spec self list_id w links w' :
  get_weekly_links self list_id w = (Ok links, w') ->
  exists one_week_ago,
    Datetime.sub_days (fetch_time w) 7 = Ok one_week_ago
    /\ match remote w (sent w) (links_request self list_id) with
       | TransportError _ _ _ => links = []
       | Responded r =>
           if status_ok (status_code r) then
             match body r with
             | None => links = []
             | Some data =>
                 exists records,
                   response_records data = Ok records
                   /\ comprehension make_link
                        (recent_records one_week_ago records) = Ok links
             end
           else links = []
       end.
Proof.
  unfold get_weekly_links, bind, datetime_now_utc, lift. fold (fetch_time w).
  destruct (Datetime.sub_days (fetch_time w) 7) as [owa | e]; [| discriminate].
  intros H. exists owa. split; [reflexivity |].
  unfold try_except, fetch, bind, send, lift in H. simpl in H.
  change (GET (links_url self list_id) (headers self) params)
    with (links_request self list_id) in H.
  destruct (remote w (sent w) (links_request self list_id))
    as [cls msg resp | r] eqn:Ho; simpl in H.
  { inversion H; auto. }
  destruct (raise_for_status _ r) as [[] | e] eqn:Hs.
  2:{ rewrite (raise_for_status_exn _ _ _ Hs) in H.
      destruct (status_ok (status_code r)) eqn:Hok; [| inversion H; auto].
      apply (raise_for_status_ok (links_url self list_id)) in Hok. congruence. }
  apply raise_for_status_ok in Hs. rewrite Hs.
  unfold response_json in H.
  destruct (body r) as [data |]; simpl in H; [| inversion H; auto].
  fold (response_records data) in H.
  destruct (response_records data) as [records | e] eqn:Hrec.
  2:{ rewrite (response_records_exn _ _ Hrec) in H. inversion H. }
  destruct (for_each (visit owa) records []) as [ls | e] eqn:Hloop.
  2:{ rewrite (for_each_visit_exn _ _ _ _ Hloop) in H. inversion H. }
  unfold logger_info, ret in H. inversion H; subst ls.
  destruct (for_each_visit _ _ _ _ Hloop) as (new & -> & Hc & _).
  exists records. split; [reflexivity | exact Hc].
Qed.

(** The parsed creation time is a valid value labelled UTC. *)
Lemma parse_created_at_utc raw t :
  parse_created_at raw = Ok t ->
  Datetime.valid t /\ Datetime.tzinfo t = Datetime.utc.
Proof.
  unfold parse_created_at, rbind.
  destruct (replace_Z raw) as [s |]; [| discriminate].
  destruct (Datetime.fromisoformat s) as [parsed |] eqn:Hp; [| discriminate].
  intros H; inversion H; subst. split; [| reflexivity].
  apply valid_replace_tzinfo. eapply fromisoformat_valid; eassumption.
Qed.

(** With a valid clock reading, passing the test is being at or after the
    instant seven days before the fetch time. *)
Lemma ge_one_week_ago w one_week_ago raw t :
  Datetime.valid (utc_time (clock w (ticks w))) ->
  Datetime.sub_days (fetch_time w) 7 = Ok one_week_ago ->
  parse_created_at raw = Ok t ->
  Datetime.ge t one_week_ago
  = Ok (Datetime.instant (fetch_time w) - 7 * Datetime.US_PER_DAY
        <=? Datetime.instant t).
Proof.
  intros Hv Hb Ht.
  destruct (parse_created_at_utc _ _ Ht) as [Hvt Htz].
  destruct (sub_days_spec (fetch_time w) 7 one_week_ago
              (valid_replace_tzinfo _ _ Hv) Hb) as (Hvo & Hwo & Hto).
  rewrite (ge_utc t one_week_ago Hvt Hvo Htz Hto).
  unfold Datetime.instant. rewrite Hto, Hwo. do 2 f_equal. lia.
Qed.

End GetWeeklyLinks.

(** X22. What the filter does ensure, of the time it compares: the
    timestamp parsed and relabelled UTC, whatever offset it was written
    with.  Every link that [get_weekly_links] returns has such a time that
    is not earlier than the fetch time minus seven days, and a link whose
    such time is earlier than that bound is in no place of the returned
    list.  When the response is a success, the returned links are exactly
    those of the records that pass the test, in the order of the
    response. *)
Theorem get_weekly_links_window (self : LinkAceClient.t) (list_id : Z)
    (w w' : World) (links : list Link.t) :
  LinkAceClient.get_weekly_links self list_id w = (Ok links, w') ->
  exists one_week_ago,
    Datetime.sub_days (fetch_time w) 7 = Ok one_week_ago
    /\ (forall l, In l links ->
          exists t, created_time l = Ok t
                    /\ Datetime.ge t one_week_ago = Ok true)
    /\ (forall l t, created_time l = Ok t ->
          Datetime.ge t one_week_ago = Ok false -> ~ In l links)
    /\ (Datetime.valid (utc_time (clock w (ticks w))) ->
        (forall l, In l links ->
           exists t, created_time l = Ok t
                     /\ Datetime.instant (fetch_time w)
                        - 7 * Datetime.US_PER_DAY <= Datetime.instant t)
        /\ (forall l t, created_time l = Ok t ->
              Datetime.instant t
              < Datetime.instant (fetch_time w) - 7 * Datetime.US_PER_DAY ->
              ~ In l links))
    /\ (forall r data records,
          remote w (sent w) (links_request self list_id) = Responded r ->
          status_ok (status_code r) = true ->
          body r = Some data ->
          response_records data = Ok records ->
          comprehension LinkAceClient.make_link
            (recent_records one_week_ago records) = Ok links).
Proof.
  intros H. destruct (get_weekly_links_spec _ _ _ _ _ H) as (owa & Hb & Hl).
  exists owa. split; [exact Hb |].
  assert (Hin : forall l, In l links ->
            exists t, created_time l = Ok t /\ Datetime.ge t owa = Ok true).
  { intros l Hin.
    destruct (remote w (sent w) (links_request self list_id)) as [| r];
      [subst; destruct Hin |].
    destruct (status_ok (status_code r)); [| subst; destruct Hin].
    destruct (body r) as [data |]; [| subst; destruct Hin].
    destruct Hl as (records & _ & Hc).
    destruct (comprehension_In _ _ _ _ Hc Hin) as (x & Hx & Hm).
    apply recent_records_In in Hx. destruct Hx as [_ Hx].
    eapply is_recent_created; eassumption. }
  split; [exact Hin |].
  split.
  { intros l t Ht Hge Hl'. destruct (Hin l Hl') as (t' & Ht' & Hge').
    congruence. }
  split.
  { intros Hv. split.
    - intros l Hl'. destruct (Hin l Hl') as (t & Ht & Hge).
      exists t. split; [exact Ht |].
      rewrite (ge_one_week_ago w owa _ t Hv Hb Ht) in Hge.
      inversion Hge as [Hle]. apply Z.leb_le in Hle. exact Hle.
    - intros l t Ht Hlt Hl'. destruct (Hin l Hl') as (t' & Ht' & Hge).
      assert (t' = t) by congruence. subst t'.
      rewrite (ge_one_week_ago w owa _ t Hv Hb Ht) in Hge.
      inversion Hge as [Hle]. apply Z.leb_le in Hle. lia. }
  intros r data records Ho Hok Hbody Hrec.
  rewrite Ho, Hok, Hbody in Hl. destruct Hl as (records' & Hr' & Hc).
  assert (records' = records) by congruence. subst records'. exact Hc.
Qed.

(** The world whose service lists a record of yesterday and one of two
    weeks ago, at 2024-01-15T09:30:00 UTC; the link of the first is
    returned, and it is not older than 2024-01-08T09:30:00 UTC. *)
Lemma get_weekly_links_window_witness :
  fst (LinkAceClient.get_weekly_links Scenario.client 1
         (Scenario.world Scenario.recent_and_old []))
  = Ok [Scenario.link 1 "2024-01-14T08:00:00.000000Z"]
  /\ exists one_week_ago,
       Datetime.sub_days
         (fetch_time (Scenario.world Scenario.recent_and_old [])) 7
       = Ok one_week_ago
       /\ forall l, In l [Scenario.link 1 "2024-01-14T08:00:00.000000Z"] ->
            exists t, created_time l = Ok t
                      /\ Datetime.ge t one_week_ago = Ok true.
Proof.
  split; [vm_compute; reflexivity |].
  destruct (get_weekly_links_window Scenario.client 1
              (Scenario.world Scenario.recent_and_old [])
              (snd (LinkAceClient.get_weekly_links Scenario.client 1
                      (Scenario.world Scenario.recent_and_old [])))
              [Scenario.link 1 "2024-01-14T08:00:00.000000Z"])
    as (one_week_ago & Hb & Hin & _).
  - vm_compute. reflexivity.
  - exists one_week_ago. split; [exact Hb | exact Hin].
Defined.

(** X1.  A failed exchange (the transport raises, the status is an error
    status, or the body is not JSON) is logged and gives the empty list. *)
Lemma get_weekly_links_failed_exchange (self : LinkAceClient.t) (list_id : Z)
    (w : World) (one_week_ago : Datetime.datetime) :
  Datetime.sub_days (fetch_time w) 7 = Ok one_week_ago ->
  match remote w (sent w) (links_request self list_id) with
  | TransportError _ _ _ => True
  | Responded r => status_ok (status_code r) = false \/ body r = None
  end ->
  exists w' msg,
    LinkAceClient.get_weekly_links self list_id w = (Ok [], w')
    /\ log w' = log w ++ [(ERROR, msg)].
Proof.
  intros Hb Ho.
  unfold LinkAceClient.get_weekly_links, bind, datetime_now_utc, lift.
  fold (fetch_time w). rewrite Hb.
  unfold try_except, LinkAceClient.fetch, bind, send, lift. simpl.
  change (GET (LinkAceClient.links_url self list_id)
            (LinkAceClient.headers self) LinkAceClient.params)
    with (links_request self list_id).
  destruct (remote w (sent w) (links_request self list_id))
    as [cls msg resp | r]; simpl.
  { eexists. eexists. split; reflexivity. }
  destruct (raise_for_status _ r) as [[] | e] eqn:Hs.
  - apply raise_for_status_ok in Hs.
    destruct Ho as [Ho | Ho]; [congruence |].
    unfold response_json. rewrite Ho. simpl.
    eexists. eexists. split; reflexivity.
  - rewrite (raise_for_status_exn _ _ _ Hs).
    eexists. eexists. split; reflexivity.
Qed.

(** C1.  The window does not hold of the creation times.  The service
    lists two records of the day of the bound, 2024-01-08T09:30:00 UTC: one
    stamped [10:00:00+02:00], created at 08:00 UTC, before the bound, and
    one stamped [09:00:00-03:00], created at 12:00 UTC, after it.
    [get_weekly_links] returns the first, whose creation time is earlier
    than the fetch time minus seven days, and leaves out the second, which
    lies within the window: the offsets are replaced by UTC, so that 10:00
    and 09:00 are compared with 09:30. *)
Theorem get_weekly_links_window_broken_by_offsets :
  fst (LinkAceClient.get_weekly_links Scenario.client 1
         (Scenario.world Scenario.around_the_bound []))
  = Ok [Scenario.link 1 Scenario.stamp_before]
  /\ exists kept dropped one_week_ago,
       Datetime.fromisoformat Scenario.stamp_before = Ok kept
       /\ Datetime.fromisoformat Scenario.stamp_after = Ok dropped
       /\ Datetime.sub_days
            (fetch_time (Scenario.world Scenario.around_the_bound [])) 7
          = Ok one_week_ago
       /\ Datetime.instant kept < Datetime.instant one_week_ago
       /\ Datetime.ge kept one_week_ago = Ok false
       /\ Datetime.instant one_week_ago <= Datetime.instant dropped
       /\ Datetime.ge dropped one_week_ago = Ok true.
Proof.
  split; [vm_compute; reflexivity |].
  eexists. eexists. eexists.
  split; [vm_compute; reflexivity |].
  split; [vm_compute; reflexivity |].
  split; [vm_compute; reflexivity |].
  split; [vm_compute; reflexivity |].
  split; [vm_compute; reflexivity |].
  split; [vm_compute; discriminate | vm_compute; reflexivity].
Qed.

(** C2.  The bookmark service answers with a success status and a JSON
    body whose one record has no [created_at]: [get_weekly_links] raises
    [KeyError] instead of returning the empty list, and logs nothing. *)
Theorem get_weekly_links_missing_field_raises :
  LinkAceClient.get_weekly_links Scenario.client 1
    (Scenario.world Scenario.incomplete [])
  = (Raise (KeyError "'created_at'"),
     snd (LinkAceClient.get_weekly_links Scenario.client 1
            (Scenario.world Scenario.incomplete [])))
  /\ log (snd (LinkAceClient.get_weekly_links Scenario.client 1
                 (Scenario.world Scenario.incomplete []))) = [].
Proof. split; vm_compute; reflexivity. Qed.

(** C6.  A record stamped [2024-01-08T12:00:00+05:00] denotes 07:00 UTC,
    earlier than the bound 2024-01-08T09:30:00 UTC: compared as the aware
    value that [fromisoformat] returns it is older than the bound, yet
    [get_weekly_links] keeps it, because the offset is replaced by UTC and
    12:00 is compared with 09:30. *)
Theorem get_weekly_links_ignores_offset :
  fst (LinkAceClient.get_weekly_links Scenario.client 1
         (Scenario.world Scenario.with_offset []))
  = Ok [Scenario.link 1 Scenario.offset_stamp]
  /\ exists t one_week_ago,
       Datetime.fromisoformat Scenario.offset_stamp = Ok t
       /\ Datetime.tzinfo t = Some (5 * 3600 * 1000000)
       /\ Datetime.sub_days (fetch_time (Scenario.world Scenario.with_offset [])) 7
          = Ok one_week_ago
       /\ Datetime.ge t one_week_ago = Ok false
       /\ Datetime.instant t < Datetime.instant one_week_ago
       /\ Datetime.ge (Datetime.replace_tzinfo t Datetime.utc) one_week_ago
          = Ok true.
Proof.
  split; [vm_compute; reflexivity |].
  eexists. eexists.
  split; [vm_compute; reflexivity |].
  repeat split; vm_compute; reflexivity.
Qed.


(** ** [HugoContentGenerator] *)

Section SaveContent.

Import HugoContentGenerator.

Lemma append_empty_r (s : string) : s +:+ "" = s.
Proof.
  induction s as [| a s IH]; [reflexivity |].
  change (String a s +:+ "") with (String a (s +:+ "")).
  rewrite IH. reflexivity.
Qed.

Lemma strftime_iso_date d tz :
  Datetime.strftime "%Y-%m-%d" (Datetime.replace_tzinfo d tz) = iso_date d.
Proof.
  unfold iso_date. simpl. rewrite append_empty_r. reflexivity.
Qed.

Lemma iso_date_same_date a b : same_date a b -> iso_date a = iso_date b.
Proof. intros (Hy & Hm & Hd). unfold iso_date. rewrite Hy, Hm, Hd. reflexivity. Qed.

Lemma is_dir_dirs p w1 w2 :
  dirs w1 = dirs w2 -> PyPath.is_dir p w1 = PyPath.is_dir p w2.
Proof. intros H. unfold PyPath.is_dir. rewrite H. reflexivity. Qed.

(** One call of [save_content], unfolded: it fails when the directory of
    the path is missing or the path is a directory, and otherwise writes
    the header and the body at the path. *)
Lemma save_content_unfold self content links_count w :
  let fp := output_path self (configured_prefix w) (publish_day w) in
  exists header w3,
    dirs w3 = dirs w /\ files w3 = files w /\ environ w3 = environ w
    /\ clock w3 = clock w /\ ticks w3 = (3 + ticks w)%nat
    /\ save_content self content links_count w
       = if negb (PyPath.is_dir (PyPath.parent fp) w) then
           (Raise (OSError
                     (if bool_decide
                           (is_Some (files w !! PyPath.to_string (PyPath.parent fp)))
                      then "NotADirectoryError" else "FileNotFoundError")
                     (PyPath.to_string fp)), w3)
         else if PyPath.is_dir fp w then
           (Raise (OSError "IsADirectoryError" (PyPath.to_string fp)), w3)
         else
           (Ok (PyPath.to_string fp),
            set_log (log w
                     ++ [(INFO, "Hugo content saved to: " +:+ PyPath.to_string fp)])
              (set_files
                 (<[PyPath.to_string fp := header +:+ meta_content content links_count]>
                    (files w)) w3)).
Proof.
  intros fp.
  unfold save_content, generate_frontmatter, bind, datetime_now, getenv_or, ret.
  cbn beta iota.
  eexists. exists (set_ticks (S (S (S (ticks w)))) w).
  repeat (split; [reflexivity |]).
  unfold PyPath.write_text, logger_info.
  rewrite strftime_iso_date.
  cbn [ticks clock environ set_ticks].
  fold (publish_day w). fold (configured_prefix w).
  fold (output_path self (configured_prefix w) (publish_day w)). fold fp.
  rewrite !(is_dir_dirs _ (set_ticks (S (S (S (ticks w)))) w) w) by reflexivity.
  destruct (PyPath.is_dir (PyPath.parent fp) w); simpl; [| reflexivity].
  destruct (PyPath.is_dir fp w); simpl; reflexivity.
Qed.

End SaveContent.

(** C7. The path of [save_content] is the output directory joined with
    [<YYYY-MM-DD>-<prefix>.md], from the day of the clock reading and the
    configuration alone.  After a call that succeeded, a second call on the
    same day with the same prefix (in any later world with the same
    directories) returns the same path without raising, and the file then
    holds the second text, whatever the contents and the counts; no other
    file changes. *)
Theorem save_content_same_day (self : HugoContentGenerator.t)
    (content1 content2 : string) (count1 count2 : Z) (w w1 w2 : World)
    (p : string) :
  HugoContentGenerator.save_content self content1 count1 w = (Ok p, w1) ->
  same_date (publish_day w) (publish_day w2) ->
  configured_prefix w2 = configured_prefix w ->
  dirs w2 = dirs w1 ->
  p = PyPath.to_string (output_path self (configured_prefix w) (publish_day w))
  /\ (exists header,
        files w1 !! p
        = Some (header +:+ HugoContentGenerator.meta_content content1 count1))
  /\ exists w3 header,
       HugoContentGenerator.save_content self content2 count2 w2 = (Ok p, w3)
       /\ files w3 !! p
          = Some (header +:+ HugoContentGenerator.meta_content content2 count2)
       /\ forall q, q <> p -> files w3 !! q = files w2 !! q.
Proof.
  intros H1 Hday Hprefix Hdirs.
  destruct (save_content_unfold self content1 count1 w)
    as (h1 & v & Hd & _ & _ & _ & _ & Heq).
  cbv zeta in Heq. rewrite H1 in Heq.
  set (fp := output_path self (configured_prefix w) (publish_day w)) in *.
  destruct (PyPath.is_dir (PyPath.parent fp) w) eqn:Hpar; simpl in Heq;
    [| discriminate].
  destruct (PyPath.is_dir fp w) eqn:Hfp; [discriminate |].
  inversion Heq; subst p w1. clear Heq. simpl in Hdirs.
  split; [reflexivity |].
  split.
  { exists h1. simpl. apply lookup_insert_eq. }
  destruct (save_content_unfold self content2 count2 w2)
    as (h2 & v' & _ & _ & _ & _ & _ & Heq').
  cbv zeta in Heq'.
  assert (Hfp' : output_path self (configured_prefix w2) (publish_day w2) = fp).
  { unfold fp, output_path.
    rewrite (iso_date_same_date _ _ Hday), Hprefix. reflexivity. }
  rewrite Hfp' in Heq'.
  assert (Hdw : dirs w2 = dirs w) by congruence.
  rewrite (is_dir_dirs (PyPath.parent fp) w2 w Hdw) in Heq'.
  rewrite (is_dir_dirs fp w2 w Hdw) in Heq'.
  rewrite Hpar, Hfp in Heq'. simpl in Heq'.
  eexists. exists h2. split; [exact Heq' |].
  simpl. split; [apply lookup_insert_eq |].
  intros q Hq. rewrite lookup_insert_ne by congruence. reflexivity.
Qed.

(** The witness of C7: two calls on 2024-01-15 in the world that
    [HugoContentGenerator.__init__] leaves. *)
Lemma save_content_same_day_witness :
  let w := snd (HugoContentGenerator.__init__ (Scenario.world [] [])) in
  let out := HugoContentGenerator.save_content Scenario.generator "first" 3 w in
  let p := "content/posts/2024-01-15-weekly-links.md" in
  out = (Ok p, snd out)
  /\ same_date (publish_day w) (publish_day (snd out))
  /\ p = PyPath.to_string
           (output_path Scenario.generator (configured_prefix w) (publish_day w))
  /\ (exists header,
        files (snd out) !! p
        = Some (header +:+ HugoContentGenerator.meta_content "first" 3))
  /\ exists w3 header,
       HugoContentGenerator.save_content Scenario.generator "second" 5 (snd out)
       = (Ok p, w3)
       /\ files w3 !! p
          = Some (header +:+ HugoContentGenerator.meta_content "second" 5)
       /\ forall q, q <> p -> files w3 !! q = files (snd out) !! q.
Proof.
  intros w out p.
  assert (H1 : out = (Ok p, snd out)) by (vm_compute; reflexivity).
  assert (H2 : same_date (publish_day w) (publish_day (snd out)))
    by (repeat split; reflexivity).
  split; [exact H1 |]. split; [exact H2 |].
  exact (save_content_same_day Scenario.generator "first" "second" 3 5
           w (snd out) (snd out) p H1 H2 eq_refl eq_refl).
Defined.

(** The header that [generate_frontmatter] returns, for every title, tag
    list and world: the [date] line is the local wall-clock time, without a
    UTC offset, since [datetime.now()] is a naive value for which [%z] is
    empty. *)
Lemma generate_frontmatter_spec (self : HugoContentGenerator.t)
    (title : string) (tags : list string) (w : World) :
  let now := local_time (clock w (ticks w)) in
  let author := default "Editor" (environ w !! "EDITOR_NAME") in
  fst (HugoContentGenerator.generate_frontmatter self title tags w)
  = Ok (PyStr.join PyStr.NL
          [ "---";
            "title: " +:+ PyStr.DQ +:+ title +:+ PyStr.DQ;
            "date: " +:+ Datetime.strftime "%Y-%m-%dT%H:%M:%S" now;
            "draft: false";
            "description: " +:+ PyStr.DQ
              +:+ "Weekly curated links and insights from my reading list"
              +:+ PyStr.DQ;
            "categories: [" +:+ PyStr.DQ +:+ "Weekly Digest" +:+ PyStr.DQ
              +:+ ", " +:+ PyStr.DQ +:+ "Curated Links" +:+ PyStr.DQ +:+ "]";
            "tags: " +:+ Json.dumps_strs tags;
            "author: " +:+ PyStr.DQ +:+ author +:+ PyStr.DQ;
            "---";
            "";
            "" ]).
Proof.
  intros now author.
  unfold HugoContentGenerator.generate_frontmatter, bind, datetime_now,
    getenv_or, ret.
  cbn [fst ticks clock environ set_ticks]. fold now. fold author.
  assert (Hdate :
    Datetime.strftime "%Y-%m-%dT%H:%M:%S%z" (Datetime.replace_tzinfo now None)
    = Datetime.strftime "%Y-%m-%dT%H:%M:%S" now).
  { cbn. reflexivity. }
  rewrite Hdate. reflexivity.
Qed.

(** C8.  On 2024-01-15 at 10:30:00 local time, the file that
    [save_content] writes has the title, the [draft: false] flag and the
    three fixed tags in its header, but its [date] line is
    [date: 2024-01-15T10:30:00], with no UTC offset. *)
Theorem frontmatter_date_has_no_offset :
  let w := snd (HugoContentGenerator.__init__ (Scenario.world [] [])) in
  let out := HugoContentGenerator.save_content Scenario.generator "digest" 3 w in
  fst out = Ok "content/posts/2024-01-15-weekly-links.md"
  /\ exists text,
       files (snd out) !! "content/posts/2024-01-15-weekly-links.md" = Some text
       /\ List.firstn 8 (PyStr.split "010" text)
          = [ "---";
              "title: " +:+ PyStr.DQ
                +:+ "Weekly Links Digest - Week of January 15, 2024"
                +:+ PyStr.DQ;
              "date: 2024-01-15T10:30:00";
              "draft: false";
              "description: " +:+ PyStr.DQ
                +:+ "Weekly curated links and insights from my reading list"
                +:+ PyStr.DQ;
              "categories: [" +:+ PyStr.DQ +:+ "Weekly Digest" +:+ PyStr.DQ
                +:+ ", " +:+ PyStr.DQ +:+ "Curated Links" +:+ PyStr.DQ +:+ "]";
              "tags: [" +:+ PyStr.DQ +:+ "weekly-digest" +:+ PyStr.DQ
                +:+ ", " +:+ PyStr.DQ +:+ "curated-links" +:+ PyStr.DQ
                +:+ ", " +:+ PyStr.DQ +:+ "reading-list" +:+ PyStr.DQ +:+ "]";
              "author: " +:+ PyStr.DQ +:+ "Editor" +:+ PyStr.DQ ].
Proof.
  split; [vm_compute; reflexivity |].
  eexists. split; vm_compute; reflexivity.
Qed.

(** ** [main] *)

(** The first guard of [main]: with no link, a notice is printed and
    nothing else happens. *)
Lemma process_no_links (processor : ContentProcessor.t)
    (hugo_generator : HugoContentGenerator.t) (w : World) :
  process processor hugo_generator [] w
  = (Ok tt,
     set_stdout (stdout w ++ ["❌ No links found for this week" +:+ PyStr.NL]) w).
Proof. reflexivity. Qed.

(** The second guard of [main]: when the first draft is empty, a notice is
    printed and [save_content] is not reached. *)
Lemma process_empty_draft (processor : ContentProcessor.t)
    (hugo_generator : HugoContentGenerator.t) (l : Link.t)
    (links : list Link.t) (w w1 : World) :
  let count := Z.of_nat (List.length (l :: links)) in
  let w0 :=
    set_stdout
      (stdout w
       ++ [("✅ Found " +:+ PyStr.of_Z count +:+ " links from this week")
             +:+ PyStr.NL;
           "🤖 Structuring content with AI..." +:+ PyStr.NL]) w in
  ContentProcessor.structure_links processor (l :: links) w0 = (Ok "", w1) ->
  process processor hugo_generator (l :: links) w
  = (Ok tt,
     set_stdout
       (stdout w1 ++ ["❌ Failed to generate structured content" +:+ PyStr.NL])
       w1).
Proof.
  intros count w0 H. unfold process, bind, print.
  cbn [stdout set_stdout].
  match goal with
  | |- context [ContentProcessor.structure_links processor (l :: links) ?x] =>
      replace x with w0
  end.
  - rewrite H. reflexivity.
  - unfold w0, set_stdout. cbn. rewrite <- app_assoc. reflexivity.
Qed.

(** C5.  One recent link, a first draft, an editor who asks for a shorter
    text, and a revision request that times out: [polish_content] returns
    the empty string, and [main] goes on to [save_content], which writes
    the content file with the empty digest in its body. *)
Theorem main_writes_empty_digest :
  let w := Scenario.world Scenario.recent_and_old ["shorter"] in
  fst (main w) = Ok tt
  /\ List.length (sent (snd (main w))) = 3%nat
  /\ (exists header,
        fst (HugoContentGenerator.generate_frontmatter Scenario.generator
               "Weekly Links Digest - Week of January 15, 2024"
               HugoContentGenerator.FIXED_TAGS w) = Ok header
        /\ files (snd (main w)) !! "content/posts/2024-01-15-weekly-links.md"
           = Some (header +:+ HugoContentGenerator.meta_content "" 1))
  /\ last (stdout (snd (main w)))
     = Some ("💡 Run 'hugo server' in your Hugo directory to preview"
             +:+ PyStr.NL).
Proof.
  split; [vm_compute; reflexivity |].
  split; [vm_compute; reflexivity |].
  split; [| vm_compute; reflexivity].
  eexists. split; [vm_compute; reflexivity |].
  vm_compute. reflexivity.
Qed.


(** * Further properties *)

Local Set Warnings "-clear-no-such-hyp".

(** ** [LinkAceClient], further *)

Section GetWeeklyLinksMore.

Import Json LinkAceClient.

(** A service that is unavailable: the call gives the empty list and logs
    the failure. *)
Lemma get_weekly_links_failed_exchange_witness :
  Datetime.sub_days (fetch_time (Cases.world Cases.unavailable [])) 7
  = Ok (Datetime.mk_datetime 2024 1 8 9 30 0 0 Datetime.utc)
  /\ exists w' msg,
       get_weekly_links Scenario.client 1 (Cases.world Cases.unavailable [])
       = (Ok [], w')
       /\ log w' = log (Cases.world Cases.unavailable []) ++ [(ERROR, msg)].
Proof.
  assert (H : Datetime.sub_days (fetch_time (Cases.world Cases.unavailable [])) 7
              = Ok (Datetime.mk_datetime 2024 1 8 9 30 0 0 Datetime.utc))
    by (vm_compute; reflexivity).
  split; [exact H |].
  apply (get_weekly_links_failed_exchange Scenario.client 1
           (Cases.world Cases.unavailable []) _ H).
  vm_compute. left. reflexivity.
Defined.

(** X2. [get_weekly_links] sends exactly one request, the GET of the list,
    whatever comes back and whether it returns or raises; it sends none
    when the bound cannot be computed.  It prints nothing, reads nothing
    and leaves the files and directories alone. *)
Theorem get_weekly_links_one_request (self : t) (list_id : Z) (w : World) :
  let w' := snd (get_weekly_links self list_id w) in
  sent w'
  = match Datetime.sub_days (fetch_time w) 7 with
    | Ok _ => sent w ++ [links_request self list_id]
    | Raise _ => sent w
    end
  /\ stdout w' = stdout w /\ stdin w' = stdin w
  /\ files w' = files w /\ dirs w' = dirs w.
Proof.
  unfold get_weekly_links, bind, datetime_now_utc, lift. fold (fetch_time w).
  destruct (Datetime.sub_days (fetch_time w) 7) as [owa | e];
    [| repeat split; reflexivity].
  unfold try_except, fetch, bind, send, lift. simpl.
  change (GET (links_url self list_id) (headers self) params)
    with (links_request self list_id).
  destruct (remote w (sent w) (links_request self list_id)) as [cls msg resp | r].
  { repeat split; reflexivity. }
  destruct (raise_for_status _ r) as [[] | e] eqn:Hs.
  2:{ destruct (is_RequestException e); repeat split; reflexivity. }
  destruct (response_json r) as [data | e].
  2:{ destruct (is_RequestException e); repeat split; reflexivity. }
  fold (response_records data).
  destruct (response_records data) as [records | e].
  2:{ destruct (is_RequestException e); repeat split; reflexivity. }
  destruct (for_each (visit owa) records []) as [ls | e].
  2:{ destruct (is_RequestException e); repeat split; reflexivity. }
  repeat split; reflexivity.
Qed.

Lemma tag_names_comprehension (tag_objs names : list json) :
  Forall2 (fun o n => getitem o "name" = Ok n) tag_objs names ->
  comprehension (fun tag => getitem tag "name") tag_objs = Ok names.
Proof.
  induction 1 as [| o n tag_objs names Hn _ IH]; [reflexivity |].
  cbn [comprehension]. unfold rbind at 1. rewrite Hn, IH. reflexivity.
Qed.

(** X3. The link of a record holds the values of the record as they are,
    of whatever type: [id], [url], [title] and [created_at] are the values
    under these keys; [description] is the value under its key, [null]
    included, and the empty string when the key is absent; the tags are
    the values under [name] of the items of [tags], in their order,
    repeated ones included and whatever else the items hold, and there is
    none when the key is absent. *)
Theorem make_link_optional_fields (items : list (string * json))
    (id url title created : json) (tag_objs names : list json) :
  lookup "id" items = Some id ->
  lookup "url" items = Some url ->
  lookup "title" items = Some title ->
  lookup "created_at" items = Some created ->
  iter (default (JArr []) (lookup "tags" items)) = Ok tag_objs ->
  Forall2 (fun o n => getitem o "name" = Ok n) tag_objs names ->
  make_link (JObj items)
  = Ok (Link.mk id url title (default (JStr "") (lookup "description" items))
          created names).
Proof.
  intros Hid Hurl Htitle Hcreated Htags Hnames.
  unfold make_link, rbind. cbn [get getitem].
  rewrite Htags, (tag_names_comprehension _ _ Hnames).
  rewrite Hid, Hurl, Htitle, Hcreated. reflexivity.
Qed.

Lemma make_link_optional_fields_witness :
  make_link (JObj Cases.bare_items)
  = Ok (Link.mk (JInt 7) (JStr "https://example.org/b") (JStr "B") (JStr "")
          (JStr "2024-01-14T08:00:00Z") [])
  /\ make_link (JObj Cases.tagged_items)
     = Ok (Link.mk (JInt 7) (JStr "https://example.org/b") (JStr "B")
             (JStr "about b") (JStr "2024-01-14T08:00:00Z")
             [JStr "rocq"; JStr "rocq"])
  /\ make_link (JObj Cases.untyped_items)
     = Ok (Link.mk (JStr "7") (JStr "https://example.org/c") (JInt 3) JNull
             (JStr "2024-01-14T08:00:00Z") []).
Proof.
  split; [| split].
  - apply (make_link_optional_fields Cases.bare_items (JInt 7)
             (JStr "https://example.org/b") (JStr "B")
             (JStr "2024-01-14T08:00:00Z") [] []);
      try reflexivity. constructor.
  - apply (make_link_optional_fields Cases.tagged_items (JInt 7)
             (JStr "https://example.org/b") (JStr "B")
             (JStr "2024-01-14T08:00:00Z")
             [JObj [("id", JInt 1); ("name", JStr "rocq")];
              JObj [("name", JStr "rocq"); ("is_private", JBool false)]]
             [JStr "rocq"; JStr "rocq"]);
      try reflexivity.
    repeat constructor.
  - apply (make_link_optional_fields Cases.untyped_items (JStr "7")
             (JStr "https://example.org/c") (JInt 3)
             (JStr "2024-01-14T08:00:00Z") [] []);
      try reflexivity. constructor.
Defined.

(** X4. The test of the filter looks at the wall-clock fields of the
    timestamp only: with a valid clock reading, a record whose
    [created_at] parses passes exactly when its wall-clock time, whatever
    offset is written after it and also when none is, is not earlier than
    the wall-clock UTC time of the fetch minus seven days.  The comparison
    never raises. *)
Theorem is_recent_wall_clock (w : World) (one_week_ago t : Datetime.datetime)
    (r : json) (s : string) :
  Datetime.valid (utc_time (clock w (ticks w))) ->
  Datetime.sub_days (fetch_time w) 7 = Ok one_week_ago ->
  getitem r "created_at" = Ok (JStr s) ->
  Datetime.fromisoformat (PyStr.replace_char "Z" "+00:00" s) = Ok t ->
  is_recent one_week_ago r
  = Ok (Datetime.wall (fetch_time w) - 7 * Datetime.US_PER_DAY
        <=? Datetime.wall t).
Proof.
  intros Hv Hb Hg Hp.
  assert (Hparse : parse_created_at (JStr s)
                   = Ok (Datetime.replace_tzinfo t Datetime.utc)).
  { unfold parse_created_at, rbind. simpl. rewrite Hp. reflexivity. }
  unfold is_recent, rbind. rewrite Hg, Hparse.
  rewrite (ge_one_week_ago w one_week_ago _ _ Hv Hb Hparse).
  unfold Datetime.instant. simpl. rewrite !Z.sub_0_r. reflexivity.
Qed.

Lemma is_recent_wall_clock_witness :
  let w := Scenario.world Scenario.with_offset [] in
  let bound := Datetime.mk_datetime 2024 1 8 9 30 0 0 Datetime.utc in
  Datetime.valid (utc_time (clock w (ticks w)))
  /\ Datetime.sub_days (fetch_time w) 7 = Ok bound
  /\ is_recent bound (Scenario.record 1 Scenario.offset_stamp) = Ok true
  /\ is_recent bound (Scenario.record 1 "2024-01-08T12:00:00") = Ok true
  /\ is_recent bound (Scenario.record 1 "2024-01-08T09:29:59-11:00") = Ok false.
Proof.
  intros w bound.
  assert (Hv : Datetime.valid (utc_time (clock w (ticks w)))) by reflexivity.
  assert (Hb : Datetime.sub_days (fetch_time w) 7 = Ok bound)
    by (vm_compute; reflexivity).
  split; [exact Hv |]. split; [exact Hb |].
  split; [| split].
  - rewrite (is_recent_wall_clock w bound
               (Datetime.mk_datetime 2024 1 8 12 0 0 0 (Some 18000000000))
               (Scenario.record 1 Scenario.offset_stamp) Scenario.offset_stamp
               Hv Hb eq_refl ltac:(vm_compute; reflexivity)).
    reflexivity.
  - rewrite (is_recent_wall_clock w bound
               (Datetime.mk_datetime 2024 1 8 12 0 0 0 None)
               (Scenario.record 1 "2024-01-08T12:00:00") "2024-01-08T12:00:00"
               Hv Hb eq_refl ltac:(vm_compute; reflexivity)).
    reflexivity.
  - rewrite (is_recent_wall_clock w bound
               (Datetime.mk_datetime 2024 1 8 9 29 59 0 (Some (-39600000000)))
               (Scenario.record 1 "2024-01-08T09:29:59-11:00")
               "2024-01-08T09:29:59-11:00"
               Hv Hb eq_refl ltac:(vm_compute; reflexivity)).
    reflexivity.
Defined.

(** X5. On a decoded success response [get_weekly_links] logs one [INFO]
    record with the number of links it returns; a body that is an object
    without [data] gives the empty list. *)
Theorem get_weekly_links_logs_count (self : t) (list_id : Z) (w w' : World)
    (r : response) (data : json) (links : list Link.t) :
  remote w (sent w) (links_request self list_id) = Responded r ->
  status_ok (status_code r) = true ->
  body r = Some data ->
  get_weekly_links self list_id w = (Ok links, w') ->
  log w'
  = log w
    ++ [(INFO, "Found " +:+ PyStr.of_Z (Z.of_nat (List.length links))
               +:+ " links from the past week in list "
               +:+ PyStr.of_Z list_id)]
  /\ (forall items, data = JObj items -> lookup "data" items = None ->
        links = []).
Proof.
  intros Ho Hok Hbody H.
  destruct (get_weekly_links_spec _ _ _ _ _ H) as (owa & Hb & Hl).
  rewrite Ho, Hok, Hbody in Hl. destruct Hl as (records & Hrec & Hc).
  split.
  - unfold get_weekly_links, bind, datetime_now_utc, lift in H.
    fold (fetch_time w) in H. rewrite Hb in H.
    unfold try_except, fetch, bind, send, lift in H. simpl in H.
    change (GET (links_url self list_id) (headers self) params)
      with (links_request self list_id) in H.
    rewrite Ho in H. simpl in H.
    rewrite (proj2 (raise_for_status_ok _ r) Hok) in H.
    unfold response_json in H. rewrite Hbody in H. simpl in H.
    fold (response_records data) in H. rewrite Hrec in H.
    destruct (for_each (visit owa) records []) as [ls | e] eqn:Hloop.
    + unfold logger_info, ret in H. inversion H; subst. reflexivity.
    + rewrite (for_each_visit_exn _ _ _ _ Hloop) in H. inversion H.
  - intros items -> Hnone. unfold response_records, rbind in Hrec.
    simpl in Hrec. rewrite Hnone in Hrec. simpl in Hrec.
    inversion Hrec; subst records. simpl in Hc. inversion Hc. reflexivity.
Qed.

Lemma get_weekly_links_logs_count_witness :
  let w := Scenario.world Scenario.recent_and_old [] in
  let out := get_weekly_links Scenario.client 1 w in
  out = (Ok [Scenario.link 1 "2024-01-14T08:00:00.000000Z"], snd out)
  /\ log (snd out)
     = [(INFO, "Found 1 links from the past week in list 1")].
Proof.
  intros w out.
  assert (H : out = (Ok [Scenario.link 1 "2024-01-14T08:00:00.000000Z"], snd out))
    by (vm_compute; reflexivity).
  split; [exact H |].
  destruct (get_weekly_links_logs_count Scenario.client 1 w (snd out)
              (mk_response 200 "OK" ""
                 (Some (JObj [("data", JArr Scenario.recent_and_old)])))
              (JObj [("data", JArr Scenario.recent_and_old)])
              [Scenario.link 1 "2024-01-14T08:00:00.000000Z"]
              eq_refl eq_refl eq_refl H) as [Hlog _].
  exact Hlog.
Defined.

End GetWeeklyLinksMore.

(** ** [OpenRouterClient] and [ContentProcessor], further *)

Section CallLlmMore.

Import Json OpenRouterClient.

Lemma same_but_net_refl w : same_but_net w w.
Proof. repeat split. Qed.

Lemma handle_frame res e w :
  same_but_net w (snd (handle res e w)).
Proof.
  unfold handle.
  destruct (is_RequestException e).
  - destruct e as [cls msg [[status text]|] | | | | | | | | | | |];
      try (repeat split; reflexivity).
    unfold bind, logger_error, ret. destruct (status_ok status);
      repeat split; reflexivity.
  - destruct (is_KeyError e).
    + destruct res; repeat split; reflexivity.
    + destruct (is_ValueError e); repeat split; reflexivity.
Qed.

(** One call of [call_llm], as a function of the service's answer. *)
Lemma call_llm_text self prompt temperature w :
  let rq := completion_request self prompt temperature in
  let out := call_llm self prompt temperature w in
  fst out = Ok (completion_text (remote w (sent w) rq))
  /\ sent (snd out) = sent w ++ [rq]
  /\ same_but_net w (snd out).
Proof.
  intros rq out. subst out. unfold call_llm.
  pose proof (request_result_spec self prompt temperature w) as Hreq.
  cbv zeta in Hreq. fold rq in Hreq.
  destruct (request_result self prompt temperature w) as [[res | e] w1].
  - destruct Hreq as (-> & r & Ho & Hok & Hb).
    unfold completion_text. rewrite Ho, Hok, Hb.
    destruct (validate res) as [content | e].
    + repeat split; reflexivity.
    + destruct (handle_returns_empty (Some res) e (set_sent (sent w ++ [rq]) w))
        as (w' & Hh & Hs); [discriminate |].
      pose proof (handle_frame (Some res) e (set_sent (sent w ++ [rq]) w)) as Hf.
      rewrite Hh in *. simpl in *. split; [reflexivity |].
      split; [exact Hs | exact Hf].
  - destruct Hreq as (-> & He & Hnone).
    destruct (handle_returns_empty None e (set_sent (sent w ++ [rq]) w))
      as (w' & Hh & Hs); [intros _; exact He |].
    pose proof (handle_frame None e (set_sent (sent w ++ [rq]) w)) as Hf.
    rewrite Hh in *. simpl in *.
    split; [| split; [exact Hs | exact Hf]].
    f_equal. unfold completion_text.
    destruct (remote w (sent w) rq) as [| r]; [reflexivity |].
    destruct (status_ok (status_code r)) eqn:Hok; [| reflexivity].
    rewrite (Hnone r eq_refl Hok). reflexivity.
Qed.

(** X6. The checks of [call_llm] let a response through exactly when its
    first choice has a string for content that is not blank, and what they
    return is that string as it is, surrounding whitespace included. *)
Theorem validate_returns_raw_content (res : json) (c : string) :
  validate res = Ok c <-> first_choice_content res c /\ PyStr.strip c <> "".
Proof.
  split.
  - unfold validate, rbind. intros H.
    destruct (contains "choices" res) as [[|] |]; simpl in H; try discriminate.
    destruct (getitem res "choices") as [choices |] eqn:Hc; [| discriminate].
    destruct (len choices) as [n |]; [| discriminate].
    destruct (n =? 0); [discriminate |].
    destruct (getitem0 choices) as [first |] eqn:H0; [| discriminate].
    destruct (getitem first "message") as [message |] eqn:Hm; [| discriminate].
    destruct (getitem message "content") as [content |] eqn:Hk; [| discriminate].
    destruct (strip content) as [stripped |] eqn:Hs; [| discriminate].
    destruct (PyStr.truthy stripped) eqn:Ht; simpl in H; [| discriminate].
    apply as_str_inv in H. subst content. simpl in Hs. inversion Hs; subst.
    split; [exists choices, first, message; auto |].
    intros E. rewrite E in Ht. discriminate.
  - intros [(choices & first & message & Hc & H0 & Hm & Hk) Hs].
    unfold validate, rbind.
    destruct res; simpl in Hc; try discriminate.
    simpl. destruct (lookup "choices" items) eqn:Hl; simpl in Hc;
      inversion Hc; subst.
    rewrite bool_decide_eq_true_2 by eauto. simpl.
    destruct choices as [| | | | s | l | its]; simpl in H0; try discriminate.
    + destruct (PyStr.chars s); simpl in H0; inversion H0; subst.
      simpl in Hm. discriminate.
    + destruct l as [| x l]; simpl in H0; inversion H0; subst.
      simpl. rewrite Hm, Hk. simpl.
      destruct (PyStr.strip c); [congruence | reflexivity].
Qed.

End CallLlmMore.

Section ProcessorMore.

Import ContentProcessor.

(** X7. With any feedback other than the sentinel, [polish_content] sends
    exactly one request, the revision prompt at temperature 0.5, and
    returns what the service's answer comes to: the empty string when the
    exchange fails, never the content it was given as a fallback. *)
Theorem polish_content_revises (self : t) (content feedback : string)
    (w : World) :
  feedback <> "Content approved as-is" ->
  let rq :=
    completion_request (openrouter self) (polish_prompt content feedback)
      (5 # 10) in
  let out := polish_content self content feedback w in
  fst out = Ok (completion_text (remote w (sent w) rq))
  /\ sent (snd out) = sent w ++ [rq]
  /\ (forall cls msg resp,
        remote w (sent w) rq = TransportError cls msg resp -> fst out = Ok "")
  /\ (forall r, remote w (sent w) rq = Responded r ->
        status_ok (status_code r) = false -> fst out = Ok "").
Proof.
  intros Hf rq out. subst out. unfold polish_content.
  destruct (String.eqb_spec feedback APPROVED) as [E | _]; [contradiction |].
  destruct (call_llm_text (openrouter self) (polish_prompt content feedback)
              (5 # 10) w) as (Ht & Hs & _).
  fold rq in Ht, Hs. split; [exact Ht |]. split; [exact Hs |].
  split.
  - intros cls msg resp Ho. rewrite Ht, Ho. reflexivity.
  - intros r Ho Hok. rewrite Ht, Ho. simpl. rewrite Hok. reflexivity.
Qed.

Lemma polish_content_revises_witness :
  let self := mk (OpenRouterClient.mk None "https://openrouter.ai/api/v1" [] None) in
  let w := Cases.world Cases.unavailable [] in
  let out := polish_content self "draft" "shorter" w in
  "shorter" <> "Content approved as-is"
  /\ fst out = Ok ""
  /\ List.length (sent (snd out)) = 1%nat.
Proof.
  intros self w out.
  assert (H : "shorter" <> "Content approved as-is") by discriminate.
  destruct (polish_content_revises self "draft" "shorter" w H)
    as (Ht & Hs & _ & Hfail).
  split; [exact H |]. split.
  - eapply Hfail; reflexivity.
  - fold out in Hs. rewrite Hs. reflexivity.
Defined.

End ProcessorMore.

Section CallLlmLog.

Import Json OpenRouterClient.

Lemma raise_for_status_error url r :
  status_ok (status_code r) = false ->
  exists msg,
    raise_for_status url r
    = Raise (RequestException "HTTPError" msg (Some (status_code r, text r))).
Proof.
  unfold status_ok, raise_for_status. intros Hok.
  apply negb_false_iff, andb_true_iff in Hok. destruct Hok as [H4 H6].
  rewrite H4. cbn [andb].
  destruct (status_code r <? 500) eqn:H5; [eexists; reflexivity |].
  assert (H5' : (500 <=? status_code r) = true) by lia.
  rewrite H5', H6. eexists; reflexivity.
Qed.

(** X8. When the completion service answers with an error status (400 to
    599), [call_llm] returns the empty string and logs one record, the
    failure with the message of the [HTTPError]: the line with the status
    and the text of the response is not logged, since the response of an
    error status counts as false in [if ... and e.response]. *)
Theorem call_llm_error_status_log (self : t) (prompt : string)
    (temperature : Q) (w : World) (r : response) :
  remote w (sent w) (completion_request self prompt temperature) = Responded r ->
  status_ok (status_code r) = false ->
  exists w' msg,
    call_llm self prompt temperature w = (Ok "", w')
    /\ log w' = log w ++ [(ERROR, "API Request failed: " +:+ msg)].
Proof.
  intros Ho Hok. unfold call_llm, request_result, bind, send, lift.
  fold (completion_request self prompt temperature). rewrite Ho.
  destruct (raise_for_status_error (completions_url self) r Hok) as (msg & Hr).
  rewrite Hr. unfold handle. cbn [is_RequestException].
  unfold bind, logger_error, ret. rewrite Hok.
  eexists. exists msg. split; reflexivity.
Qed.

Lemma call_llm_error_status_log_witness :
  let self := OpenRouterClient.mk None "https://openrouter.ai/api/v1" [] None in
  let w := Cases.world Cases.unavailable [] in
  exists w' msg,
    call_llm self "p" (7 # 10) w = (Ok "", w')
    /\ log w' = log w ++ [(ERROR, "API Request failed: " +:+ msg)].
Proof.
  intros self w.
  apply (call_llm_error_status_log self "p" (7 # 10) w
           (mk_response 503 "Service Unavailable" "try later" None));
    reflexivity.
Defined.

End CallLlmLog.

(** ** [HugoContentGenerator], further *)

Section HugoMore.

Import HugoContentGenerator.

Lemma strftime_month_day_year d tz :
  Datetime.strftime "%B %d, %Y" (Datetime.replace_tzinfo d tz)
  = Datetime.strftime "%B %d, %Y" d.
Proof. reflexivity. Qed.

(** X9. What a successful [save_content] leaves: the file at the returned
    path holds the header followed by the body, where the header is fixed
    by the clock and the environment alone (the tags are the three fixed
    ones, whatever the digest says) and the body carries the count and
    the digest as given; one [INFO] record names the path; three clock
    readings were taken. *)
Theorem save_content_writes (self : t) (content : string) (links_count : Z)
    (w w' : World) (p : string) :
  save_content self content links_count w = (Ok p, w') ->
  files w' = <[p := expected_header w +:+ meta_content content links_count]>
               (files w)
  /\ log w' = log w ++ [(INFO, "Hugo content saved to: " +:+ p)]
  /\ ticks w' = (3 + ticks w)%nat
  /\ dirs w' = dirs w /\ sent w' = sent w /\ stdout w' = stdout w.
Proof.
  unfold save_content, generate_frontmatter, bind, datetime_now, getenv_or, ret.
  cbn beta iota. cbn [ticks clock environ set_ticks].
  unfold PyPath.write_text, logger_info.
  match goal with
  | |- context [negb (PyPath.is_dir ?a ?b)] => destruct (PyPath.is_dir a b)
  end; cbn [negb]; [| discriminate].
  match goal with
  | |- context [if PyPath.is_dir ?a ?b then _ else _] =>
      destruct (PyPath.is_dir a b)
  end; [discriminate |].
  intros H. inversion H; subst p w'.
  repeat split.
Qed.

Lemma save_content_writes_witness :
  let w := snd (__init__ (Scenario.world [] [])) in
  let out := save_content Scenario.generator "digest" 3 w in
  let p := "content/posts/2024-01-15-weekly-links.md" in
  out = (Ok p, snd out)
  /\ files (snd out) = <[p := expected_header w +:+ meta_content "digest" 3]>
                         (files w)
  /\ log (snd out) = log w ++ [(INFO, "Hugo content saved to: " +:+ p)].
Proof.
  intros w out p.
  assert (H : out = (Ok p, snd out)) by (vm_compute; reflexivity).
  split; [exact H |].
  destruct (save_content_writes Scenario.generator "digest" 3 w (snd out) p H)
    as (Hf & Hl & _).
  split; [exact Hf | exact Hl].
Defined.

(** X10. When the directory of the output path does not exist,
    [save_content] raises an [OSError] and writes and logs nothing. *)
Theorem save_content_missing_directory (self : t) (content : string)
    (links_count : Z) (w : World) :
  PyPath.is_dir
    (PyPath.parent (output_path self (configured_prefix w) (publish_day w))) w
  = false ->
  exists cls w',
    save_content self content links_count w
    = (Raise (OSError cls
                (PyPath.to_string
                   (output_path self (configured_prefix w) (publish_day w)))),
       w')
    /\ files w' = files w /\ log w' = log w.
Proof.
  intros Hdir.
  destruct (save_content_unfold self content links_count w)
    as (h & w3 & _ & Hf & _ & _ & _ & Heq).
  cbv zeta in Heq. rewrite Hdir in Heq. simpl in Heq.
  eexists. exists w3. split; [exact Heq |]. split; [exact Hf |].
  (* the log of the world after the readings *)
  revert Heq. unfold save_content, generate_frontmatter, bind, datetime_now,
    getenv_or, ret, PyPath.write_text. cbn beta iota.
  cbn [ticks clock environ set_ticks].
  rewrite strftime_iso_date.
  fold (publish_day w). fold (configured_prefix w).
  fold (output_path self (configured_prefix w) (publish_day w)).
  rewrite (is_dir_dirs _ (set_ticks (S (S (S (ticks w)))) w) w) by reflexivity.
  rewrite Hdir. cbn [negb]. intros Heq. inversion Heq. reflexivity.
Qed.

Lemma save_content_missing_directory_witness :
  PyPath.is_dir
    (PyPath.parent
       (output_path Scenario.generator
          (configured_prefix Cases.slash_prefix_world)
          (publish_day Cases.slash_prefix_world))) Cases.slash_prefix_world
  = false
  /\ exists cls w',
       save_content Scenario.generator "digest" 3 Cases.slash_prefix_world
       = (Raise (OSError cls "content/posts/2024-01-15-2024/links.md"), w')
       /\ files w' = files Cases.slash_prefix_world
       /\ log w' = log Cases.slash_prefix_world.
Proof.
  assert (H : PyPath.is_dir
                (PyPath.parent
                   (output_path Scenario.generator
                      (configured_prefix Cases.slash_prefix_world)
                      (publish_day Cases.slash_prefix_world)))
                Cases.slash_prefix_world = false)
    by (vm_compute; reflexivity).
  split; [exact H |].
  exact (save_content_missing_directory Scenario.generator "digest" 3
           Cases.slash_prefix_world H).
Defined.

(** Making the directories of a chain: it succeeds exactly when none of
    them is a regular file, and then adds them to the directories; the
    files stay. *)
Lemma mkdir_chain_spec target ps w :
  match PyPath.mkdir_chain target ps w with
  | (Ok _, w') =>
      Forall (fun q => files w !! PyPath.to_string q = None) ps
      /\ dirs w' = list_to_set (PyPath.to_string <$> ps) ∪ dirs w
      /\ files w' = files w /\ sent w' = sent w /\ environ w' = environ w
      /\ log w' = log w /\ stdout w' = stdout w
  | (Raise e, w') =>
      Exists (fun q => is_Some (files w !! PyPath.to_string q)) ps
      /\ files w' = files w /\ sent w' = sent w /\ log w' = log w
      /\ stdout w' = stdout w
  end.
Proof.
  revert w. induction ps as [| q ps IH]; intros w.
  - simpl. repeat split; [constructor | set_solver].
  - cbn [PyPath.mkdir_chain].
    destruct (bool_decide (is_Some (files w !! PyPath.to_string q))) eqn:Hq.
    + apply bool_decide_eq_true in Hq. repeat split. left. exact Hq.
    + apply bool_decide_eq_false in Hq.
      specialize (IH (set_dirs ({[PyPath.to_string q]} ∪ dirs w) w)).
      destruct (PyPath.mkdir_chain target ps _) as [[[] | e] w'].
      * destruct IH as (Hall & Hd & Hf & Hs & He & Hl & Ho).
        simpl in *. repeat split; try assumption.
        -- constructor; [| exact Hall].
           destruct (files w !! PyPath.to_string q) eqn:E; [| reflexivity].
           exfalso. apply Hq. eauto.
        -- rewrite Hd. set_solver.
      * destruct IH as (Hex & Hf & Hs & Hl & Ho). simpl in *.
        repeat split; try assumption. right. exact Hex.
Qed.

Lemma chain_last (p : PyPath.path) :
  PyPath.parts p <> [] -> In p (PyPath.chain p).
Proof.
  intros Hne. unfold PyPath.chain. apply in_map_iff.
  exists (pred (List.length (PyPath.parts p))). split.
  - destruct p as [r ps]. simpl in *. f_equal.
    destruct ps as [| x ps]; [contradiction |].
    simpl. f_equal. apply firstn_all.
  - apply in_seq. destruct (PyPath.parts p); [contradiction |]. simpl. lia.
Qed.

(** X11. [HugoContentGenerator.__init__] takes the output directory from
    [HUGO_CONTENT_PATH] (default [./content/posts]).  When it returns, that
    directory exists, no file was touched and no directory lost; it raises
    exactly when the directory or one of its ancestors is a regular file,
    and then changes no file either.  Running it again after a success
    succeeds and adds no directory. *)
Theorem hugo_init_creates_directory (w : World) :
  let dir :=
    PyPath.of_string
      (default "./content/posts" (environ w !! "HUGO_CONTENT_PATH")) in
  match __init__ w with
  | (Ok self, w') =>
      content_path self = dir
      /\ PyPath.is_dir dir w' = true
      /\ files w' = files w
      /\ dirs w ⊆ dirs w'
      /\ Forall (fun q => files w !! PyPath.to_string q = None) (PyPath.chain dir)
      /\ exists w'', __init__ w' = (Ok self, w'') /\ dirs w'' = dirs w'
  | (Raise e, w') =>
      Exists (fun q => is_Some (files w !! PyPath.to_string q)) (PyPath.chain dir)
      /\ files w' = files w
  end.
Proof.
  intros dir. unfold __init__, bind, getenv_or, ret, PyPath.mkdir.
  cbn beta iota. fold dir.
  pose proof (mkdir_chain_spec (PyPath.to_string dir) (PyPath.chain dir) w) as H.
  destruct (PyPath.mkdir_chain (PyPath.to_string dir) (PyPath.chain dir) w)
    as [[[] | e] w'].
  - destruct H as (Hall & Hd & Hf & Hs & He & Hl & Ho).
    split; [reflexivity |].
    split.
    { unfold PyPath.is_dir. destruct (PyPath.parts dir) eqn:Hp; [reflexivity |].
      apply bool_decide_eq_true. rewrite Hd. apply elem_of_union_l.
      apply elem_of_list_to_set. apply list_elem_of_fmap.
      exists dir. split; [reflexivity |]. apply list_elem_of_In.
      apply chain_last. congruence. }
    split; [exact Hf |]. split; [rewrite Hd; set_solver |].
    split; [exact Hall |].
    rewrite He. fold dir.
    pose proof (mkdir_chain_spec (PyPath.to_string dir) (PyPath.chain dir) w')
      as H'.
    destruct (PyPath.mkdir_chain (PyPath.to_string dir) (PyPath.chain dir) w')
      as [[[] | e] w''].
    + destruct H' as (_ & Hd' & _). eexists. split; [reflexivity |].
      rewrite Hd', Hd. set_solver.
    + destruct H' as (Hex & _). exfalso.
      apply Exists_exists in Hex. destruct Hex as (q & Hq & Hsome).
      rewrite Forall_forall in Hall. rewrite Hf in Hsome.
      rewrite (Hall q Hq) in Hsome. destruct Hsome; discriminate.
  - destruct H as (Hex & Hf & _). split; [exact Hex | exact Hf].
Qed.

End HugoMore.


(** ** What a run can add *)

(** How [grows] goes through the constructs of the monad. *)
Section Growth.

Context {T X : Type} (f : World -> T) (ext : T -> list X -> T).
Hypothesis ext_nil : forall t, ext t [] = t.
Hypothesis ext_app : forall t l1 l2, ext (ext t l1) l2 = ext t (l1 ++ l2).

Lemma grows_weaken {A : Type} (n m : nat) (c : M A) :
  grows f ext n c -> (n <= m)%nat -> grows f ext m c.
Proof.
  intros H Hle w. destruct (H w) as (l & Hl & Hn). exists l. split; [exact Hl | lia].
Qed.

Lemma grows_same {A : Type} (c : M A) :
  (forall w, f (snd (c w)) = f w) -> grows f ext 0 c.
Proof. intros H w. exists []. rewrite H, ext_nil. split; [reflexivity | simpl; lia]. Qed.

Lemma grows_ret {A : Type} (a : A) : grows f ext 0 (ret a).
Proof. apply grows_same. reflexivity. Qed.

Lemma grows_raise {A : Type} (e : exn) : grows f ext 0 (@raise A e).
Proof. apply grows_same. reflexivity. Qed.

Lemma grows_lift {A : Type} (r : result A) : grows f ext 0 (lift r).
Proof. apply grows_same. reflexivity. Qed.

Lemma grows_bind {A B : Type} (n m : nat) (c : M A) (k : A -> M B) :
  grows f ext n c -> (forall a, grows f ext m (k a)) ->
  grows f ext (n + m) (bind c k).
Proof.
  intros Hc Hk w. unfold bind.
  destruct (Hc w) as (l1 & H1 & L1). destruct (c w) as [[a | e] w1]; simpl in *.
  - destruct (Hk a w1) as (l2 & H2 & L2). exists (l1 ++ l2).
    rewrite H2, H1, ext_app, length_app. split; [reflexivity | lia].
  - exists l1. split; [exact H1 | lia].
Qed.

Lemma grows_try {A : Type} (n m : nat) (body : M A) (handler : exn -> M A) :
  grows f ext n body -> (forall e, grows f ext m (handler e)) ->
  grows f ext (n + m) (try_except body handler).
Proof.
  intros Hc Hk w. unfold try_except.
  destruct (Hc w) as (l1 & H1 & L1). destruct (body w) as [[a | e] w1]; simpl in *.
  - exists l1. split; [exact H1 | lia].
  - destruct (Hk e w1) as (l2 & H2 & L2). exists (l1 ++ l2).
    rewrite H2, H1, ext_app, length_app. split; [reflexivity | lia].
Qed.

Lemma grows_if {A : Type} (n m : nat) (b : bool) (c1 c2 : M A) :
  grows f ext n c1 -> grows f ext m c2 ->
  grows f ext (Nat.max n m) (if b then c1 else c2).
Proof.
  intros H1 H2. destruct b; [eapply grows_weaken; [exact H1 | lia]
                            | eapply grows_weaken; [exact H2 | lia]].
Qed.

End Growth.

Section Effects.

Lemma add_requests_nil l : add_requests l [] = l.
Proof. apply app_nil_r. Qed.

Lemma add_requests_app l l1 l2 :
  add_requests (add_requests l l1) l2 = add_requests l (l1 ++ l2).
Proof. unfold add_requests. rewrite app_assoc. reflexivity. Qed.

Lemma write_files_nil m : write_files m [] = m.
Proof. reflexivity. Qed.

Lemma write_files_app m l1 l2 :
  write_files (write_files m l1) l2 = write_files m (l1 ++ l2).
Proof. unfold write_files. rewrite fold_left_app. reflexivity. Qed.

End Effects.

Section Sends.

Ltac keeps nil := apply (grows_same _ _ nil); intros ?; reflexivity.

Ltac grow nil app leaf :=
  repeat first
    [ eapply (grows_bind _ _ app); [| intros ?]
    | eapply (grows_try _ _ app); [| intros ?]
    | eapply grows_if
    | apply (grows_ret _ _ nil)
    | apply (grows_raise _ _ nil)
    | apply (grows_lift _ _ nil)
    | leaf
    | keeps nil ].

Ltac bounded tac := eapply grows_weaken; [tac | simpl; lia].

(** *** Requests *)

Lemma sends_input prompt : sends_at_most 0 (input prompt).
Proof.
  apply (grows_same _ _ add_requests_nil). intros w. unfold input.
  destruct (stdin w); reflexivity.
Qed.

Lemma sends_send rq : sends_at_most 1 (send rq).
Proof.
  intros w. exists [rq]. unfold send.
  destruct (remote w (sent w) rq); split; try reflexivity; simpl; lia.
Qed.

Lemma sends_mkdir p : sends_at_most 0 (PyPath.mkdir p).
Proof.
  apply (grows_same _ _ add_requests_nil). intros w. unfold PyPath.mkdir.
  pose proof (mkdir_chain_spec (PyPath.to_string p) (PyPath.chain p) w) as H.
  destruct (PyPath.mkdir_chain _ _ w) as [[[] | e] w']; simpl; tauto.
Qed.

Lemma sends_write_text p content : sends_at_most 0 (PyPath.write_text p content).
Proof.
  apply (grows_same _ _ add_requests_nil). intros w. unfold PyPath.write_text.
  repeat case_match; reflexivity.
Qed.

Ltac sends_leaf :=
  first [ apply sends_input | apply sends_send | apply sends_mkdir
        | apply sends_write_text ].

Ltac sends := grow add_requests_nil add_requests_app sends_leaf.

Lemma sends_linkace_init : sends_at_most 0 LinkAceClient.__init__.
Proof.
  bounded ltac:(unfold LinkAceClient.__init__; sends; case_match; sends).
Qed.

Lemma sends_get_weekly_links self list_id :
  sends_at_most 1 (LinkAceClient.get_weekly_links self list_id).
Proof.
  bounded ltac:(unfold LinkAceClient.get_weekly_links, LinkAceClient.fetch;
                cbv zeta; sends).
Qed.

Lemma sends_call_llm self prompt temperature :
  sends_at_most 1 (OpenRouterClient.call_llm self prompt temperature).
Proof.
  intros w. destruct (call_llm_text self prompt temperature w) as (_ & Hs & _).
  eexists. split; [exact Hs | simpl; lia].
Qed.

Lemma sends_structure_links self links :
  sends_at_most 1 (ContentProcessor.structure_links self links).
Proof.
  bounded ltac:(unfold ContentProcessor.structure_links;
                eapply (grows_bind _ _ add_requests_app);
                [apply (grows_lift _ _ add_requests_nil) | intros ?];
                eapply (grows_bind _ _ add_requests_app);
                [apply sends_call_llm | intros ?; sends]).
Qed.

Lemma sends_get_editor_feedback self content :
  sends_at_most 0 (ContentProcessor.get_editor_feedback self content).
Proof.
  bounded ltac:(unfold ContentProcessor.get_editor_feedback; sends).
Qed.

Lemma sends_polish_content self content feedback :
  sends_at_most 1 (ContentProcessor.polish_content self content feedback).
Proof.
  bounded ltac:(unfold ContentProcessor.polish_content;
                eapply grows_if; [sends | apply sends_call_llm]).
Qed.

Lemma sends_hugo_init : sends_at_most 0 HugoContentGenerator.__init__.
Proof.
  bounded ltac:(unfold HugoContentGenerator.__init__; cbv zeta; sends).
Qed.

Lemma sends_save_content self content links_count :
  sends_at_most 0 (HugoContentGenerator.save_content self content links_count).
Proof.
  bounded ltac:(unfold HugoContentGenerator.save_content,
                  HugoContentGenerator.generate_frontmatter; cbv zeta; sends).
Qed.

Lemma sends_process processor hugo_generator links :
  sends_at_most 2 (process processor hugo_generator links).
Proof.
  unfold process. destruct links as [| l links].
  - bounded ltac:(sends).
  - bounded ltac:(
      cbv zeta;
      repeat first
        [ apply sends_structure_links
        | apply sends_get_editor_feedback
        | apply sends_polish_content
        | apply sends_save_content
        | eapply (grows_bind _ _ add_requests_app); [| intros ?]
        | eapply grows_if
        | keeps add_requests_nil ]).
Qed.

End Sends.

(** X12. One run of [main] sends at most three requests, whatever the
    world and however it ends: the GET of the list, the completion request
    of the digest and, at most, the one of the revision; none is sent a
    second time. *)
Theorem main_sends_at_most_three (w : World) :
  exists requests,
    sent (snd (main w)) = sent w ++ requests
    /\ (List.length requests <= 3)%nat.
Proof.
  assert (H : sends_at_most 3 main).
  { eapply grows_weaken.
    - unfold main, workflow.
      eapply (grows_try _ _ add_requests_app).
      + eapply (grows_bind _ _ add_requests_app); [apply sends_linkace_init |].
        intros linkace.
        eapply (grows_bind _ _ add_requests_app).
        { unfold ContentProcessor.__init__, OpenRouterClient.__init__.
          repeat first
            [ eapply (grows_bind _ _ add_requests_app); [| intros ?]
            | apply (grows_same _ _ add_requests_nil); intros ?; reflexivity ]. }
        intros processor.
        eapply (grows_bind _ _ add_requests_app); [apply sends_hugo_init |].
        intros hugo_generator.
        eapply (grows_bind _ _ add_requests_app);
          [apply (grows_same _ _ add_requests_nil); intros ?; reflexivity |].
        intros target.
        eapply (grows_bind _ _ add_requests_app);
          [apply (grows_lift _ _ add_requests_nil) |].
        intros list_id.
        eapply (grows_bind _ _ add_requests_app);
          [apply (grows_same _ _ add_requests_nil); intros ?; reflexivity |].
        intros _.
        eapply (grows_bind _ _ add_requests_app);
          [apply sends_get_weekly_links |].
        intros links. apply sends_process.
      + intros e.
        eapply (grows_bind _ _ add_requests_app);
          [apply (grows_same _ _ add_requests_nil); intros ?; reflexivity |].
        intros _. apply (grows_raise _ _ add_requests_nil).
    - simpl. lia. }
  exact (H w).
Qed.

Section Writes.

Ltac keeps nil := apply (grows_same _ _ nil); intros ?; reflexivity.

Ltac bounded tac := eapply grows_weaken; [tac | simpl; lia].

Lemma writes_input prompt : writes_at_most 0 (input prompt).
Proof.
  apply (grows_same _ _ write_files_nil). intros w. unfold input.
  destruct (stdin w); reflexivity.
Qed.

Lemma writes_send rq : writes_at_most 0 (send rq).
Proof.
  apply (grows_same _ _ write_files_nil). intros w. unfold send.
  destruct (remote w (sent w) rq); reflexivity.
Qed.

Lemma writes_mkdir p : writes_at_most 0 (PyPath.mkdir p).
Proof.
  apply (grows_same _ _ write_files_nil). intros w. unfold PyPath.mkdir.
  pose proof (mkdir_chain_spec (PyPath.to_string p) (PyPath.chain p) w) as H.
  destruct (PyPath.mkdir_chain _ _ w) as [[[] | e] w']; simpl; tauto.
Qed.

Lemma writes_write_text p content :
  writes_at_most 1 (PyPath.write_text p content).
Proof.
  intros w. unfold PyPath.write_text.
  destruct (negb (PyPath.is_dir (PyPath.parent p) w));
    [exists []; split; [reflexivity | simpl; lia] |].
  destruct (PyPath.is_dir p w);
    [exists []; split; [reflexivity | simpl; lia] |].
  exists [(PyPath.to_string p, content)]. split; [reflexivity | simpl; lia].
Qed.

Lemma writes_call_llm self prompt temperature :
  writes_at_most 0 (OpenRouterClient.call_llm self prompt temperature).
Proof.
  apply (grows_same _ _ write_files_nil). intros w.
  destruct (call_llm_text self prompt temperature w) as (_ & _ & Hf).
  apply Hf.
Qed.

Ltac writes :=
  repeat first
    [ apply writes_input | apply writes_send | apply writes_mkdir
    | apply writes_write_text | apply writes_call_llm
    | eapply (grows_bind _ _ write_files_app); [| intros ?]
    | eapply (grows_try _ _ write_files_app); [| intros ?]
    | eapply grows_if
    | apply (grows_ret _ _ write_files_nil)
    | apply (grows_raise _ _ write_files_nil)
    | apply (grows_lift _ _ write_files_nil)
    | keeps write_files_nil ].

Lemma writes_linkace_init : writes_at_most 0 LinkAceClient.__init__.
Proof.
  bounded ltac:(unfold LinkAceClient.__init__; writes; case_match; writes).
Qed.

Lemma writes_get_weekly_links self list_id :
  writes_at_most 0 (LinkAceClient.get_weekly_links self list_id).
Proof.
  bounded ltac:(unfold LinkAceClient.get_weekly_links, LinkAceClient.fetch;
                cbv zeta; writes).
Qed.

Lemma writes_save_content self content links_count :
  writes_at_most 1
    (HugoContentGenerator.save_content self content links_count).
Proof.
  bounded ltac:(unfold HugoContentGenerator.save_content,
                  HugoContentGenerator.generate_frontmatter; cbv zeta; writes).
Qed.

Lemma writes_process processor hugo_generator links :
  writes_at_most 1 (process processor hugo_generator links).
Proof.
  unfold process. destruct links as [| l links].
  - bounded ltac:(writes).
  - bounded ltac:(
      cbv zeta;
      repeat first
        [ apply writes_save_content
        | apply writes_call_llm
        | unfold ContentProcessor.structure_links,
            ContentProcessor.get_editor_feedback,
            ContentProcessor.polish_content; progress writes ]).
Qed.

End Writes.

(** X13. One run of [main] writes at most one file and removes none,
    whatever the world and however it ends. *)
Theorem main_writes_at_most_one_file (w : World) :
  files (snd (main w)) = files w
  \/ exists p text, files (snd (main w)) = <[p := text]> (files w).
Proof.
  assert (H : writes_at_most 1 main).
  { eapply grows_weaken.
    - unfold main, workflow.
      eapply (grows_try _ _ write_files_app).
      + eapply (grows_bind _ _ write_files_app); [apply writes_linkace_init |].
        intros linkace.
        eapply (grows_bind _ _ write_files_app).
        { unfold ContentProcessor.__init__, OpenRouterClient.__init__.
          repeat first
            [ eapply (grows_bind _ _ write_files_app); [| intros ?]
            | apply (grows_same _ _ write_files_nil); intros ?; reflexivity ]. }
        intros processor.
        eapply (grows_bind _ _ write_files_app).
        { unfold HugoContentGenerator.__init__. cbv zeta.
          eapply (grows_bind _ _ write_files_app);
            [apply (grows_same _ _ write_files_nil); intros ?; reflexivity |].
          intros dir.
          eapply (grows_bind _ _ write_files_app); [apply writes_mkdir |].
          intros _. apply (grows_ret _ _ write_files_nil). }
        intros hugo_generator.
        eapply (grows_bind _ _ write_files_app);
          [apply (grows_same _ _ write_files_nil); intros ?; reflexivity |].
        intros target.
        eapply (grows_bind _ _ write_files_app);
          [apply (grows_lift _ _ write_files_nil) |].
        intros list_id.
        eapply (grows_bind _ _ write_files_app);
          [apply (grows_same _ _ write_files_nil); intros ?; reflexivity |].
        intros _.
        eapply (grows_bind _ _ write_files_app);
          [apply writes_get_weekly_links |].
        intros links. apply writes_process.
      + intros e.
        eapply (grows_bind _ _ write_files_app);
          [apply (grows_same _ _ write_files_nil); intros ?; reflexivity |].
        intros _. apply (grows_raise _ _ write_files_nil).
    - simpl. lia. }
  destruct (H w) as (l & Hl & Hn).
  destruct l as [| [p text] [| kv l]]; simpl in Hl, Hn.
  - left. exact Hl.
  - right. exists p, text. exact Hl.
  - lia.
Qed.

(** ** [main], further *)

Section MainMore.

Import ContentProcessor HugoContentGenerator.

Lemma same_store_refl w : same_store w w.
Proof. repeat split. Qed.

Lemma same_store_trans w1 w2 w3 :
  same_store w1 w2 -> same_store w2 w3 -> same_store w1 w3.
Proof.
  unfold same_store.
  intros (? & ? & ? & ? & ? & ?) (? & ? & ? & ? & ? & ?).
  repeat split; congruence.
Qed.

Lemma same_but_net_store w w' : same_but_net w w' -> same_store w w'.
Proof.
  unfold same_but_net, same_store. intros (? & ? & ? & ? & ? & ? & ? & ?).
  repeat split; assumption.
Qed.

Lemma expected_header_ext w w' :
  same_store w w' -> expected_header w' = expected_header w.
Proof.
  intros (He & Hc & Ht & _). unfold expected_header.
  rewrite He, Hc, Ht. reflexivity.
Qed.

(** What [save_content] does to the files and to the requests. *)
Lemma save_content_effect self content links_count w :
  match save_content self content links_count w with
  | (Ok p, w') =>
      files w'
      = <[p := expected_header w +:+ meta_content content links_count]>
          (files w)
      /\ sent w' = sent w /\ stdin w' = stdin w
  | (Raise e, w') =>
      files w' = files w /\ sent w' = sent w
      /\ exists cls msg, e = OSError cls msg
  end.
Proof.
  unfold save_content, generate_frontmatter, bind, datetime_now, getenv_or, ret.
  cbn beta iota. cbn [ticks clock environ set_ticks].
  unfold PyPath.write_text, logger_info.
  match goal with
  | |- context [negb (PyPath.is_dir ?a ?b)] => destruct (PyPath.is_dir a b)
  end; cbn [negb]; [| repeat split; eauto].
  match goal with
  | |- context [if PyPath.is_dir ?a ?b then _ else _] =>
      destruct (PyPath.is_dir a b)
  end; repeat split; eauto.
Qed.

(** What the last statements of [main] do to the files, to the requests
    and to the input. *)
Lemma publish_effect hugo_generator final_content count w :
  match publish hugo_generator final_content count w with
  | (Ok _, w') =>
      (exists p,
         files w'
         = <[p := expected_header w +:+ meta_content final_content count]>
             (files w))
      /\ sent w' = sent w /\ stdin w' = stdin w
  | (Raise e, w') =>
      (exists cls msg, e = OSError cls msg)
      /\ files w' = files w /\ sent w' = sent w
  end.
Proof.
  unfold publish. unfold bind at 1 2. unfold print at 1.
  match goal with
  | |- context [save_content hugo_generator final_content count ?x] =>
      pose proof (save_content_effect hugo_generator final_content count x)
        as Hsave;
      destruct (save_content hugo_generator final_content count x)
        as [[p | e] w']
  end.
  - destruct Hsave as (Hf & Hs & Hin). unfold bind, print.
    cbn [files sent stdin set_stdout].
    split; [exists p; exact Hf |]. split; [exact Hs | exact Hin].
  - destruct Hsave as (Hf & Hs & He). split; [exact He |].
    split; [exact Hf | exact Hs].
Qed.

(** The editor's line, read by [get_editor_feedback]. *)
Lemma get_editor_feedback_reads self content w :
  exists w',
    sent w' = sent w /\ same_store w w'
    /\ match stdin w with
       | [] =>
           get_editor_feedback self content w
           = (Raise (EOFError "EOF when reading a line"), w')
       | line :: rest =>
           get_editor_feedback self content w
           = (Ok (if PyStr.truthy (PyStr.strip line) then PyStr.strip line
                  else APPROVED), w')
           /\ stdin w' = rest
       end.
Proof.
  unfold get_editor_feedback, bind, print, input, ret.
  cbn [stdin stdout set_stdout].
  destruct (stdin w) as [| line rest]; eexists.
  - split; [| split]; [| | reflexivity]; [reflexivity | repeat split].
  - split; [| split]; [| | split; reflexivity];
      [reflexivity | repeat split].
Qed.

(** One call of [structure_links] whose prompt can be built, as a
    function of the service's answer. *)
Lemma structure_links_text self links prompt w :
  structure_prompt links = Ok prompt ->
  let out := structure_links self links w in
  fst out = Ok (first_draft self prompt w)
  /\ sent (snd out) = sent w ++ [digest_request self prompt]
  /\ same_but_net w (snd out).
Proof.
  intros Hp. unfold structure_links, bind, lift, ret. rewrite Hp.
  destruct (call_llm_text (openrouter self) prompt (7 # 10) w)
    as (Ht & Hs & Hf).
  cbv zeta in Ht, Hs, Hf.
  destruct (OpenRouterClient.call_llm (openrouter self) prompt (7 # 10) w)
    as [r w1].
  simpl in *. subst r. repeat split; try assumption; apply Hf.
Qed.

(** Past the second guard, [main] runs the review on the draft. *)
Lemma process_review processor hugo_generator l links prompt w :
  let all := l :: links in
  structure_prompt all = Ok prompt ->
  first_draft processor prompt w <> "" ->
  exists w1,
    process processor hugo_generator all w
    = review_and_save processor hugo_generator (first_draft processor prompt w)
        (Z.of_nat (List.length all)) w1
    /\ sent w1 = sent w ++ [digest_request processor prompt]
    /\ stdin w1 = stdin w /\ same_store w w1.
Proof.
  intros all Hprompt Hd. unfold process, review_and_save. subst all.
  unfold bind at 1 2 3. unfold print at 1 2.
  match goal with
  | |- context [structure_links processor (l :: links) ?x] => set (w0 := x)
  end.
  destruct (structure_links_text processor (l :: links) prompt w0 Hprompt)
    as (Ht & Hs & Hf).
  destruct (structure_links processor (l :: links) w0) as [r w1].
  simpl in Ht, Hs, Hf. subst r.
  change (first_draft processor prompt w0)
    with (first_draft processor prompt w) in *.
  destruct (first_draft processor prompt w) as [| a s] eqn:E;
    [contradiction |].
  cbn [PyStr.truthy negb].
  exists w1. split; [reflexivity |]. split; [exact Hs |].
  destruct Hf as (? & ? & ? & ? & ? & ? & ? & ?).
  repeat split; assumption.
Qed.

(** X14. The second guard of [main], in terms of the service: for links
    whose prompt can be built (it always can when the tags are strings),
    when the answer to the request for the digest comes to nothing (a
    failed exchange, an error status, a malformed or blank completion),
    [main] stops after that one request with a notice; the editor is not
    asked and no file is written. *)
Theorem process_stops_on_empty_draft (processor : ContentProcessor.t)
    (hugo_generator : HugoContentGenerator.t) (l : Link.t)
    (links : list Link.t) (prompt : string) (w : World) :
  structure_prompt (l :: links) = Ok prompt ->
  first_draft processor prompt w = "" ->
  exists w',
    process processor hugo_generator (l :: links) w = (Ok tt, w')
    /\ sent w' = sent w ++ [digest_request processor prompt]
    /\ stdin w' = stdin w /\ files w' = files w
    /\ last (stdout w')
       = Some ("❌ Failed to generate structured content" +:+ PyStr.NL).
Proof.
  intros Hprompt Hd. unfold process.
  unfold bind at 1 2 3. unfold print at 1 2.
  match goal with
  | |- context [structure_links processor (l :: links) ?x] => set (w0 := x)
  end.
  destruct (structure_links_text processor (l :: links) prompt w0 Hprompt)
    as (Ht & Hs & Hf).
  destruct (structure_links processor (l :: links) w0) as [r w1].
  simpl in Ht, Hs, Hf. subst r.
  change (first_draft processor prompt w0)
    with (first_draft processor prompt w).
  rewrite Hd. cbn [PyStr.truthy negb]. unfold print.
  eexists. split; [reflexivity |].
  destruct Hf as (_ & _ & _ & Hin & _ & _ & Hfi & _).
  cbn [sent stdin files stdout set_stdout].
  split; [exact Hs |]. split; [exact Hin |]. split; [exact Hfi |].
  apply last_snoc.
Qed.

Lemma process_stops_on_empty_draft_witness :
  let processor :=
    ContentProcessor.mk
      (OpenRouterClient.mk None "https://openrouter.ai/api/v1" [] None) in
  let w := Cases.world Cases.unavailable ["shorter"] in
  structure_prompt [one_link] = Ok one_link_prompt
  /\ first_draft processor one_link_prompt w = ""
  /\ exists w',
       process processor Scenario.generator [one_link] w = (Ok tt, w')
       /\ List.length (sent w') = 1%nat
       /\ stdin w' = ["shorter"] /\ files w' = ∅.
Proof.
  intros processor w.
  assert (Hprompt : structure_prompt [one_link] = Ok one_link_prompt)
    by (vm_compute; reflexivity).
  assert (H : first_draft processor one_link_prompt w = "")
    by (vm_compute; reflexivity).
  split; [exact Hprompt |]. split; [exact H |].
  destruct (process_stops_on_empty_draft processor Scenario.generator
              one_link [] one_link_prompt w Hprompt H)
    as (w' & Hp & Hs & Hin & Hf & _).
  exists w'. split; [exact Hp |]. split; [rewrite Hs; reflexivity |].
  split; [exact Hin | exact Hf].
Defined.

(** X15. An approved draft is published as it is.  For links whose prompt
    can be built, when the draft is not empty and the editor's line is
    blank, or is the sentinel itself, no second request is sent, and a run that ends normally has written
    exactly one file, which holds the header followed by the body made of
    the number of links and of that first draft; a run that does not is
    stopped by an [OSError] of the write and leaves the files as they
    were. *)
Theorem process_publishes_approved_draft (processor : ContentProcessor.t)
    (hugo_generator : HugoContentGenerator.t) (l : Link.t)
    (links : list Link.t) (prompt : string) (w : World) (line : string)
    (rest : list string) :
  let all := l :: links in
  let draft := first_draft processor prompt w in
  structure_prompt all = Ok prompt ->
  draft <> "" ->
  stdin w = line :: rest ->
  PyStr.strip line = "" \/ PyStr.strip line = "Content approved as-is" ->
  match process processor hugo_generator all w with
  | (Ok _, w') =>
      (exists p,
         files w'
         = <[p := expected_header w
                  +:+ meta_content draft (Z.of_nat (List.length all))]>
             (files w))
      /\ sent w' = sent w ++ [digest_request processor prompt]
      /\ stdin w' = rest
  | (Raise e, w') =>
      (exists cls msg, e = OSError cls msg)
      /\ files w' = files w
      /\ sent w' = sent w ++ [digest_request processor prompt]
  end.
Proof.
  intros all draft Hprompt Hd Hin Hline. subst all draft.
  destruct (process_review processor hugo_generator l links prompt w Hprompt Hd)
    as (w1 & -> & Hs1 & Hin1 & Hst1).
  set (draft := first_draft processor prompt w) in *.
  unfold review_and_save. unfold bind at 1 2. unfold print at 1.
  match goal with
  | |- context [get_editor_feedback processor draft ?x] => set (w2 := x)
  end.
  destruct (get_editor_feedback_reads processor draft w2)
    as (w3 & Hs3 & Hst3 & Hread).
  assert (Hin2 : stdin w2 = line :: rest) by (rewrite <- Hin, <- Hin1; reflexivity).
  rewrite Hin2 in Hread. destruct Hread as [-> Hin3].
  assert (Hfb : (if PyStr.truthy (PyStr.strip line) then PyStr.strip line
                 else APPROVED) = APPROVED)
    by (destruct Hline as [-> | ->]; reflexivity).
  rewrite Hfb.
  unfold bind at 1 2. unfold print at 1.
  unfold polish_content. rewrite String.eqb_refl. unfold ret at 1.
  match goal with
  | |- context [publish hugo_generator draft ?n ?x] =>
      set (w4 := x);
      pose proof (publish_effect hugo_generator draft n w4) as Hp;
      destruct (publish hugo_generator draft n w4) as [[u | e] w5]
  end.
  all: assert (Hst4 : same_store w w4)
    by (eapply same_store_trans; [exact Hst1 |];
        eapply same_store_trans; [| apply (same_store_trans w2 w3 w4 Hst3)];
        repeat split).
  all: assert (Hs4 : sent w4 = sent w ++ [digest_request processor prompt])
    by (rewrite <- Hs1; exact Hs3).
  - destruct Hp as ((p & Hf) & Hs5 & Hin5).
    split; [| split].
    + exists p. rewrite Hf, (expected_header_ext w w4 Hst4).
      destruct Hst4 as (_ & _ & _ & _ & -> & _). reflexivity.
    + rewrite Hs5. exact Hs4.
    + rewrite Hin5. exact Hin3.
  - destruct Hp as (He & Hf & Hs5).
    split; [exact He |]. split.
    + rewrite Hf. destruct Hst4 as (_ & _ & _ & _ & -> & _). reflexivity.
    + rewrite Hs5. exact Hs4.
Qed.

Lemma process_publishes_approved_draft_witness :
  let w := review_world ["  "] in
  let out := process plain_processor Scenario.generator [one_link] w in
  structure_prompt [one_link] = Ok one_link_prompt
  /\ first_draft plain_processor one_link_prompt w <> ""
  /\ stdin w = ["  "]
  /\ fst out = Ok tt
  /\ files (snd out) !! "content/posts/2024-01-15-weekly-links.md"
     = Some (expected_header w +:+ meta_content "draft" 1)
  /\ sent (snd out) = [digest_request plain_processor one_link_prompt].
Proof.
  intros w out.
  assert (Hprompt : structure_prompt [one_link] = Ok one_link_prompt)
    by (vm_compute; reflexivity).
  assert (Hd : first_draft plain_processor one_link_prompt w <> "")
    by (vm_compute; discriminate).
  assert (Hin : stdin w = ["  "]) by reflexivity.
  assert (Hline : PyStr.strip "  " = ""
                  \/ PyStr.strip "  " = "Content approved as-is")
    by (left; vm_compute; reflexivity).
  pose proof (process_publishes_approved_draft plain_processor
                Scenario.generator one_link [] one_link_prompt w "  " []
                Hprompt Hd Hin Hline) as H.
  cbv zeta in H. fold out in H.
  assert (Hout : out = (Ok tt, snd out)) by (vm_compute; reflexivity).
  rewrite Hout in H. destruct H as (_ & Hs & _).
  split; [exact Hprompt |]. split; [exact Hd |]. split; [exact Hin |].
  split; [rewrite Hout; reflexivity |].
  split; [vm_compute; reflexivity | exact Hs].
Defined.

(** X16. For links whose prompt can be built and a draft that is not
    empty, when the input is at its end as the editor is asked, the run
    stops with [EOFError]: the request for the digest was sent, its
    answer is lost, and no file is written. *)
Theorem process_end_of_input (processor : ContentProcessor.t)
    (hugo_generator : HugoContentGenerator.t) (l : Link.t)
    (links : list Link.t) (prompt : string) (w : World) :
  structure_prompt (l :: links) = Ok prompt ->
  first_draft processor prompt w <> "" ->
  stdin w = [] ->
  exists w',
    process processor hugo_generator (l :: links) w
    = (Raise (EOFError "EOF when reading a line"), w')
    /\ sent w' = sent w ++ [digest_request processor prompt]
    /\ files w' = files w.
Proof.
  intros Hprompt Hd Hin.
  destruct (process_review processor hugo_generator l links prompt w Hprompt Hd)
    as (w1 & -> & Hs1 & Hin1 & Hst1).
  set (draft := first_draft processor prompt w) in *.
  unfold review_and_save. unfold bind at 1 2. unfold print at 1.
  match goal with
  | |- context [get_editor_feedback processor draft ?x] => set (w2 := x)
  end.
  destruct (get_editor_feedback_reads processor draft w2)
    as (w3 & Hs3 & Hst3 & Hread).
  assert (Hin2 : stdin w2 = []) by (rewrite <- Hin, <- Hin1; reflexivity).
  rewrite Hin2 in Hread. rewrite Hread.
  exists w3. split; [reflexivity |]. split.
  - rewrite Hs3. exact Hs1.
  - destruct Hst3 as (_ & _ & _ & _ & -> & _).
    destruct Hst1 as (_ & _ & _ & _ & <- & _). reflexivity.
Qed.

Lemma process_end_of_input_witness :
  let w := review_world [] in
  structure_prompt [one_link] = Ok one_link_prompt
  /\ first_draft plain_processor one_link_prompt w <> ""
  /\ stdin w = []
  /\ exists w',
       process plain_processor Scenario.generator [one_link] w
       = (Raise (EOFError "EOF when reading a line"), w')
       /\ sent w' = [digest_request plain_processor one_link_prompt]
       /\ files w' = files w.
Proof.
  intros w.
  assert (Hprompt : structure_prompt [one_link] = Ok one_link_prompt)
    by (vm_compute; reflexivity).
  assert (Hd : first_draft plain_processor one_link_prompt w <> "")
    by (vm_compute; discriminate).
  split; [exact Hprompt |]. split; [exact Hd |]. split; [reflexivity |].
  exact (process_end_of_input plain_processor Scenario.generator one_link []
           one_link_prompt w Hprompt Hd eq_refl).
Defined.

(** X17. A draft with feedback is replaced by what the second call
    returns.  For links whose prompt can be built, when the draft is not
    empty and the editor's line, stripped,
    is neither empty nor the sentinel, exactly two requests are sent, the
    second with the draft and the stripped feedback in the revision
    prompt; a run that ends normally has written one file whose body holds
    what the answer to the second request comes to, the empty string
    included, and nothing of the first draft is kept for that case. *)
Theorem process_publishes_revision (processor : ContentProcessor.t)
    (hugo_generator : HugoContentGenerator.t) (l : Link.t)
    (links : list Link.t) (prompt : string) (w : World) (line : string)
    (rest : list string) :
  let all := l :: links in
  let draft := first_draft processor prompt w in
  let feedback := PyStr.strip line in
  let rq1 := digest_request processor prompt in
  let rq2 := revision_request processor draft feedback in
  let final := completion_text (remote w (sent w ++ [rq1]) rq2) in
  structure_prompt all = Ok prompt ->
  draft <> "" ->
  stdin w = line :: rest ->
  feedback <> "" ->
  feedback <> "Content approved as-is" ->
  match process processor hugo_generator all w with
  | (Ok _, w') =>
      (exists p,
         files w'
         = <[p := expected_header w
                  +:+ meta_content final (Z.of_nat (List.length all))]>
             (files w))
      /\ sent w' = sent w ++ [rq1; rq2]
      /\ stdin w' = rest
  | (Raise e, w') =>
      (exists cls msg, e = OSError cls msg)
      /\ files w' = files w
      /\ sent w' = sent w ++ [rq1; rq2]
  end.
Proof.
  intros all draft feedback rq1 rq2 final Hprompt Hd Hin Hne Hns.
  subst all draft.
  destruct (process_review processor hugo_generator l links prompt w Hprompt Hd)
    as (w1 & -> & Hs1 & Hin1 & Hst1).
  set (draft := first_draft processor prompt w) in *.
  unfold review_and_save. unfold bind at 1 2. unfold print at 1.
  match goal with
  | |- context [get_editor_feedback processor draft ?x] => set (w2 := x)
  end.
  destruct (get_editor_feedback_reads processor draft w2)
    as (w3 & Hs3 & Hst3 & Hread).
  assert (Hin2 : stdin w2 = line :: rest) by (rewrite <- Hin, <- Hin1; reflexivity).
  rewrite Hin2 in Hread. destruct Hread as [-> Hin3].
  fold feedback.
  assert (Hfb : (if PyStr.truthy feedback then feedback else APPROVED)
                = feedback)
    by (destruct feedback; [contradiction | reflexivity]).
  rewrite Hfb.
  unfold bind at 1 2. unfold print at 1.
  unfold polish_content.
  destruct (String.eqb_spec feedback APPROVED) as [E | _]; [contradiction |].
  match goal with
  | |- context [OpenRouterClient.call_llm ?c ?pr ?t ?x] =>
      set (w4 := x);
      destruct (call_llm_text c pr t w4) as (Ht & Hs5 & Hf5);
      cbv zeta in Ht, Hs5, Hf5;
      destruct (OpenRouterClient.call_llm c pr t w4) as [r w5]
  end.
  simpl in Ht, Hs5, Hf5. subst r.
  assert (Hst4 : same_store w w4)
    by (eapply same_store_trans; [exact Hst1 |];
        eapply same_store_trans; [| apply (same_store_trans w2 w3 w4 Hst3)];
        repeat split).
  assert (Hs4 : sent w3 = sent w ++ [rq1]) by exact (eq_trans Hs3 Hs1).
  assert (Hrem : remote w3 = remote w) by (apply Hst4).
  rewrite Hs4 in Hs5. rewrite Hrem, Hs4.
  change (completion_request (openrouter processor)
            (polish_prompt draft feedback) (5 # 10)) with rq2 in *.
  fold final.
  assert (Hst5 : same_store w w5)
    by (eapply same_store_trans; [exact Hst4 |];
        apply same_but_net_store; exact Hf5).
  assert (Hin5 : stdin w5 = rest).
  { destruct Hf5 as (_ & _ & _ & -> & _). exact Hin3. }
  rewrite <- app_assoc in Hs5. simpl in Hs5.
  match goal with
  | |- context [publish hugo_generator final ?n w5] =>
      pose proof (publish_effect hugo_generator final n w5) as Hp;
      destruct (publish hugo_generator final n w5) as [[u | e] w6]
  end.
  - destruct Hp as ((p & Hf) & Hs6 & Hin6).
    split; [| split].
    + exists p. rewrite Hf, (expected_header_ext w w5 Hst5).
      destruct Hst5 as (_ & _ & _ & _ & -> & _). reflexivity.
    + rewrite Hs6. exact Hs5.
    + rewrite Hin6. exact Hin5.
  - destruct Hp as (He & Hf & Hs6).
    split; [exact He |]. split.
    + rewrite Hf. destruct Hst5 as (_ & _ & _ & _ & -> & _). reflexivity.
    + rewrite Hs6. exact Hs5.
Qed.

Lemma process_publishes_revision_witness :
  let w := review_world [" shorter "; "unread"] in
  let out := process plain_processor Scenario.generator [one_link] w in
  structure_prompt [one_link] = Ok one_link_prompt
  /\ first_draft plain_processor one_link_prompt w <> ""
  /\ stdin w = [" shorter "; "unread"]
  /\ PyStr.strip " shorter " = "shorter"
  /\ fst out = Ok tt
  /\ files (snd out) !! "content/posts/2024-01-15-weekly-links.md"
     = Some (expected_header w +:+ meta_content "revised" 1)
  /\ sent (snd out)
     = [digest_request plain_processor one_link_prompt;
        revision_request plain_processor "draft" "shorter"]
  /\ stdin (snd out) = ["unread"].
Proof.
  intros w out.
  assert (Hprompt : structure_prompt [one_link] = Ok one_link_prompt)
    by (vm_compute; reflexivity).
  assert (Hd : first_draft plain_processor one_link_prompt w <> "")
    by (vm_compute; discriminate).
  assert (Hin : stdin w = [" shorter "; "unread"]) by reflexivity.
  assert (Hne : PyStr.strip " shorter " <> "") by (vm_compute; discriminate).
  assert (Hns : PyStr.strip " shorter " <> "Content approved as-is")
    by (vm_compute; discriminate).
  pose proof (process_publishes_revision plain_processor Scenario.generator
                one_link [] one_link_prompt w " shorter " ["unread"]
                Hprompt Hd Hin Hne Hns) as H.
  cbv zeta in H. fold out in H.
  assert (Hout : out = (Ok tt, snd out)) by (vm_compute; reflexivity).
  rewrite Hout in H. destruct H as (_ & Hs & Hrest).
  split; [exact Hprompt |]. split; [exact Hd |]. split; [exact Hin |].
  split; [vm_compute; reflexivity |].
  split; [rewrite Hout; reflexivity |].
  split; [vm_compute; reflexivity |].
  split; [| exact Hrest].
  rewrite Hs. vm_compute. reflexivity.
Defined.

(** X18. The set-up of [main] comes before any exchange.  When
    [LINKACE_BASE_URL] is not set, or when the content directory or one of
    its ancestors is a regular file, [main] raises; it has then sent no
    request, printed nothing and written no file, and the last record of
    the log is the [ERROR] record of the exception it raises.  In the
    first case the exception is the [AttributeError] of [rstrip] on
    [None], and not even the directory was made. *)
Theorem main_fails_before_fetch (w : World) :
  environ w !! "LINKACE_BASE_URL" = None
  \/ Exists (fun q => is_Some (files w !! PyPath.to_string q))
       (PyPath.chain
          (PyPath.of_string
             (default "./content/posts" (environ w !! "HUGO_CONTENT_PATH")))) ->
  exists e w',
    main w = (Raise e, w')
    /\ sent w' = sent w /\ stdout w' = stdout w /\ files w' = files w
    /\ log w' = log w ++ [(ERROR, "Error in main workflow: " +:+ exn_str e)]
    /\ (environ w !! "LINKACE_BASE_URL" = None ->
        e = AttributeError "'NoneType' object has no attribute 'rstrip'"
        /\ dirs w' = dirs w).
Proof.
  intros H. unfold main, try_except, workflow.
  unfold bind at 1. unfold LinkAceClient.__init__.
  unfold bind at 1. unfold getenv at 1.
  destruct (environ w !! "LINKACE_BASE_URL") as [b |] eqn:Hb.
  - destruct H as [H | H]; [discriminate |].
    unfold bind at 1. unfold ret at 1. unfold bind at 1. unfold getenv at 1.
    unfold ret at 1. unfold bind at 1. unfold ContentProcessor.__init__.
    unfold bind at 1. unfold OpenRouterClient.__init__.
    unfold bind at 1. unfold getenv at 1. unfold bind at 1.
    unfold getenv at 1. unfold ret at 1 2. unfold bind at 1.
    unfold HugoContentGenerator.__init__.
    unfold bind at 1. unfold getenv_or at 1. unfold bind at 1.
    unfold PyPath.mkdir.
    match goal with
    | |- context [PyPath.mkdir_chain ?t ?ps w] =>
        pose proof (mkdir_chain_spec t ps w) as Hm;
        destruct (PyPath.mkdir_chain t ps w) as [[[] | e] w1]
    end.
    + exfalso. destruct Hm as (Hall & _).
      apply Exists_exists in H. destruct H as (q & Hq & Hsome).
      rewrite Forall_forall in Hall. rewrite (Hall q Hq) in Hsome.
      destruct Hsome; discriminate.
    + destruct Hm as (_ & Hf & Hs & Hl & Ho).
      unfold bind, logger_error, raise. eexists. eexists.
      split; [reflexivity |]. cbn [sent stdout files log set_log].
      split; [exact Hs |]. split; [exact Ho |]. split; [exact Hf |].
      split; [rewrite Hl; reflexivity | discriminate].
  - unfold bind at 1. unfold raise at 1.
    unfold bind, logger_error, raise. eexists. eexists.
    split; [reflexivity |]. repeat split.
Qed.

Lemma main_fails_before_fetch_witness :
  (environ Cases.file_in_the_way !! "LINKACE_BASE_URL" = None
   /\ exists e w',
        main Cases.file_in_the_way = (Raise e, w')
        /\ sent w' = [] /\ files w' = files Cases.file_in_the_way
        /\ e = AttributeError "'NoneType' object has no attribute 'rstrip'")
  /\ (let w :=
        mk_World {[ "LINKACE_BASE_URL" := "https://links.example.org" ]}
          (fun _ => Scenario.reading) 0 Cases.unavailable [] [] [] [] ∅
          {[ "content" := "not a directory" ]} in
      exists e w', main w = (Raise e, w') /\ sent w' = [] /\ stdout w' = []).
Proof.
  split.
  - assert (H : environ Cases.file_in_the_way !! "LINKACE_BASE_URL" = None)
      by reflexivity.
    split; [exact H |].
    destruct (main_fails_before_fetch Cases.file_in_the_way (or_introl H))
      as (e & w' & Hm & Hs & _ & Hf & _ & He).
    exists e, w'. split; [exact Hm |]. split; [exact Hs |].
    split; [exact Hf |]. apply He. exact H.
  - intros w.
    assert (H : Exists (fun q => is_Some (files w !! PyPath.to_string q))
                  (PyPath.chain
                     (PyPath.of_string
                        (default "./content/posts"
                           (environ w !! "HUGO_CONTENT_PATH"))))).
    { apply Exists_cons_hd. vm_compute. eauto. }
    destruct (main_fails_before_fetch w (or_intror H))
      as (e & w' & Hm & Hs & Ho & _).
    exists e, w'. split; [exact Hm |]. split; [exact Hs | exact Ho].
Defined.

End MainMore.

(** ** [LinkAceClient.__init__] *)

Section LinkAceInit.

Import LinkAceClient.

Lemma append_cons a s t : String a s +:+ t = String a (s +:+ t).
Proof. reflexivity. Qed.

Lemma append_assoc_r s t u : (s +:+ t) +:+ u = s +:+ (t +:+ u).
Proof.
  induction s as [| a s IH]; [reflexivity |].
  rewrite !append_cons, IH. reflexivity.
Qed.

Lemma rev_app_spec s t : String.rev_app s t = String.rev s +:+ t.
Proof.
  revert t. induction s as [| a s IH]; intros t; [reflexivity |].
  unfold String.rev. cbn [String.rev_app].
  rewrite (IH (String a t)), (IH (String a "")), append_assoc_r.
  reflexivity.
Qed.

Lemma rev_cons a s : String.rev (String a s) = String.rev s +:+ String a "".
Proof. unfold String.rev at 1. cbn [String.rev_app]. apply rev_app_spec. Qed.

Lemma rev_append s t : String.rev (s +:+ t) = String.rev t +:+ String.rev s.
Proof.
  induction s as [| a s IH].
  - change ("" +:+ t) with t. symmetry. apply append_empty_r.
  - rewrite append_cons, !rev_cons, IH, append_assoc_r. reflexivity.
Qed.

Lemma rev_involutive s : String.rev (String.rev s) = s.
Proof.
  induction s as [| a s IH]; [reflexivity |].
  rewrite rev_cons, rev_append, IH. reflexivity.
Qed.

Lemma repeat_char_snoc c n :
  PyStr.repeat (String c "") n +:+ String c ""
  = String c "" +:+ PyStr.repeat (String c "") n.
Proof.
  induction n as [| n IH]; [reflexivity |].
  cbn [PyStr.repeat]. rewrite append_assoc_r, IH. reflexivity.
Qed.

Lemma rev_repeat_char c n :
  String.rev (PyStr.repeat (String c "") n) = PyStr.repeat (String c "") n.
Proof.
  induction n as [| n IH]; [reflexivity |].
  cbn [PyStr.repeat]. rewrite rev_append, IH. apply repeat_char_snoc.
Qed.

Lemma ends_with_char_snoc c s a :
  ends_with_char c (s +:+ String a "") = Ascii.eqb a c.
Proof.
  induction s as [| b s IH]; [reflexivity |].
  rewrite append_cons. cbn [ends_with_char]. rewrite IH.
  destruct s; reflexivity.
Qed.

Lemma lstrip_char_repeat c n s :
  PyStr.lstrip_char c (PyStr.repeat (String c "") n +:+ s)
  = PyStr.lstrip_char c s.
Proof.
  induction n as [| n IH]; [reflexivity |].
  cbn [PyStr.repeat]. rewrite append_assoc_r, append_cons.
  cbn [PyStr.lstrip_char]. rewrite Ascii.eqb_refl. exact IH.
Qed.

Lemma rstrip_char_spec c core n :
  ends_with_char c core = false ->
  PyStr.rstrip_char c (core +:+ PyStr.repeat (String c "") n) = core.
Proof.
  intros H. unfold PyStr.rstrip_char.
  rewrite rev_append, rev_repeat_char, lstrip_char_repeat.
  rewrite <- (rev_involutive core) in H.
  destruct (String.rev core) as [| a r] eqn:E.
  - rewrite <- (rev_involutive core), E. reflexivity.
  - rewrite rev_cons, ends_with_char_snoc in H.
    cbn [PyStr.lstrip_char]. rewrite H, <- E. apply rev_involutive.
Qed.

(** X19. [LinkAceClient.__init__] removes every trailing slash of
    [LINKACE_BASE_URL], so that the address of the request has exactly one
    slash between the base and [api]; it leaves the world as it was; and
    an API key that is not set ends up in the [Authorization] header as
    the text [Bearer None]. *)
Theorem linkace_init_strips_trailing_slashes (w : World) (core : string)
    (n : nat) (list_id : Z) :
  environ w !! "LINKACE_BASE_URL" = Some (core +:+ PyStr.repeat "/" n) ->
  ends_with_char "/" core = false ->
  exists self,
    __init__ w = (Ok self, w)
    /\ base_url self = core
    /\ links_url self list_id
       = core +:+ "/api/v2/lists/" +:+ PyStr.of_Z list_id +:+ "/links"
    /\ (environ w !! "LINKACE_API_KEY" = None ->
        headers self
        = [("Authorization", "Bearer None");
           ("Content-Type", "application/json");
           ("Accept", "application/json")]).
Proof.
  intros Hb Hc. unfold __init__, bind, getenv, ret. rewrite Hb.
  eexists. split; [reflexivity |]. cbn [base_url headers].
  unfold links_url. cbn [base_url].
  rewrite (rstrip_char_spec "/" core n Hc).
  split; [reflexivity |]. split; [reflexivity |].
  intros ->. reflexivity.
Qed.

Lemma linkace_init_strips_trailing_slashes_witness :
  let w :=
    mk_World {[ "LINKACE_BASE_URL" := "https://links.example.org///" ]}
      (fun _ => Scenario.reading) 0 Cases.unavailable [] [] [] [] ∅ ∅ in
  environ w !! "LINKACE_BASE_URL"
  = Some ("https://links.example.org" +:+ PyStr.repeat "/" 3)
  /\ ends_with_char "/" "https://links.example.org" = false
  /\ exists self,
       __init__ w = (Ok self, w)
       /\ links_url self 12 = "https://links.example.org/api/v2/lists/12/links".
Proof.
  intros w.
  assert (Hb : environ w !! "LINKACE_BASE_URL"
               = Some ("https://links.example.org" +:+ PyStr.repeat "/" 3))
    by (vm_compute; reflexivity).
  assert (Hc : ends_with_char "/" "https://links.example.org" = false)
    by reflexivity.
  split; [exact Hb |]. split; [exact Hc |].
  destruct (linkace_init_strips_trailing_slashes w
              "https://links.example.org" 3 12 Hb Hc)
    as (self & Hi & _ & Hu & _).
  exists self. split; [exact Hi |]. rewrite Hu. vm_compute. reflexivity.
Defined.

End LinkAceInit.

(** ** The prompt of [structure_links] *)

Section Prompt.

Import ContentProcessor.

Lemma occurs_in_refl s : occurs_in s s.
Proof. exists "", "". rewrite append_empty_r. reflexivity. Qed.

Lemma occurs_in_app_l p s t : occurs_in p s -> occurs_in p (s +:+ t).
Proof.
  intros (pre & post & ->). exists pre, (post +:+ t).
  rewrite !append_assoc_r. reflexivity.
Qed.

Lemma occurs_in_app_r p s t : occurs_in p s -> occurs_in p (t +:+ s).
Proof.
  intros (pre & post & ->). exists (t +:+ pre), post.
  rewrite !append_assoc_r. reflexivity.
Qed.

Lemma occurs_in_trans p q s : occurs_in p q -> occurs_in q s -> occurs_in p s.
Proof.
  intros Hpq (pre & post & ->).
  apply occurs_in_app_r, occurs_in_app_l. exact Hpq.
Qed.

Lemma occurs_in_join sep x xs : In x xs -> occurs_in x (PyStr.join sep xs).
Proof.
  induction xs as [| y ys IH]; [intros [] |].
  intros [-> | Hin].
  - destruct ys; [apply occurs_in_refl |].
    cbn [PyStr.join]. apply occurs_in_app_l, occurs_in_refl.
  - destruct ys as [| z zs]; [destruct Hin |].
    change (PyStr.join sep (y :: z :: zs))
      with (y +:+ sep +:+ PyStr.join sep (z :: zs)).
    apply occurs_in_app_r, occurs_in_app_r, IH, Hin.
Qed.

(** A comprehension that ends has evaluated its body at every item. *)
Lemma comprehension_at {A B : Type} (f : A -> result B) (l : list A)
    (r : list B) (x : A) :
  comprehension f l = Ok r -> In x l -> exists y, f x = Ok y /\ In y r.
Proof.
  revert r. induction l as [| a l IH]; intros r Hc Hin; [destruct Hin |].
  cbn [comprehension] in Hc. unfold rbind in Hc.
  destruct (f a) as [b |] eqn:Ha; [| discriminate].
  destruct (comprehension f l) as [ys |]; [| discriminate].
  injection Hc as <-. destruct Hin as [-> | Hin].
  - exists b. split; [exact Ha | left; reflexivity].
  - destruct (IH ys eq_refl Hin) as (y & Hy & Hyin).
    exists y. split; [exact Hy | right; exact Hyin].
Qed.

(** Joining strings is the join of strings. *)
Lemma join_items_names (i : Z) (names : list string) :
  Json.join_items i (Json.JStr <$> names) = Ok names.
Proof.
  revert i. induction names as [| s names IH]; intros i; [reflexivity |].
  cbn [fmap list_fmap Json.join_items].
  change (list_fmap _ _ Json.JStr names) with (Json.JStr <$> names).
  rewrite IH. reflexivity.
Qed.

(** X20. Every link given to [structure_links] reaches the prompt, when
    the prompt can be built (it always can when the tags are strings): the
    link's block occurs in it as it is, and so do its title between the
    emphasis marks, its address, its description, its tags joined by a
    comma and a space and its creation time as the service wrote it,
    each after its label and rendered as [str] does; the prompt opens
    with the number of links. *)
Theorem structure_prompt_holds_every_link (links : list Link.t)
    (l : Link.t) (prompt : string) :
  In l links ->
  structure_prompt links = Ok prompt ->
  exists block tags,
    link_block l = Ok block
    /\ Json.join ", " (Link.tags l) = Ok tags
    /\ (forall names,
          Link.tags l = Json.JStr <$> names -> tags = PyStr.join ", " names)
    /\ occurs_in block prompt
    /\ Forall (fun line => occurs_in line prompt)
         [ "**" +:+ Json.str (Link.title l) +:+ "**" +:+ PyStr.NL;
           "URL: " +:+ Json.str (Link.url l) +:+ PyStr.NL;
           "Description: " +:+ Json.str (Link.description l) +:+ PyStr.NL;
           "Tags: " +:+ tags +:+ PyStr.NL;
           "Date: " +:+ Json.str (Link.created_at l) +:+ PyStr.NL;
           "digest from these " +:+ PyStr.of_Z (Z.of_nat (List.length links))
             +:+ " links" ].
Proof.
  intros Hin Hp. unfold structure_prompt, links_text, rbind in Hp.
  destruct (comprehension link_block links) as [blocks |] eqn:Hc;
    [| discriminate].
  injection Hp as <-.
  destruct (comprehension_at _ _ _ _ Hc Hin) as (block & Hb & Hbin).
  pose proof Hb as Hblock_eq.
  unfold link_block, rbind in Hb.
  destruct (Json.join ", " (Link.tags l)) as [tags |] eqn:Hj; [| discriminate].
  injection Hb as Hb.
  set (prompt := prompt_text (Z.of_nat (List.length links))
                   (PyStr.join PyStr.NL blocks)).
  assert (Hblock : occurs_in block prompt).
  { apply occurs_in_trans
      with (q := "        " +:+ PyStr.join PyStr.NL blocks).
    - apply occurs_in_app_r, occurs_in_join, Hbin.
    - unfold prompt, prompt_text. apply occurs_in_join.
      do 4 right. left. reflexivity. }
  exists block, tags.
  split; [exact Hblock_eq |]. split; [reflexivity |].
  split.
  { intros names Hn. unfold Json.join in Hj.
    rewrite Hn, join_items_names in Hj. injection Hj as <-. reflexivity. }
  split; [exact Hblock |].
  repeat constructor.
  - eapply occurs_in_trans; [| exact Hblock]. rewrite <- Hb.
    exists "", ("URL: " +:+ Json.str (Link.url l) +:+ PyStr.NL
                +:+ "Description: " +:+ Json.str (Link.description l)
                +:+ PyStr.NL
                +:+ "Tags: " +:+ tags +:+ PyStr.NL
                +:+ "Date: " +:+ Json.str (Link.created_at l) +:+ PyStr.NL
                +:+ "---" +:+ PyStr.NL).
    rewrite !append_assoc_r. reflexivity.
  - eapply occurs_in_trans; [| exact Hblock]. rewrite <- Hb.
    exists ("**" +:+ Json.str (Link.title l) +:+ "**" +:+ PyStr.NL),
      ("Description: " +:+ Json.str (Link.description l) +:+ PyStr.NL
       +:+ "Tags: " +:+ tags +:+ PyStr.NL
       +:+ "Date: " +:+ Json.str (Link.created_at l) +:+ PyStr.NL
       +:+ "---" +:+ PyStr.NL).
    rewrite !append_assoc_r. reflexivity.
  - eapply occurs_in_trans; [| exact Hblock]. rewrite <- Hb.
    exists ("**" +:+ Json.str (Link.title l) +:+ "**" +:+ PyStr.NL
            +:+ "URL: " +:+ Json.str (Link.url l) +:+ PyStr.NL),
      ("Tags: " +:+ tags +:+ PyStr.NL
       +:+ "Date: " +:+ Json.str (Link.created_at l) +:+ PyStr.NL
       +:+ "---" +:+ PyStr.NL).
    rewrite !append_assoc_r. reflexivity.
  - eapply occurs_in_trans; [| exact Hblock]. rewrite <- Hb.
    exists ("**" +:+ Json.str (Link.title l) +:+ "**" +:+ PyStr.NL
            +:+ "URL: " +:+ Json.str (Link.url l) +:+ PyStr.NL
            +:+ "Description: " +:+ Json.str (Link.description l)
            +:+ PyStr.NL),
      ("Date: " +:+ Json.str (Link.created_at l) +:+ PyStr.NL
       +:+ "---" +:+ PyStr.NL).
    rewrite !append_assoc_r. reflexivity.
  - eapply occurs_in_trans; [| exact Hblock]. rewrite <- Hb.
    exists ("**" +:+ Json.str (Link.title l) +:+ "**" +:+ PyStr.NL
            +:+ "URL: " +:+ Json.str (Link.url l) +:+ PyStr.NL
            +:+ "Description: " +:+ Json.str (Link.description l)
            +:+ PyStr.NL
            +:+ "Tags: " +:+ tags +:+ PyStr.NL),
      ("---" +:+ PyStr.NL).
    rewrite !append_assoc_r. reflexivity.
  - eapply occurs_in_trans;
      [| unfold prompt, prompt_text; apply occurs_in_join; right; left;
         reflexivity].
    exists "        Create a well-structured weekly ", " I've saved this week.".
    rewrite !append_assoc_r. reflexivity.
Qed.

Lemma structure_prompt_holds_every_link_witness :
  let a := Scenario.link 1 "2024-01-14T08:00:00Z" in
  let b :=
    Link.mk (Json.JInt 2) (Json.JStr "https://example.org/b") (Json.JStr "B")
      Json.JNull (Json.JStr "2024-01-13T08:00:00Z") [] in
  In b [a; b]
  /\ exists prompt,
       structure_prompt [a; b] = Ok prompt
       /\ occurs_in ("Description: None" +:+ PyStr.NL) prompt
       /\ occurs_in ("Tags: " +:+ PyStr.NL) prompt.
Proof.
  intros a b.
  assert (H : In b [a; b]) by (right; left; reflexivity).
  split; [exact H |].
  destruct (structure_prompt [a; b]) as [prompt | e] eqn:Hp;
    [| vm_compute in Hp; discriminate].
  exists prompt. split; [reflexivity |].
  destruct (structure_prompt_holds_every_link [a; b] b prompt H Hp)
    as (block & tags & _ & Hj & _ & _ & Hl).
  assert (Ht : tags = "") by (vm_compute in Hj; congruence).
  subst tags.
  apply Forall_cons in Hl as [_ Hl]. apply Forall_cons in Hl as [_ Hl].
  apply Forall_cons in Hl as [Hd Hl]. apply Forall_cons in Hl as [Ht _].
  split; [exact Hd | exact Ht].
Defined.

End Prompt.

(** ** Tags that are not strings *)

Section UntypedTags.

Import ContentProcessor.

(** A comprehension that raises has met an item at which its body
    raises. *)
Lemma comprehension_raises {A B : Type} (f : A -> result B) (l : list A) e :
  comprehension f l = Raise e -> exists x, In x l /\ f x = Raise e.
Proof.
  induction l as [| a l IH]; [discriminate |].
  cbn [comprehension]. unfold rbind.
  destruct (f a) as [b |] eqn:Ha.
  - destruct (comprehension f l) as [ys |]; [discriminate |].
    intros H. injection H as <-.
    destruct (IH eq_refl) as (x & Hin & Hx).
    exists x. split; [right; exact Hin | exact Hx].
  - intros H. injection H as <-. exists a. split; [left; reflexivity | exact Ha].
Qed.

(** X21. The record's tag names reach [', '.join] as the service sent
    them.  When the prompt cannot be built, one of the links has tags
    whose join raises, [main] stops there with that exception, after the
    two notices and before any request to the model: the editor is not
    asked and no file is written. *)
Theorem process_raises_when_prompt_fails (processor : ContentProcessor.t)
    (hugo_generator : HugoContentGenerator.t) (l : Link.t)
    (links : list Link.t) (e : exn) (w : World) :
  structure_prompt (l :: links) = Raise e ->
  (exists link, In link (l :: links)
                /\ Json.join ", " (Link.tags link) = Raise e)
  /\ exists w',
       process processor hugo_generator (l :: links) w = (Raise e, w')
       /\ sent w' = sent w /\ stdin w' = stdin w /\ files w' = files w.
Proof.
  intros Hp. split.
  - unfold structure_prompt, links_text, rbind in Hp.
    destruct (comprehension link_block (l :: links)) as [blocks |] eqn:Hc;
      [discriminate |].
    injection Hp as <-.
    destruct (comprehension_raises _ _ _ Hc) as (link & Hin & Hb).
    exists link. split; [exact Hin |].
    unfold link_block, rbind in Hb.
    destruct (Json.join ", " (Link.tags link)); [discriminate | exact Hb].
  - unfold process, structure_links.
    unfold bind, print, lift. rewrite Hp.
    eexists. split; [reflexivity |]. repeat split.
Qed.

Lemma process_raises_when_prompt_fails_witness :
  let record :=
    Json.JObj [("id", Json.JInt 4); ("url", Json.JStr "https://example.org/d");
               ("title", Json.JStr "D"); ("description", Json.JNull);
               ("created_at", Json.JStr "2024-01-14T08:00:00Z");
               ("tags", Json.JArr [Json.JObj [("name", Json.JStr "a")];
                                   Json.JObj [("name", Json.JInt 3)]])] in
  let l :=
    Link.mk (Json.JInt 4) (Json.JStr "https://example.org/d") (Json.JStr "D")
      Json.JNull (Json.JStr "2024-01-14T08:00:00Z")
      [Json.JStr "a"; Json.JInt 3] in
  let e := TypeError "sequence item 1: expected str instance, int found" in
  let w := review_world ["unread"] in
  LinkAceClient.make_link record = Ok l
  /\ structure_prompt [l] = Raise e
  /\ exists w',
       process plain_processor Scenario.generator [l] w = (Raise e, w')
       /\ sent w' = [] /\ stdin w' = ["unread"] /\ files w' = files w.
Proof.
  intros record l e w.
  assert (Hp : structure_prompt [l] = Raise e) by (vm_compute; reflexivity).
  split; [vm_compute; reflexivity |]. split; [exact Hp |].
  destruct (process_raises_when_prompt_fails plain_processor
              Scenario.generator l [] e w Hp) as (_ & w' & Hr & Hs & Hin & Hf).
  exists w'. split; [exact Hr |]. split; [exact Hs |].
  split; [exact Hin | exact Hf].
Defined.

End UntypedTags.
